(** * The AMMS web client (src/web/app.js), embedded and verified

    The client is one flat browser script: it looks up page elements, talks
    to the REST backend through a single [api] helper built on [fetch],
    and writes what it receives back into the page.

    The embedding follows the script statement by statement.

    - JavaScript values are an inductive type [Js.value]; numbers are IEEE
      binary64 values, written as [spec_float].
    - What the JavaScript engine provides ([JSON.parse], [JSON.stringify],
      [parseFloat], [parseInt], number formatting, [String.prototype.trim],
      the text of a [TypeError]) is an interface, [Js.Engine]; the script is
      verified for every engine.
    - The page is a finite map from selectors to elements; a handle such as
      [statusEl] is the selector it was looked up with, and is [null] exactly
      when the page has no such element.
    - A computation of the script is a function from the state of the browser
      (page, request log, log of body reads, timers, plots, uncaught errors,
      listeners) to a completion ([Normal] or [Throw]) and a new state.
      [await] is the sequencing of that monad: the answer of the server to
      the [n]-th request is [server st n].  A call of an [async] function
      that is not awaited is [spawn]: its rejection cannot reach the caller
      and is recorded as uncaught.
    - A task of the event loop (the top level of the script, a listener, a
      tick of an interval) runs to its end before the next one starts; the
      continuations of several pending requests are not interleaved. *)

From Stdlib Require Import ZArith Ascii String List SpecFloat.
From stdpp Require Import base option gmap strings list pretty.

Local Set Warnings "-register-all".

(** ** JavaScript values *)

Module Js.

Inductive value : Type :=
| VUndefined
| VNull
| VBool (b : bool)
| VNum (x : spec_float)
| VStr (s : string)
| VArr (items : list value)
| VObj (props : list (string * value)).

(** The errors the script can observe; it only ever reads [err.message]. *)
Inductive exn : Type :=
| Error (msg : string)
| TypeError (msg : string)
| SyntaxError (msg : string).

Definition message (e : exn) : string :=
  match e with Error m | TypeError m | SyntaxError m => m end.

Inductive completion (A : Type) : Type :=
| Normal (a : A)
| Throw (e : exn).
Arguments Normal {A} a.
Arguments Throw {A} e.

(** An integer literal of the source as a binary64 number. *)
Definition number_of_Z (z : Z) : spec_float := binary_normalize 53 1024 z 0 false.

Definition is_NaN (x : spec_float) : bool :=
  match x with S754_nan => true | _ => false end.

(** ToBoolean. *)
Definition number_truthy (x : spec_float) : bool :=
  match x with S754_nan | S754_zero _ => false | _ => true end.

Definition string_truthy (s : string) : bool :=
  match s with EmptyString => false | _ => true end.

Definition truthy (v : value) : bool :=
  match v with
  | VUndefined | VNull => false
  | VBool b => b
  | VNum x => number_truthy x
  | VStr s => string_truthy s
  | VArr _ | VObj _ => true
  end.

(** [a || b] on strings and on numbers. *)
Definition string_or (a b : string) : string := if string_truthy a then a else b.
Definition number_or (a b : spec_float) : spec_float := if number_truthy a then a else b.

(** [v === 'literal'] *)
Definition strict_eq_string (v : value) (s : string) : bool :=
  match v with VStr t => String.eqb t s | _ => false end.

(** Own property lookup of an object, in the order of its keys. *)
Fixpoint assoc (k : string) (props : list (string * value)) : option value :=
  match props with
  | [] => None
  | (k', v) :: rest => if String.eqb k k' then Some v else assoc k rest
  end.

(** The [i]-th character of a string, as [s[i]] gives it (strings are
    sequences of bytes here, so this is exact on ASCII). *)
Definition char_at (s : string) (i : nat) : value :=
  match String.get i s with
  | Some c => VStr (String c EmptyString)
  | None => VUndefined
  end.

(** What the engine provides. *)
Class Engine : Type := {
  JSON_parse : string -> exn + value;
  (** [JSON.stringify(v, null, indent)] of a value other than [undefined] *)
  JSON_stringify : value -> option nat -> string;
  parseFloat : string -> spec_float;
  parseInt : string -> option nat -> spec_float;
  Number_toString : spec_float -> string;
  toExponential : spec_float -> nat -> string;
  toFixed : spec_float -> nat -> string;
  trim : string -> string;
  (** the message of the [TypeError] raised by a faulting operation *)
  typeErrorMessage : string -> string
}.

Section WithEngine.
Context {eng : Engine}.

Definition type_error {A} (what : string) : completion A :=
  Throw (TypeError (typeErrorMessage what)).

(** [v.k] for the property names the script reads ([metrics], [status],
    [task_id], [q_x] and the four metric names): none of them is an
    index, [length] or a member of a prototype, so only an object can
    have one, and reading it from [null] or [undefined] throws. *)
Definition get_field (v : value) (k : string) : completion value :=
  match v with
  | VUndefined | VNull => type_error ("reading " +:+ k)
  | VObj props => Normal (default VUndefined (assoc k props))
  | _ => Normal VUndefined
  end.

(** [v[i]] for a numeric literal [i]. *)
Definition get_index (v : value) (i : nat) : completion value :=
  match v with
  | VUndefined | VNull => type_error "reading an index"
  | VArr items => Normal (default VUndefined (items !! i))
  | VStr s => Normal (char_at s i)
  | VObj props => Normal (default VUndefined (assoc (pretty i) props))
  | _ => Normal VUndefined
  end.

(** [v.map(f)] and [v.forEach(f)] exist on arrays only; a JSON value
    holds no function, so on anything else the call throws. *)
Definition as_array (v : value) (method : string) : completion (list value) :=
  match v with
  | VArr items => Normal items
  | _ => type_error (method +:+ " is not a function")
  end.

(** [x.toExponential(d)] and [x.toFixed(d)] exist on numbers only. *)
Definition call_toExponential (v : value) (digits : nat) : completion string :=
  match v with
  | VNum x => Normal (toExponential x digits)
  | _ => type_error "toExponential is not a function"
  end.

Definition call_toFixed (v : value) (digits : nat) : completion string :=
  match v with
  | VNum x => Normal (toFixed x digits)
  | _ => type_error "toFixed is not a function"
  end.

(** ToString, as a template literal applies it to [${v}]. *)
Fixpoint ToString (v : value) : string :=
  match v with
  | VUndefined => "undefined"
  | VNull => "null"
  | VBool true => "true"
  | VBool false => "false"
  | VNum x => Number_toString x
  | VStr s => s
  | VArr items =>
      (fix join (l : list value) : string :=
         match l with
         | [] => EmptyString
         | e :: rest =>
             let here :=
               match e with VUndefined | VNull => EmptyString | _ => ToString e end in
             match rest with
             | [] => here
             | _ => here +:+ "," +:+ join rest
             end
         end) items
  | VObj _ => "[object Object]"
  end.

(** Sequencing of completions, and the result of a call that may throw. *)
Definition and_then {A B} (c : completion A) (k : A -> completion B) : completion B :=
  match c with Normal a => k a | Throw e => Throw e end.

Definition of_sum {A} (r : exn + A) : completion A :=
  match r with inl e => Throw e | inr a => Normal a end.

(** [items.map(f)] for a callback that may throw. *)
Fixpoint array_map (f : value -> completion value) (items : list value)
  : completion (list value) :=
  match items with
  | [] => Normal []
  | item :: rest =>
      and_then (f item) (fun b => and_then (array_map f rest) (fun bs => Normal (b :: bs)))
  end.

(** [JSON.stringify(v)] inside a template literal: [undefined] is not
    serialised, and prints as the word. *)
Definition stringify_in_template (v : value) : string :=
  match v with
  | VUndefined => "undefined"
  | _ => JSON_stringify v None
  end.

End WithEngine.

End Js.

(** ** The browser as the script sees it *)

Module Browser.
Import Js.

(** *** The page *)

(** The children of an element: text set through [textContent], markup set
    through [innerHTML] (kept as written, not parsed), and elements made by
    [document.createElement] and appended. *)
Inductive node : Type :=
| TextNode (text : string)
| Markup (html : string)
| Created (tag : string) (children : list node).

Record Element : Type := mkElement {
  value : string;          (* el.value *)
  checked : bool;          (* el.checked *)
  content : list node;     (* the children of el *)
  display : string         (* el.style.display *)
}.

(** [el.textContent = s] and [el.innerHTML = s] both replace the children of
    [el]; the empty string leaves none. *)
Definition text_nodes (s : string) : list node :=
  match s with EmptyString => [] | _ => [TextNode s] end.

Definition markup_nodes (s : string) : list node :=
  match s with EmptyString => [] | _ => [Markup s] end.

Definition with_content (el : Element) (c : list node) : Element :=
  {| value := value el; checked := checked el; content := c; display := display el |}.

Definition with_value (el : Element) (s : string) : Element :=
  {| value := s; checked := checked el; content := content el; display := display el |}.

Definition with_display (el : Element) (s : string) : Element :=
  {| value := value el; checked := checked el; content := content el; display := s |}.

(** *** The network *)

(** The second argument of [api]. *)
Record Options : Type := mkOptions {
  method : option string;
  headers : option (list (string * string));
  body : option string
}.

Definition no_options : Options := {| method := None; headers := None; body := None |}.

Definition POST (payload : string) : Options :=
  {| method := Some "POST"; headers := None; body := Some payload |}.

(** What [fetch] is called with. *)
Record Request : Type := mkRequest {
  url : string;
  init_method : option string;
  init_headers : list (string * string);
  init_body : option string
}.

(** [fetch] sends a GET when [init] names no method. *)
Definition http_method (r : Request) : string := default "GET" (init_method r).

(** What [fetch] resolves to: [res.ok], [res.statusText] and the body, which
    [res.text()] returns as it is and [res.json()] parses. *)
Record Response : Type := mkResponse {
  ok : bool;
  statusText : string;
  text : string
}.

(** How the body of a response was read. *)
Inductive body_read : Type :=
| read_text     (* res.text() *)
| read_json.    (* res.json() *)

(** *** Timers and plots *)

(** The one closure the script hands to [setInterval]: the polling callback,
    which captures [task_id]. *)
Inductive callback : Type :=
| poll_callback (task_id : Js.value).

Record Timer : Type := mkTimer {
  period : nat;            (* milliseconds *)
  action : callback
}.

(** A trace given to [Plotly.newPlot]. *)
Record Trace : Type := mkTrace {
  type : string;
  x : list Js.value; y : list Js.value; z : list Js.value;
  u : list Js.value; v : list Js.value; w : list Js.value;
  sizemode : string;
  sizeref : nat
}.

(** The listeners the script attaches, named after the element and the event. *)
Inductive listener : Type :=
| submitTaskBtn_click
| startResearchBtn_click
| refreshMetricsBtn_click
| llmQueryBtn_click
| eqgftVizTypeEl_change
| eqgftRunBtn_click
| eqgftSendLlmBtn_click.

#[global] Instance listener_eq_dec : EqDecision listener.
Proof. solve_decision. Defined.

(** *** The state *)

Record World : Type := mkWorld {
  dom : gmap string Element;          (* the page, by selector *)
  requests : list Request;            (* every call of fetch, oldest first *)
  body_reads : list body_read;        (* every read of a response body, oldest first *)
  server : nat -> exn + Response;     (* the outcome of the n-th fetch *)
  timers : gmap nat Timer;            (* the running intervals, by handle *)
  next_timer : nat;                   (* the handle setInterval returns next *)
  plots : list (string * list Trace); (* the calls of Plotly.newPlot *)
  uncaught : list exn;                (* uncaught errors and unhandled rejections *)
  listeners : list listener           (* the listeners attached so far *)
}.

Definition with_dom (st : World) (d : gmap string Element) : World :=
  {| dom := d; requests := requests st; body_reads := body_reads st;
     server := server st; timers := timers st;
     next_timer := next_timer st; plots := plots st; uncaught := uncaught st;
     listeners := listeners st |}.

Definition with_requests (st : World) (r : list Request) : World :=
  {| dom := dom st; requests := r; body_reads := body_reads st; server := server st;
     timers := timers st;
     next_timer := next_timer st; plots := plots st; uncaught := uncaught st;
     listeners := listeners st |}.

Definition with_body_reads (st : World) (b : list body_read) : World :=
  {| dom := dom st; requests := requests st; body_reads := b; server := server st;
     timers := timers st; next_timer := next_timer st; plots := plots st;
     uncaught := uncaught st; listeners := listeners st |}.

Definition with_timers (st : World) (t : gmap nat Timer) (n : nat) : World :=
  {| dom := dom st; requests := requests st; body_reads := body_reads st;
     server := server st; timers := t;
     next_timer := n; plots := plots st; uncaught := uncaught st;
     listeners := listeners st |}.

Definition with_plots (st : World) (p : list (string * list Trace)) : World :=
  {| dom := dom st; requests := requests st; body_reads := body_reads st;
     server := server st; timers := timers st;
     next_timer := next_timer st; plots := p; uncaught := uncaught st;
     listeners := listeners st |}.

Definition with_uncaught (st : World) (e : list exn) : World :=
  {| dom := dom st; requests := requests st; body_reads := body_reads st;
     server := server st; timers := timers st;
     next_timer := next_timer st; plots := plots st; uncaught := e;
     listeners := listeners st |}.

Definition with_listeners (st : World) (l : list listener) : World :=
  {| dom := dom st; requests := requests st; body_reads := body_reads st;
     server := server st; timers := timers st;
     next_timer := next_timer st; plots := plots st; uncaught := uncaught st;
     listeners := l |}.

(** The state after [fetch(r)] was called, and after a body was read. *)
Definition logged (st : World) (r : Request) : World :=
  with_requests st (requests st ++ [r]).

Definition read_body (st : World) (how : body_read) : World :=
  with_body_reads st (body_reads st ++ [how]).

(** *** Computations *)

Definition M (A : Type) : Type := World -> completion A * World.

Definition ret {A} (a : A) : M A := fun st => (Normal a, st).

Definition throw {A} (e : exn) : M A := fun st => (Throw e, st).

Definition bind {A B} (m : M A) (k : A -> M B) : M B :=
  fun st =>
    match m st with
    | (Normal a, st') => k a st'
    | (Throw e, st') => (Throw e, st')
    end.

Notation "'let!' x ':=' m 'in' k" := (bind m (fun x => k))
  (at level 10, x name, m at level 100, k at level 200).
Notation "m ';;' k" := (bind m (fun _ => k))
  (at level 100, k at level 200, right associativity).

(** A completion of the engine, as a step of the script. *)
Definition lift {A} (c : completion A) : M A := fun st => (c, st).

(** [try { m } catch (err) { h err }] *)
Definition try_catch {A} (m : M A) (h : exn -> M A) : M A :=
  fun st =>
    match m st with
    | (Normal a, st') => (Normal a, st')
    | (Throw e, st') => h e st'
    end.

(** A call of an async function whose promise is dropped. *)
Definition spawn (m : M unit) : M unit :=
  fun st =>
    match m st with
    | (Normal _, st') => (Normal tt, st')
    | (Throw e, st') => (Normal tt, with_uncaught st' (uncaught st' ++ [e]))
    end.

Section WithEngine.
Context {eng : Engine}.

(** [document.querySelector(sel)], [null] as [None]. *)
Definition querySelector (sel : string) : M (option Element) :=
  fun st => (Normal (dom st !! sel), st).

(** A write through a handle: a [TypeError] when the handle is [null]. *)
Definition update (sel : string) (what : string) (f : Element -> Element) : M unit :=
  fun st =>
    match dom st !! sel with
    | Some el => (Normal tt, with_dom st (<[sel := f el]> (dom st)))
    | None => (type_error ("setting " +:+ what +:+ " of null"), st)
    end.

Definition set_textContent (sel s : string) : M unit :=
  update sel "textContent" (fun el => with_content el (text_nodes s)).

Definition set_innerHTML (sel s : string) : M unit :=
  update sel "innerHTML" (fun el => with_content el (markup_nodes s)).

Definition set_value (sel s : string) : M unit :=
  update sel "value" (fun el => with_value el s).

Definition set_display (sel s : string) : M unit :=
  update sel "style.display" (fun el => with_display el s).

(** [parent.appendChild(child)] *)
Definition appendChild (sel : string) (child : node) : M unit :=
  update sel "appendChild" (fun el => with_content el (content el ++ [child])).

(** [el.value] and [el.checked] through a handle. *)
Definition read {A} (sel : string) (what : string) (f : Element -> A) : M A :=
  fun st =>
    match dom st !! sel with
    | Some el => (Normal (f el), st)
    | None => (type_error ("reading " +:+ what +:+ " of null"), st)
    end.

(** [fetch(url, init)]: the call is logged, and the server answers. *)
Definition fetch (r : Request) : M Response :=
  fun st =>
    match server st (length (requests st)) with
    | inl e => (Throw e, logged st r)
    | inr res => (Normal res, logged st r)
    end.

(** [res.text()] and [res.json()] *)
Definition res_text (res : Response) : M string :=
  fun st => (Normal (text res), read_body st read_text).

Definition json (res : Response) : M Js.value :=
  fun st => (of_sum (JSON_parse (text res)), read_body st read_json).

(** [setInterval(f, ms)] and [clearInterval(handle)] *)
Definition setInterval (f : callback) (ms : nat) : M nat :=
  fun st =>
    (Normal (next_timer st),
     with_timers st (<[next_timer st := {| period := ms; action := f |}]> (timers st))
                 (S (next_timer st))).

Definition clearInterval (handle : nat) : M unit :=
  fun st => (Normal tt, with_timers st (delete handle (timers st)) (next_timer st)).

(** [Plotly.newPlot(target, traces)] *)
Definition Plotly_newPlot (target : string) (traces : list Trace) : M unit :=
  fun st => (Normal tt, with_plots st (plots st ++ [(target, traces)])).

(** [el?.addEventListener(...)]: nothing is attached through a [null] handle. *)
Definition addEventListener (sel : string) (l : listener) : M unit :=
  fun st =>
    match dom st !! sel with
    | Some _ => (Normal tt, with_listeners st (listeners st ++ [l]))
    | None => (Normal tt, st)
    end.

End WithEngine.

End Browser.

(** ** The script *)

Module App.
Import Js Browser.

(** The handles of lines 1-18 and 178-183, as the selectors they come from. *)
Definition statusEl : string := "#status".
Definition metricsEl : string := "#metrics".
Definition refreshMetricsBtn : string := "#refresh-metrics".
Definition taskListEl : string := "#task-list".
Definition submitTaskBtn : string := "#submit-task".
Definition taskJsonEl : string := "#task-json".
Definition taskExecuteEl : string := "#task-execute".
Definition llmQueryBtn : string := "#send-llm".
Definition llmQueryEl : string := "#llm-query".
Definition llmResponseEl : string := "#llm-response".
Definition vizPacketEl : string := "#viz-packet".
Definition researchGoalEl : string := "#campaign-goal".
Definition researchTargetEl : string := "#campaign-target".
Definition researchTargetValueEl : string := "#campaign-target-value".
Definition researchStepsEl : string := "#campaign-steps".
Definition researchContextEl : string := "#campaign-context".
Definition researchResultEl : string := "#research-result".
Definition startResearchBtn : string := "#start-research".
Definition eqgftVizTypeEl : string := "#eqgft-viz-type".
Definition eqgftPythonScriptContainerEl : string := "#eqgft-python-script-container".
Definition eqgftRunBtn : string := "#eqgft-run".
Definition eqgftSendLlmBtn : string := "#eqgft-send-llm".
Definition eqgftLlmQueryEl : string := "#eqgft-llm-query".
Definition eqgftResponseEl : string := "#eqgft-response".

Definition dquote : string := String (Ascii.ascii_of_nat 34) EmptyString.

(** [{ headers: { 'Content-Type': 'application/json', ...(options.headers || {}) },
      ...options }]: the spread of [options] comes last, so headers given by
    the caller replace the merged ones. *)
Definition init_of (path : string) (options : Options) : Request :=
  {| url := "/api" +:+ path;
     init_method := method options;
     init_headers :=
       match headers options with
       | Some h => h
       | None => [("Content-Type", "application/json")]
       end;
     init_body := body options |}.

Section WithEngine.
Context {eng : Engine}.

(** Lines 20-29. *)
Definition api (path : string) (options : Options) : M Js.value :=
  let! res := fetch (init_of path options) in
  if negb (ok res) then
    let! body := res_text res in
    throw (Error (string_or body (statusText res)))
  else json res.

Definition is_null {A} (handle : option A) : bool :=
  match handle with None => true | Some _ => false end.

(** Lines 31-43. *)
Definition updatePhysicsConstants (metrics : Js.value) : M unit :=
  let! electronMassEl := querySelector "#electron-mass" in
  if negb (truthy metrics) || is_null electronMassEl then ret tt
  else
    (let! mass := lift (and_then (get_field metrics "emergent_electron_mass")
                                 (fun m => call_toExponential m 10)) in
     set_textContent "#electron-mass" (mass +:+ " kg")) ;;
    (let! alpha := lift (and_then (get_field metrics "fine_structure_constant")
                                  (fun a => call_toExponential a 10)) in
     set_textContent "#fine-structure" alpha) ;;
    (let! coherence := lift (and_then (get_field metrics "quaternion_coherence")
                                      (fun c => call_toFixed c 6)) in
     set_textContent "#quaternion-coherence" coherence) ;;
    (let! winding := lift (and_then (get_field metrics "topological_winding")
                                    (fun t => call_toFixed t 4)) in
     set_textContent "#topological-winding" winding).

(** Lines 45-53. *)
Definition refreshMetrics : M unit :=
  try_catch
    (let! data := api "/metrics" no_options in
     set_textContent metricsEl (JSON_stringify data (Some 2)) ;;
     let! metrics := lift (get_field data "metrics") in
     updatePhysicsConstants metrics)
    (fun err => set_textContent metricsEl ("Error: " +:+ message err)).

(** [arr.forEach(f)] *)
Fixpoint forEach (f : Js.value -> M unit) (items : list Js.value) : M unit :=
  match items with
  | [] => ret tt
  | item :: rest => f item ;; forEach f rest
  end.

(** Lines 60-61: the row made for one task. *)
Definition task_row (task : Js.value) : M node :=
  let! task_id := lift (get_field task "task_id") in
  let! status := lift (get_field task "status") in
  ret (Created "tr"
         (markup_nodes ("<td>" +:+ ToString task_id +:+ "</td><td>"
                        +:+ stringify_in_template status +:+ "</td>"))).

(** Line 65: the row shown for an error. *)
Definition error_row (msg : string) : string :=
  "<tr><td colspan=" +:+ dquote +:+ "2" +:+ dquote +:+ ">" +:+ msg +:+ "</td></tr>".

(** Lines 55-67. *)
Definition refreshTasks : M unit :=
  try_catch
    (let! tasks := api "/tasks" no_options in
     set_innerHTML taskListEl EmptyString ;;
     let! items := lift (as_array tasks "forEach") in
     forEach (fun task => let! tr := task_row task in appendChild taskListEl tr) items)
    (fun err => set_innerHTML taskListEl (error_row (message err))).

(** Lines 69-76. *)
Definition refreshViz : M unit :=
  try_catch
    (let! data := api "/visualization/packet" no_options in
     set_textContent vizPacketEl (JSON_stringify data (Some 2)))
    (fun err => set_textContent vizPacketEl ("Error: " +:+ message err)).

(** [data.q_x.map(v => v[i])] *)
Definition q_x_map (data : Js.value) (i : nat) : completion (list Js.value) :=
  and_then (get_field data "q_x") (fun q_x =>
  and_then (as_array q_x "map") (fun items =>
  array_map (fun v => get_index v i) items)).

(** Lines 78-99. *)
Definition refreshHopfionField : M unit :=
  try_catch
    (let! data := api "/visualization/hopfion-field" no_options in
     if truthy data then
       let! x := lift (q_x_map data 1) in
       let! y := lift (q_x_map data 2) in
       let! z := lift (q_x_map data 3) in
       let! u := lift (q_x_map data 1) in
       let! v := lift (q_x_map data 2) in
       let! w := lift (q_x_map data 3) in
       Plotly_newPlot "eqgft-response"
         [ {| type := "cone"; x := x; y := y; z := z; u := u; v := v; w := w;
              sizemode := "absolute"; sizeref := 1 |} ]
     else ret tt)
    (fun err => set_textContent eqgftResponseEl ("Error: " +:+ message err)).

(** [{ task: task, execute: flag }], the payload of POST /tasks. *)
Definition task_submission (task : Js.value) (execute : bool) : Js.value :=
  VObj [("task", task); ("execute", VBool execute)].

(** Lines 101-114. *)
Definition handle_submitTaskBtn_click : M unit :=
  try_catch
    (let! source := read taskJsonEl "value" value in
     let! parsed := lift (of_sum (JSON_parse source)) in
     let! execute := read taskExecuteEl "checked" checked in
     api "/tasks" (POST (JSON_stringify (task_submission parsed execute) None)) ;;
     set_textContent statusEl "Task submitted." ;;
     spawn refreshTasks ;;
     spawn refreshMetrics)
    (fun err => set_textContent statusEl ("Task error: " +:+ message err)).

(** [el?.value]: [None] for [undefined]. *)
Definition optional_value (sel : string) : M (option string) :=
  fun st => (Normal (value <$> dom st !! sel), st).

(** Lines 117-120: the four scalar fields of a campaign, from the inputs. *)
Definition campaign_goal (input : option string) : string :=
  match input with
  | Some s => string_or (trim s) "Достичь topological_winding = 9.0000"
  | None => "Достичь topological_winding = 9.0000"
  end.

Definition campaign_target (input : option string) : string :=
  match input with
  | Some s => string_or (trim s) "topological_winding"
  | None => "topological_winding"
  end.

Definition campaign_target_value (input : option string) : spec_float :=
  number_or (parseFloat (match input with Some s => string_or s "0" | None => "0" end))
            (number_of_Z 0).

Definition campaign_max_steps (input : option string) : spec_float :=
  number_or (parseInt (match input with Some s => string_or s "5" | None => "5" end)
                      (Some 10))
            (number_of_Z 5).

(** Lines 137-143. *)
Definition campaign_request (goal optimizationTarget : string)
    (targetValue maxSteps : spec_float) (contextPayload : Js.value) : Js.value :=
  VObj [("goal", VStr goal);
        ("optimization_target", VStr optimizationTarget);
        ("target_value", VNum targetValue);
        ("max_steps", VNum maxSteps);
        ("context", contextPayload)].

(** Lines 132-151. *)
Definition run_campaign (payload : Js.value) : M unit :=
  set_textContent researchResultEl "Running research campaign…" ;;
  try_catch
    (let! response := api "/llm/research-campaign" (POST (JSON_stringify payload None)) in
     set_textContent researchResultEl (JSON_stringify response (Some 2)) ;;
     set_textContent statusEl "Research campaign completed." ;;
     spawn refreshMetrics)
    (fun err => set_textContent researchResultEl ("Campaign error: " +:+ message err)).

(** Lines 116-152.  The [return] of line 128 is the branch that does not go
    on to [run_campaign]. *)
Definition handle_startResearchBtn_click : M unit :=
  let! goalInput := optional_value researchGoalEl in
  let goal := campaign_goal goalInput in
  let! targetInput := optional_value researchTargetEl in
  let optimizationTarget := campaign_target targetInput in
  let! targetValueInput := optional_value researchTargetValueEl in
  let targetValue := campaign_target_value targetValueInput in
  let! stepsInput := optional_value researchStepsEl in
  let maxSteps := campaign_max_steps stepsInput in
  let! contextInput := optional_value researchContextEl in
  let submit := fun contextPayload =>
    run_campaign (campaign_request goal optimizationTarget targetValue maxSteps
                                   contextPayload) in
  match contextInput with
  | Some source =>
      if string_truthy (trim source) then
        match JSON_parse source with
        | inr contextPayload => submit contextPayload
        | inl err =>
            set_textContent researchResultEl ("Invalid context JSON: " +:+ message err)
        end
      else submit (VObj [])
  | None => submit (VObj [])
  end.

(** Lines 154-157. *)
Definition handle_refreshMetricsBtn_click : M unit :=
  spawn refreshMetrics ;;
  spawn refreshViz.

(** Lines 159-171. *)
Definition handle_llmQueryBtn_click : M unit :=
  try_catch
    (let! query := read llmQueryEl "value" value in
     let! result := api "/llm/query"
                        (POST (JSON_stringify (VObj [("query", VStr query)]) None)) in
     set_textContent llmResponseEl (JSON_stringify result (Some 2)) ;;
     set_value taskJsonEl (JSON_stringify result (Some 2)) ;;
     set_textContent statusEl "LLM responded with task blueprint.")
    (fun err => set_textContent llmResponseEl (message err)).

(** Lines 185-191. *)
Definition handle_eqgftVizTypeEl_change : M unit :=
  let! vizType := read eqgftVizTypeEl "value" value in
  if String.eqb vizType "custom-python-script"
  then set_display eqgftPythonScriptContainerEl "block"
  else set_display eqgftPythonScriptContainerEl "none".

(** Lines 200-225: the task built from the form. *)
Definition eqgft_task (vizType nEvents kappa systematicError pythonScript : string)
  : Js.value :=
  if String.eqb vizType "custom-python-script" then
    VObj [("task_name", VStr "Custom Python Script");
          ("geometric_operator", VStr "CustomPythonScript");
          ("parameters", VObj [("script", VStr pythonScript)])]
  else if String.eqb vizType "line-plot" then
    VObj [("task_name", VStr "Simulate EQGFT Asymmetry");
          ("geometric_operator", VStr "SimulateEqgftAsymmetry");
          ("parameters",
           VObj [("kappa", VNum (parseFloat kappa));
                 ("n_events", VNum (parseInt nEvents None));
                 ("systematic_error", VNum (parseFloat systematicError))])]
  else
    VObj [("task_name", VStr "Generate Hopfion Field");
          ("geometric_operator", VStr "GenerateHopfionField");
          ("parameters", VObj [])].

(** Lines 193-241. *)
Definition handle_eqgftRunBtn_click : M unit :=
  let! vizType := read eqgftVizTypeEl "value" value in
  let! nEvents := read "#eqgft-n-events" "value" value in
  let! kappa := read "#eqgft-kappa" "value" value in
  let! systematicError := read "#eqgft-systematic-error" "value" value in
  let! pythonScript := read "#eqgft-python-script" "value" value in
  let task := eqgft_task vizType nEvents kappa systematicError pythonScript in
  try_catch
    (api "/tasks" (POST (JSON_stringify (task_submission task true) None)) ;;
     set_textContent statusEl "EQGFT task submitted." ;;
     spawn refreshTasks ;;
     spawn refreshMetrics ;;
     if String.eqb vizType "3d-vector-field" then spawn refreshHopfionField else ret tt)
    (fun err => set_textContent statusEl ("EQGFT task error: " +:+ message err)).

(** Lines 257-265: the callback of the interval, run with its own handle
    [poll].  It has no [try]: what it throws rejects its promise. *)
Definition run_callback (poll : nat) (f : callback) : M unit :=
  match f with
  | poll_callback task_id =>
      let! status := api ("/tasks/" +:+ ToString task_id) no_options in
      let! state := lift (get_field status "status") in
      if strict_eq_string state "Completed" then
        clearInterval poll ;;
        set_textContent statusEl "EQGFT task completed." ;;
        spawn refreshMetrics ;;
        spawn refreshViz
      else ret tt
  end.

(** Lines 243-269. *)
Definition handle_eqgftSendLlmBtn_click : M unit :=
  try_catch
    (let! query := read eqgftLlmQueryEl "value" value in
     let! task := api "/llm/plan-eqgft-task"
                      (POST (JSON_stringify (VObj [("query", VStr query)]) None)) in
     set_textContent eqgftResponseEl (JSON_stringify task (Some 2)) ;;
     set_textContent statusEl
       "LLM responded with EQGFT task blueprint. Submitting task..." ;;
     let! created := api "/tasks"
                         (POST (JSON_stringify (task_submission task true) None)) in
     let! task_id := lift (get_field created "task_id") in
     let! poll := setInterval (poll_callback task_id) 1000 in
     ret tt)
    (fun err => set_textContent eqgftResponseEl (message err)).

Definition handler (l : listener) : M unit :=
  match l with
  | submitTaskBtn_click => handle_submitTaskBtn_click
  | startResearchBtn_click => handle_startResearchBtn_click
  | refreshMetricsBtn_click => handle_refreshMetricsBtn_click
  | llmQueryBtn_click => handle_llmQueryBtn_click
  | eqgftVizTypeEl_change => handle_eqgftVizTypeEl_change
  | eqgftRunBtn_click => handle_eqgftRunBtn_click
  | eqgftSendLlmBtn_click => handle_eqgftSendLlmBtn_click
  end.

(** The top level of the script, in the order of the file.  Line 176 throws
    when the page has no [#status]; the statements after it then never run. *)
Definition script : M unit :=
  addEventListener submitTaskBtn submitTaskBtn_click ;;
  addEventListener startResearchBtn startResearchBtn_click ;;
  addEventListener refreshMetricsBtn refreshMetricsBtn_click ;;
  addEventListener llmQueryBtn llmQueryBtn_click ;;
  spawn refreshMetrics ;;
  spawn refreshTasks ;;
  spawn refreshViz ;;
  set_textContent statusEl "Ready" ;;
  addEventListener eqgftVizTypeEl eqgftVizTypeEl_change ;;
  addEventListener eqgftRunBtn eqgftRunBtn_click ;;
  addEventListener eqgftSendLlmBtn eqgftSendLlmBtn_click.

(** *** The event loop *)

(** A task of the event loop runs to its end; what it throws is uncaught. *)
Definition run (m : M unit) (st : World) : World := snd (spawn m st).

Inductive event : Type :=
| Fire (l : listener)     (* the page dispatches an event a listener waits for *)
| Tick (handle : nat).    (* an interval elapses *)

Definition step (ev : event) (st : World) : World :=
  match ev with
  | Fire l => if bool_decide (l ∈ listeners st) then run (handler l) st else st
  | Tick handle =>
      match timers st !! handle with
      | Some t => run (run_callback handle (action t)) st
      | None => st
      end
  end.

Definition steps (evs : list event) (st : World) : World :=
  fold_left (fun st ev => step ev st) evs st.

(** The browser when the script starts. *)
Definition initial (page : gmap string Element) (srv : nat -> exn + Response) : World :=
  {| dom := page; requests := []; body_reads := []; server := srv; timers := ∅;
     next_timer := 1;
     plots := []; uncaught := []; listeners := [] |}.

Definition load (page : gmap string Element) (srv : nat -> exn + Response) : World :=
  run script (initial page srv).

End WithEngine.

End App.

(** ** The vocabulary of the properties *)

Module Contract.
Import Js Browser App.

(** The endpoints the client is meant to use, as method and path under
    [/api]; the ninth, [GET /tasks/{id}], is recognised by its prefix. *)
Definition endpoints : list (string * string) :=
  [ ("GET", "/metrics");
    ("GET", "/tasks");
    ("POST", "/tasks");
    ("GET", "/visualization/packet");
    ("GET", "/visualization/hopfion-field");
    ("POST", "/llm/query");
    ("POST", "/llm/research-campaign");
    ("POST", "/llm/plan-eqgft-task") ].

(** [strip_prefix p s] is what follows [p] in [s], when [s] starts with [p]. *)
Fixpoint strip_prefix (p s : string) : option string :=
  match p, s with
  | EmptyString, _ => Some s
  | String a p', String b s' => if Ascii.eqb a b then strip_prefix p' s' else None
  | String _ _, EmptyString => None
  end.

Definition is_endpoint (method path : string) : bool :=
  (String.eqb method "GET" && bool_decide (is_Some (strip_prefix "/tasks/" path)))
  || existsb (fun e => String.eqb method (fst e) && String.eqb path (snd e)) endpoints.

Definition allowed (r : Request) : bool :=
  match strip_prefix "/api" (url r) with
  | Some path => is_endpoint (http_method r) path
  | None => false
  end.

Definition allowed_request (r : Request) : Prop := allowed r = true.

(** The request [api(path)] makes when called without options. *)
Definition is_get (path : string) (r : Request) : Prop := r = init_of path no_options.

(** The array [[a, b, c, d]] of a 4-tuple. *)
Definition tuple (t : Js.value * Js.value * Js.value * Js.value) : Js.value :=
  let '(a, b, c, d) := t in VArr [a; b; c; d].

Definition component (i : nat) (t : Js.value * Js.value * Js.value * Js.value)
  : Js.value :=
  let '(a, b, c, d) := t in
  match i with 0 => a | 1 => b | 2 => c | _ => d end.

(** [v.k] when it does not throw, [undefined] when [v] has no such property. *)
Definition property (v : Js.value) (k : string) : Js.value :=
  match v with
  | VObj props => default VUndefined (assoc k props)
  | _ => VUndefined
  end.

(** A computation that only adds requests satisfying [S] to the log. *)
Definition appends {A} (S : Request -> Prop) (m : M A) : Prop :=
  forall st, exists new, requests (snd (m st)) = requests st ++ new /\ Forall S new.

(** A computation that first sends [r], and then only requests satisfying [S]. *)
Definition starts_with {A} (r : Request) (S : Request -> Prop) (m : M A) : Prop :=
  forall st, exists rest,
    requests (snd (m st)) = requests st ++ r :: rest /\ Forall S rest.

Definition is_GET (r : Request) : Prop := http_method r = "GET".

(** A computation that leaves a part [proj] of the state as it was. *)
Definition preserves {X A} (proj : World -> X) (m : M A) : Prop :=
  forall st, proj (snd (m st)) = proj st.

(** The intervals: the running ones and the next handle. *)
Definition clock (st : World) : gmap nat Timer * nat := (timers st, next_timer st).

(** Every running interval has a handle below the next one. *)
Definition fresh (st : World) : Prop :=
  forall handle t, timers st !! handle = Some t -> handle < next_timer st.

(** A computation that cancels no interval, and starts intervals of period
    1000 only, at handles not used before. *)
Definition registers_only {A} (m : M A) : Prop :=
  forall st,
    next_timer st <= next_timer (snd (m st))
    /\ (forall handle, handle < next_timer st ->
         timers (snd (m st)) !! handle = timers st !! handle)
    /\ (forall handle t, timers (snd (m st)) !! handle = Some t ->
         timers st !! handle = Some t
         \/ (next_timer st <= handle < next_timer (snd (m st)) /\ period t = 1000)).

(** The page has the element [sel]. *)
Definition present (sel : string) (st : World) : Prop := is_Some (dom st !! sel).

(** A computation that removes no element from the page. *)
Definition keeps_elements {A} (m : M A) : Prop :=
  forall st sel, present sel st -> present sel (snd (m st)).

(** A computation that sends nothing. *)
Definition silent {A} (m : M A) : Prop :=
  forall st, requests (snd (m st)) = requests st.

Section WithEngine.
Context {eng : Engine}.

(** The table row expected for a task: its [task_id], then its [status] as
    JSON. *)
Definition expected_row (task : Js.value) : node :=
  Created "tr"
    [Markup ("<td>" +:+ ToString (property task "task_id") +:+ "</td><td>"
             +:+ stringify_in_template (property task "status") +:+ "</td>")].

(** The answer to a poll says that the task is completed: the response is
    ok, its body is JSON, and the [status] of the value is the string
    [Completed]. *)
Definition completed (answer : exn + Response) : Prop :=
  exists res body,
    answer = inr res /\ ok res = true /\ JSON_parse (text res) = inr body
    /\ get_field body "status" = Normal (VStr "Completed").

(** The request of a poll for [task_id]. *)
Definition poll_request (task_id : Js.value) : Request :=
  init_of ("/tasks/" +:+ ToString task_id) no_options.

(** Along the events [evs] from [st], no poll of the interval [handle] is
    answered with a completed task. *)
Fixpoint never_completed (handle : nat) (evs : list event) (st : World) : Prop :=
  match evs with
  | [] => True
  | ev :: rest =>
      (ev = Tick handle -> ~ completed (server st (length (requests st))))
      /\ never_completed handle rest (step ev st)
  end.

End WithEngine.

End Contract.

(** ** More vocabulary: requests, pages and intervals in general *)

Module Conduct.
Import Js Browser App Contract.

(** A request as the script makes them: no method and no body, or the
    method POST and a body. *)
Definition shaped (r : Request) : Prop :=
  (init_method r = None /\ init_body r = None)
  \/ (init_method r = Some "POST" /\ is_Some (init_body r)).

(** Every selector the script looks up. *)
Definition looked_up : list string :=
  [ statusEl; metricsEl; refreshMetricsBtn; taskListEl; submitTaskBtn; taskJsonEl;
    taskExecuteEl; llmQueryBtn; llmQueryEl; llmResponseEl; vizPacketEl;
    researchGoalEl; researchTargetEl; researchTargetValueEl; researchStepsEl;
    researchContextEl; researchResultEl; startResearchBtn;
    eqgftVizTypeEl; eqgftPythonScriptContainerEl; eqgftRunBtn; eqgftSendLlmBtn;
    eqgftLlmQueryEl; eqgftResponseEl;
    "#electron-mass"; "#fine-structure"; "#quaternion-coherence";
    "#topological-winding"; "#eqgft-n-events"; "#eqgft-kappa";
    "#eqgft-systematic-error"; "#eqgft-python-script" ].

(** A page that has them all. *)
Definition complete (st : World) : Prop :=
  forall sel, sel ∈ looked_up -> present sel st.

(** On a complete page the computation leaves no error uncaught, and the
    page stays complete. *)
Definition calm {A} (m : M A) : Prop :=
  forall st, complete st ->
    uncaught (snd (m st)) = uncaught st /\ complete (snd (m st)).

(** On a complete page the computation returns normally, leaves no error
    uncaught, and the page stays complete. *)
Definition safe {A} (m : M A) : Prop :=
  forall st, complete st ->
    (exists a, fst (m st) = Normal a)
    /\ uncaught (snd (m st)) = uncaught st /\ complete (snd (m st)).

(** Every running interval has the period 1000. *)
Definition all_1000 (st : World) : Prop :=
  forall handle t, timers st !! handle = Some t -> period t = 1000.

(** The text or markup an element shows. *)
Definition shown (sel : string) (st : World) : option (list node) :=
  content <$> dom st !! sel.

(** A computation that adds and removes no element. *)
Definition same_elements {A} (m : M A) : Prop :=
  forall st sel, present sel (snd (m st)) <-> present sel st.

(** A computation that leaves the element [sel] as it is. *)
Definition untouched {A} (sel : string) (m : M A) : Prop :=
  forall st, dom (snd (m st)) !! sel = dom st !! sel.

(** A computation that sends exactly the requests [rs], in this order. *)
Definition sends {A} (rs : list Request) (m : M A) : Prop :=
  forall st, requests (snd (m st)) = requests st ++ rs.

(** What [el?.addEventListener] attaches for a handle looked up on [page]. *)
Definition attached (page : gmap string Element) (sel : string) (l : listener)
  : list listener :=
  if bool_decide (is_Some (page !! sel)) then [l] else [].

(** The listeners the script attaches on [page]: those of lines 101-171,
    and those of lines 185-269 when line 176 does not throw. *)
Definition listeners_on (page : gmap string Element) : list listener :=
  attached page submitTaskBtn submitTaskBtn_click
  ++ attached page startResearchBtn startResearchBtn_click
  ++ attached page refreshMetricsBtn refreshMetricsBtn_click
  ++ attached page llmQueryBtn llmQueryBtn_click
  ++ (if bool_decide (is_Some (page !! statusEl))
      then attached page eqgftVizTypeEl eqgftVizTypeEl_change
           ++ attached page eqgftRunBtn eqgftRunBtn_click
           ++ attached page eqgftSendLlmBtn eqgftSendLlmBtn_click
      else []).

End Conduct.

(** ** A sample engine, pages and servers for the examples *)

Module Sample.
Import Js Browser App.

(** A JSON text [{"key":"val"}], written without the quote character. *)
Definition quoted (s : string) : string := dquote +:+ s +:+ dquote.
Definition member (key val : string) : string :=
  "{" +:+ quoted key +:+ ":" +:+ quoted val +:+ "}".

(** [[{"task_id":"t1","status":"Completed"},{"task_id":"t2","status":"Running"}]] *)
Definition task_list_text : string :=
  "[{" +:+ quoted "task_id" +:+ ":" +:+ quoted "t1" +:+ ","
       +:+ quoted "status" +:+ ":" +:+ quoted "Completed" +:+ "},{"
       +:+ quoted "task_id" +:+ ":" +:+ quoted "t2" +:+ ","
       +:+ quoted "status" +:+ ":" +:+ quoted "Running" +:+ "}]".

Definition task_list : Js.value :=
  VArr [ VObj [("task_id", VStr "t1"); ("status", VStr "Completed")];
         VObj [("task_id", VStr "t2"); ("status", VStr "Running")] ].

(** [{"q_x":[[0,1,2,3],[4,5,6,7]]}] *)
Definition hopfion_text : string :=
  "{" +:+ quoted "q_x" +:+ ":[[0,1,2,3],[4,5,6,7]]}".

Definition hopfion_tuples : list (Js.value * Js.value * Js.value * Js.value) :=
  [ (VNum (number_of_Z 0), VNum (number_of_Z 1), VNum (number_of_Z 2),
     VNum (number_of_Z 3));
    (VNum (number_of_Z 4), VNum (number_of_Z 5), VNum (number_of_Z 6),
     VNum (number_of_Z 7)) ].

Definition hopfion_field : Js.value :=
  VObj [("q_x", VArr (map Contract.tuple hopfion_tuples))].

(** Metrics with the four constants. *)
Definition metrics : list (string * Js.value) :=
  [ ("emergent_electron_mass", VNum (number_of_Z 1));
    ("fine_structure_constant", VNum (number_of_Z 2));
    ("quaternion_coherence", VNum (number_of_Z 3));
    ("topological_winding", VNum (number_of_Z 9)) ].

(** The documents the sample engine can parse, each with its value. *)
Definition documents : list (string * Js.value) :=
  [ ("{}", VObj []);
    ("[]", VArr []);
    ("null", VNull);
    (member "status" "Completed", VObj [("status", VStr "Completed")]);
    (member "status" "Running", VObj [("status", VStr "Running")]);
    (member "task_id" "t1", VObj [("task_id", VStr "t1")]);
    (task_list_text, task_list);
    (hopfion_text, hopfion_field) ].

(** Decimal digits at the head of a string, as a natural number. *)
Fixpoint leading_digits (s : string) (acc : option N) : option N :=
  match s with
  | String c rest =>
      let n := Ascii.N_of_ascii c in
      if ((48 <=? n) && (n <=? 57))%N
      then leading_digits rest (Some (10 * default 0%N acc + (n - 48))%N)
      else acc
  | EmptyString => acc
  end.

Definition number_of_digits (s : string) : spec_float :=
  match leading_digits s None with
  | Some n => number_of_Z (Z.of_N n)
  | None => S754_nan
  end.

Definition is_space (c : Ascii.ascii) : bool :=
  let n := Ascii.N_of_ascii c in ((n =? 32) || ((9 <=? n) && (n <=? 13)))%N.

Fixpoint trim_start (s : string) : string :=
  match s with
  | String c rest => if is_space c then trim_start rest else s
  | EmptyString => EmptyString
  end.

Fixpoint trim_end (s : string) : string :=
  match s with
  | String c rest =>
      match trim_end rest with
      | EmptyString => if is_space c then EmptyString else String c EmptyString
      | kept => String c kept
      end
  | EmptyString => EmptyString
  end.

(** An engine that answers as a browser does on the inputs of the examples:
    the documents above and the empty text for [JSON.parse], strings of
    decimal digits for [parseFloat] and [parseInt], ASCII white space for
    [trim].  The examples do not look inside the texts it prints. *)
#[local] Instance engine : Engine := {|
  JSON_parse s :=
    match assoc s documents with
    | Some v => inr v
    | None =>
        inl (SyntaxError (match s with
                          | EmptyString => "Unexpected end of JSON input"
                          | _ => "Unexpected token in JSON"
                          end))
    end;
  JSON_stringify v indent :=
    match v with
    | VNull => "null"
    | VBool true => "true"
    | VBool false => "false"
    | VArr [] => "[]"
    | VObj [] => "{}"
    | _ => "{...}"
    end;
  parseFloat := number_of_digits;
  parseInt s radix := number_of_digits s;
  Number_toString x := "0";
  toExponential x digits := "0e+0";
  toFixed x digits := "0";
  trim s := trim_end (trim_start s);
  typeErrorMessage what := "TypeError: " +:+ what
|}.

Definition blank : Element :=
  {| value := EmptyString; checked := false; content := []; display := EmptyString |}.

Definition input (s : string) : Element := with_value blank s.

(** A page with every element the script looks up. *)
Definition page : gmap string Element :=
  list_to_map
    (map (fun sel => (sel, blank))
       [ statusEl; metricsEl; refreshMetricsBtn; taskListEl; submitTaskBtn; taskJsonEl;
         taskExecuteEl; llmQueryBtn; llmQueryEl; llmResponseEl; vizPacketEl;
         researchGoalEl; researchTargetEl; researchTargetValueEl; researchStepsEl;
         researchContextEl; researchResultEl; startResearchBtn;
         eqgftVizTypeEl; eqgftPythonScriptContainerEl; eqgftRunBtn; eqgftSendLlmBtn;
         eqgftLlmQueryEl; eqgftResponseEl;
         "#electron-mass"; "#fine-structure"; "#quaternion-coherence";
         "#topological-winding"; "#eqgft-n-events"; "#eqgft-kappa";
         "#eqgft-systematic-error"; "#eqgft-python-script" ]).

(** The page with a context that is not JSON, and with the EQGFT form set
    to a line plot. *)
Definition page_with_bad_context : gmap string Element :=
  <[researchContextEl := input "{"]> page.

Definition page_with_line_plot : gmap string Element :=
  <[eqgftVizTypeEl := input "line-plot"]>
    (<["#eqgft-n-events" := input "100"]>
       (<["#eqgft-kappa" := input "2"]>
          (<["#eqgft-systematic-error" := input "0"]> page))).

(** Servers: one that always answers with the same response. *)
Definition always (res : Response) : nat -> exn + Response := fun _ => inr res.

Definition ok_with (body : string) : Response :=
  {| ok := true; statusText := "OK"; text := body |}.

Definition failing (status body : string) : Response :=
  {| ok := false; statusText := status; text := body |}.

(** A server that gives the listed answers in turn, and then [{}]. *)
Definition scripted (answers : list Response) : nat -> exn + Response :=
  fun n => inr (nth n answers (ok_with "{}")).

(** The answers of a session: three refreshes at load, a plan, a submission
    that names task [t1], a poll that finds it running, a poll that finds
    it completed, and two refreshes. *)
Definition session : nat -> exn + Response :=
  scripted [ ok_with "{}"; ok_with "[]"; ok_with "{}";
             ok_with "{}"; ok_with (member "task_id" "t1");
             ok_with (member "status" "Running");
             ok_with (member "status" "Completed") ].

(** A browser in which the interval of task [t1] is running (handle 1). *)
Definition polling (srv : nat -> exn + Response) : World :=
  {| dom := page; requests := []; body_reads := []; server := srv;
     timers := {[ 1 := {| period := 1000; action := poll_callback (VStr "t1") |} ]};
     next_timer := 2; plots := []; uncaught := [];
     listeners := [eqgftSendLlmBtn_click] |}.

End Sample.

(** ** More sample pages, and an engine that knows one more document *)

Module Trial.
Import Js Browser App.

(** The page with a task that is not JSON, and with the task [{}]. *)
Definition page_with_bad_task : gmap string Element :=
  <[taskJsonEl := Sample.input "{"]> Sample.page.

Definition page_with_task : gmap string Element :=
  <[taskJsonEl := Sample.input "{}"]> Sample.page.

(** [{"metrics":{"emergent_electron_mass":1}}], metrics without the other
    three constants. *)
Definition partial_metrics_text : string :=
  "{" +:+ Sample.quoted "metrics" +:+ ":{"
      +:+ Sample.quoted "emergent_electron_mass" +:+ ":1}}".

Definition partial_metrics : list (string * Js.value) :=
  [("emergent_electron_mass", VNum (number_of_Z 1))].

(** The sample engine, with this document added. *)
Definition engine : Engine := {|
  JSON_parse s :=
    if String.eqb s partial_metrics_text
    then inr (VObj [("metrics", VObj partial_metrics)])
    else JSON_parse (Engine := Sample.engine) s;
  JSON_stringify := JSON_stringify (Engine := Sample.engine);
  parseFloat := parseFloat (Engine := Sample.engine);
  parseInt := parseInt (Engine := Sample.engine);
  Number_toString := Number_toString (Engine := Sample.engine);
  toExponential := toExponential (Engine := Sample.engine);
  toFixed := toFixed (Engine := Sample.engine);
  trim := trim (Engine := Sample.engine);
  typeErrorMessage := typeErrorMessage (Engine := Sample.engine)
|}.

End Trial.

(** * Properties *)

Section Client.
Import Js Browser App Contract Conduct.
Context {eng : Engine}.

(** ** The api helper *)

Lemma fetch_rejected (r : Request) (st : World) (e : exn) :
  server st (length (requests st)) = inl e ->
  fetch r st = (Throw e, logged st r).
Proof. intros H. unfold fetch. now rewrite H. Qed.

Lemma fetch_resolved (r : Request) (st : World) (res : Response) :
  server st (length (requests st)) = inr res ->
  fetch r st = (Normal res, logged st r).
Proof. intros H. unfold fetch. now rewrite H. Qed.

(** What [api] does with each outcome of [fetch]. *)
Lemma api_rejected path options st e :
  server st (length (requests st)) = inl e ->
  api path options st
  = (Throw e, logged st (init_of path options)).
Proof. intros H. unfold api, bind. now rewrite (fetch_rejected _ _ _ H). Qed.

Lemma api_not_ok path options st res :
  server st (length (requests st)) = inr res -> ok res = false ->
  api path options st
  = (Throw (Error (string_or (text res) (statusText res))),
     read_body (logged st (init_of path options)) read_text).
Proof.
  intros H Hok. unfold api, bind. rewrite (fetch_resolved _ _ _ H), Hok. reflexivity.
Qed.

Lemma api_ok path options st res :
  server st (length (requests st)) = inr res -> ok res = true ->
  api path options st
  = (of_sum (JSON_parse (text res)),
     read_body (logged st (init_of path options)) read_json).
Proof.
  intros H Hok. unfold api, bind. rewrite (fetch_resolved _ _ _ H), Hok. reflexivity.
Qed.

(** [api] changes the request log and the log of body reads only. *)
Lemma api_frame path options st :
  exists reads,
    snd (api path options st)
    = with_body_reads (logged st (init_of path options)) reads.
Proof.
  destruct (server st (length (requests st))) as [e | res] eqn:H.
  - rewrite (api_rejected _ _ _ _ H). exists (body_reads st). now destruct st.
  - destruct (ok res) eqn:Hok;
      [rewrite (api_ok _ _ _ _ H Hok) | rewrite (api_not_ok _ _ _ _ H Hok)]; eauto.
Qed.

Lemma api_dom path options st : dom (snd (api path options st)) = dom st.
Proof. destruct (api_frame path options st) as [reads ->]. reflexivity. Qed.

(** C10, as the code has it: given an HTTP response, [api] throws exactly
    when the response is not ok or its body is not valid JSON.  For a
    response that is not ok the message of the error is the body text when
    that is not empty, and the status text otherwise; for an ok response
    with a valid body [api] returns the parsed body; and the body of an ok
    response is read once, by [res.json()], never as text. *)
Theorem api_throws_iff_not_ok_or_invalid_json path options st res :
  server st (length (requests st)) = inr res ->
  ((exists e, fst (api path options st) = Throw e)
     <-> (ok res = false \/ exists e, JSON_parse (text res) = inl e))
  /\ (ok res = false ->
      exists e, fst (api path options st) = Throw e
                /\ message e = (if decide (text res = EmptyString)
                                then statusText res else text res))
  /\ (forall v, ok res = true -> JSON_parse (text res) = inr v ->
      fst (api path options st) = Normal v)
  /\ (ok res = true ->
      body_reads (snd (api path options st)) = body_reads st ++ [read_json]).
Proof.
  intros H. destruct (ok res) eqn:Hok.
  - rewrite (api_ok _ _ _ _ H Hok). simpl. repeat split.
    + intros [e He]. right. destruct (JSON_parse (text res)); [eauto | discriminate].
    + intros [Hf | [e He]]; [discriminate | rewrite He; simpl; eauto].
    + discriminate.
    + intros v _ Hv. now rewrite Hv.
  - rewrite (api_not_ok _ _ _ _ H Hok). simpl. repeat split.
    + intros _. now left.
    + intros _. eauto.
    + intros _. eexists. split; [reflexivity|]. simpl. unfold string_or.
      destruct (text res); now case_decide.
    + discriminate.
    + discriminate.
Qed.

Lemma bind_normal {A B} (m : M A) (k : A -> M B) st a st' :
  m st = (Normal a, st') -> bind m k st = k a st'.
Proof. intros H. unfold bind. now rewrite H. Qed.

Lemma bind_throw {A B} (m : M A) (k : A -> M B) st e st' :
  m st = (Throw e, st') -> bind m k st = (Throw e, st').
Proof. intros H. unfold bind. now rewrite H. Qed.

Lemma try_normal {A} (m : M A) (h : exn -> M A) st a st' :
  m st = (Normal a, st') -> try_catch m h st = (Normal a, st').
Proof. intros H. unfold try_catch. now rewrite H. Qed.

Lemma try_caught {A} (m : M A) (h : exn -> M A) st e st' :
  m st = (Throw e, st') -> try_catch m h st = h e st'.
Proof. intros H. unfold try_catch. now rewrite H. Qed.

Lemma update_present sel what f st el :
  dom st !! sel = Some el ->
  update sel what f st = (Normal tt, with_dom st (<[sel := f el]> (dom st))).
Proof. intros H. unfold update. now rewrite H. Qed.

Lemma read_present {A} sel what (f : Element -> A) st el :
  dom st !! sel = Some el -> read sel what f st = (Normal (f el), st).
Proof. intros H. unfold read. now rewrite H. Qed.

(** ** updatePhysicsConstants *)

(** The guard of line 37. *)
Lemma updatePhysicsConstants_guard metrics st :
  truthy metrics = false \/ dom st !! "#electron-mass" = None ->
  updatePhysicsConstants metrics st = (Normal tt, st).
Proof.
  intros H. unfold updatePhysicsConstants, bind, querySelector.
  destruct H as [H | H]; rewrite H; simpl; [reflexivity|].
  now rewrite orb_true_r.
Qed.

Lemma lift_normal {A B} (c : completion A) (k : A -> M B) st a :
  c = Normal a -> (let! r := lift c in k r) st = k a st.
Proof. intros H. unfold bind, lift. now rewrite H. Qed.

Lemma lift_throw {A B} (c : completion A) (k : A -> M B) st e :
  c = Throw e -> (let! r := lift c in k r) st = (Throw e, st).
Proof. intros H. unfold bind, lift. now rewrite H. Qed.

Lemma set_textContent_present sel s st el :
  dom st !! sel = Some el ->
  set_textContent sel s st
  = (Normal tt, with_dom st (<[sel := with_content el (text_nodes s)]> (dom st))).
Proof. apply update_present. Qed.

(** C5: [updatePhysicsConstants] returns without touching the page when
    [metrics] is absent (falsy) or the page has no [#electron-mass];
    otherwise, for metrics with the four numeric fields, it writes
    [emergent_electron_mass] in exponential notation with 10 digits followed
    by [ kg], [fine_structure_constant] in exponential notation with 10
    digits, [quaternion_coherence] in fixed notation with 6 digits and
    [topological_winding] in fixed notation with 4 digits, each into its own
    element; and whatever it does depends on these four fields only. *)
Theorem updatePhysicsConstants_writes_four_fields :
  (forall metrics st,
      truthy metrics = false \/ dom st !! "#electron-mass" = None ->
      updatePhysicsConstants metrics st = (Normal tt, st))
  /\ (forall props st mass alpha coherence winding e1 e2 e3 e4,
      assoc "emergent_electron_mass" props = Some (VNum mass) ->
      assoc "fine_structure_constant" props = Some (VNum alpha) ->
      assoc "quaternion_coherence" props = Some (VNum coherence) ->
      assoc "topological_winding" props = Some (VNum winding) ->
      dom st !! "#electron-mass" = Some e1 ->
      dom st !! "#fine-structure" = Some e2 ->
      dom st !! "#quaternion-coherence" = Some e3 ->
      dom st !! "#topological-winding" = Some e4 ->
      updatePhysicsConstants (VObj props) st
      = (Normal tt,
         with_dom st
           (<["#topological-winding" := with_content e4 (text_nodes (toFixed winding 4))]>
           (<["#quaternion-coherence" := with_content e3 (text_nodes (toFixed coherence 6))]>
           (<["#fine-structure" := with_content e2 (text_nodes (toExponential alpha 10))]>
           (<["#electron-mass" :=
                with_content e1 (text_nodes (toExponential mass 10 +:+ " kg"))]>
              (dom st)))))))
  /\ (forall props props' st,
      (forall field,
          field ∈ ["emergent_electron_mass"; "fine_structure_constant";
                   "quaternion_coherence"; "topological_winding"] ->
          assoc field props = assoc field props') ->
      updatePhysicsConstants (VObj props) st = updatePhysicsConstants (VObj props') st).
Proof.
  split; [exact updatePhysicsConstants_guard | split].
  - intros props st mass alpha coherence winding e1 e2 e3 e4 Hm Ha Hc Hw H1 H2 H3 H4.
    assert (Hget : forall field x (format : Js.value -> completion string),
               assoc field props = Some x ->
               and_then (get_field (VObj props) field) format = format x).
    { intros field x format Hx. simpl. now rewrite Hx. }
    unfold updatePhysicsConstants.
    unfold bind at 1. unfold querySelector. rewrite H1. cbn [truthy negb is_null orb].
    erewrite bind_normal
      by (erewrite lift_normal by (rewrite (Hget _ _ _ Hm); reflexivity);
          apply set_textContent_present; exact H1).
    erewrite bind_normal
      by (erewrite lift_normal by (rewrite (Hget _ _ _ Ha); reflexivity);
          apply set_textContent_present; cbn [dom with_dom];
          rewrite lookup_insert_ne by done; exact H2).
    erewrite bind_normal
      by (erewrite lift_normal by (rewrite (Hget _ _ _ Hc); reflexivity);
          apply set_textContent_present; cbn [dom with_dom];
          rewrite !lookup_insert_ne by done; exact H3).
    erewrite lift_normal by (rewrite (Hget _ _ _ Hw); reflexivity).
    erewrite set_textContent_present
      by (cbn [dom with_dom]; rewrite !lookup_insert_ne by done; exact H4).
    reflexivity.
  - intros props props' st Hsame.
    unfold updatePhysicsConstants, get_field.
    rewrite !(Hsame _) by set_solver. reflexivity.
Qed.

(** ** The request log *)

Lemma silent_appends {A} (S : Request -> Prop) (m : M A) : silent m -> appends S m.
Proof. intros H st. exists []. now rewrite H, app_nil_r. Qed.

Lemma appends_weaken {A} (S S' : Request -> Prop) (m : M A) :
  (forall r, S r -> S' r) -> appends S m -> appends S' m.
Proof.
  intros HS Hm st. destruct (Hm st) as (new & Hnew & Hall).
  exists new. split; [exact Hnew | eapply Forall_impl; eauto].
Qed.

Lemma appends_bind {A B} S (m : M A) (k : A -> M B) :
  appends S m -> (forall a, appends S (k a)) -> appends S (bind m k).
Proof.
  intros Hm Hk st. unfold bind. destruct (Hm st) as (new1 & H1 & HS1).
  destruct (m st) as [[a | e] st1]; simpl in *.
  - destruct (Hk a st1) as (new2 & H2 & HS2).
    exists (new1 ++ new2). rewrite H2, H1, app_assoc. split; [done | now apply Forall_app].
  - now exists new1.
Qed.

Lemma appends_try_catch {A} S (m : M A) (h : exn -> M A) :
  appends S m -> (forall e, appends S (h e)) -> appends S (try_catch m h).
Proof.
  intros Hm Hh st. unfold try_catch. destruct (Hm st) as (new1 & H1 & HS1).
  destruct (m st) as [[a | e] st1]; simpl in *.
  - now exists new1.
  - destruct (Hh e st1) as (new2 & H2 & HS2).
    exists (new1 ++ new2). rewrite H2, H1, app_assoc. split; [done | now apply Forall_app].
Qed.

Lemma appends_spawn S (m : M unit) : appends S m -> appends S (spawn m).
Proof.
  intros Hm st. unfold spawn. destruct (Hm st) as (new1 & H1 & HS1).
  destruct (m st) as [[a | e] st1]; simpl in *; now exists new1.
Qed.

Lemma silent_ret {A} (a : A) : silent (ret a).
Proof. now intros st. Qed.

Lemma silent_throw {A} (e : exn) : silent (throw (A := A) e).
Proof. now intros st. Qed.

Lemma silent_lift {A} (c : completion A) : silent (lift c).
Proof. now intros st. Qed.

Lemma silent_querySelector sel : silent (querySelector sel).
Proof. now intros st. Qed.

Lemma silent_optional_value sel : silent (optional_value sel).
Proof. now intros st. Qed.

Lemma silent_update sel what f : silent (update sel what f).
Proof. intros st. unfold update. now destruct (dom st !! sel). Qed.

Lemma silent_read {A} sel what (f : Element -> A) : silent (read sel what f).
Proof. intros st. unfold read. now destruct (dom st !! sel). Qed.

Lemma silent_setInterval f ms : silent (setInterval f ms).
Proof. now intros st. Qed.

Lemma silent_clearInterval handle : silent (clearInterval handle).
Proof. now intros st. Qed.

Lemma silent_Plotly_newPlot target traces : silent (Plotly_newPlot target traces).
Proof. now intros st. Qed.

Lemma silent_addEventListener sel l : silent (addEventListener sel l).
Proof. intros st. unfold addEventListener. now destruct (dom st !! sel). Qed.

(** [api] logs exactly the one request it is called for, whatever comes back. *)
Lemma api_requests path options st :
  requests (snd (api path options st)) = requests st ++ [init_of path options].
Proof.
  destruct (server st (length (requests st))) as [e | res] eqn:H.
  - now rewrite (api_rejected _ _ _ _ H).
  - destruct (ok res) eqn:Hok;
      [now rewrite (api_ok _ _ _ _ H Hok) | now rewrite (api_not_ok _ _ _ _ H Hok)].
Qed.

Lemma appends_api (S : Request -> Prop) path options :
  S (init_of path options) -> appends S (api path options).
Proof.
  intros HS st. exists [init_of path options]. split; [apply api_requests | now constructor].
Qed.

Lemma appends_forEach S (f : Js.value -> M unit) items :
  (forall item, appends S (f item)) -> appends S (forEach f items).
Proof.
  intros Hf. induction items as [| item rest IH]; simpl.
  - apply silent_appends, silent_ret.
  - apply appends_bind; [apply Hf | intros _; exact IH].
Qed.

Create HintDb quiet.

#[local] Hint Resolve silent_ret silent_throw silent_lift silent_querySelector
  silent_optional_value silent_update silent_read silent_setInterval
  silent_clearInterval silent_Plotly_newPlot silent_addEventListener : quiet.

(** One step through the structure of a computation. *)
Ltac appends_step :=
  lazymatch goal with
  | |- appends _ (bind _ _) => apply appends_bind; [| intros ?]
  | |- appends _ (try_catch _ _) => apply appends_try_catch; [| intros ?]
  | |- appends _ (spawn _) => apply appends_spawn
  | |- appends _ (forEach _ _) => apply appends_forEach; intros ?
  | |- appends _ (api _ _) => apply appends_api
  | |- appends _ (if ?b then _ else _) => destruct b
  | |- appends _ (match ?x with _ => _ end) => destruct x
  | |- appends _ _ =>
      apply silent_appends;
      first [ solve [eauto with quiet]
            | unfold set_textContent, set_innerHTML, set_value, set_display, appendChild;
              solve [eauto with quiet] ]
  end.

Lemma refreshMetrics_requests :
  appends (is_get "/metrics") refreshMetrics.
Proof.
  unfold refreshMetrics, updatePhysicsConstants. repeat appends_step. reflexivity.
Qed.


Lemma refreshTasks_requests : appends (is_get "/tasks") refreshTasks.
Proof. unfold refreshTasks, task_row. repeat appends_step. reflexivity. Qed.

Lemma refreshViz_requests : appends (is_get "/visualization/packet") refreshViz.
Proof. unfold refreshViz. repeat appends_step. reflexivity. Qed.

Lemma refreshHopfionField_requests :
  appends (is_get "/visualization/hopfion-field") refreshHopfionField.
Proof. unfold refreshHopfionField. repeat appends_step. reflexivity. Qed.

(** ** Every request goes to one of the nine endpoints *)

Lemma strip_prefix_app p s rest : strip_prefix p s = Some rest -> s = p +:+ rest.
Proof.
  revert s. induction p as [| a p IH]; intros s H; simpl in *.
  - now injection H as ->.
  - destruct s as [| b s]; [discriminate|].
    destruct (Ascii.eqb_spec a b) as [-> | _]; [| discriminate].
    change (String b s = String b (p +:+ rest)). f_equal. now apply IH.
Qed.

Lemma strip_prefix_of_app p rest : strip_prefix p (p +:+ rest) = Some rest.
Proof. induction p as [| a p IH]; simpl; [done | now rewrite Ascii.eqb_refl]. Qed.

Lemma is_get_allowed path r :
  is_endpoint "GET" path = true -> is_get path r -> allowed r = true.
Proof.
  intros H ->. unfold allowed, init_of; cbn [url method no_options http_method init_method].
  now rewrite strip_prefix_of_app.
Qed.

Lemma refreshMetrics_allowed : appends allowed_request refreshMetrics.
Proof.
  eapply appends_weaken; [| apply refreshMetrics_requests].
  intros r. now apply is_get_allowed.
Qed.

Lemma refreshTasks_allowed : appends allowed_request refreshTasks.
Proof.
  eapply appends_weaken; [| apply refreshTasks_requests].
  intros r. now apply is_get_allowed.
Qed.

Lemma refreshViz_allowed : appends allowed_request refreshViz.
Proof.
  eapply appends_weaken; [| apply refreshViz_requests].
  intros r. now apply is_get_allowed.
Qed.

Lemma refreshHopfionField_allowed : appends allowed_request refreshHopfionField.
Proof.
  eapply appends_weaken; [| apply refreshHopfionField_requests].
  intros r. now apply is_get_allowed.
Qed.

Lemma post_allowed path payload :
  is_endpoint "POST" path = true -> allowed_request (init_of path (POST payload)).
Proof.
  intros H. unfold allowed_request, allowed, init_of; cbn [url method POST http_method init_method].
  now rewrite strip_prefix_of_app.
Qed.

Lemma task_status_allowed id : allowed_request (init_of ("/tasks/" +:+ id) no_options).
Proof.
  unfold allowed_request, allowed, init_of; cbn [url method no_options http_method init_method].
  rewrite strip_prefix_of_app. unfold is_endpoint.
  rewrite (strip_prefix_of_app "/tasks/" id). reflexivity.
Qed.

Ltac allowed_step :=
  lazymatch goal with
  | |- appends _ (spawn refreshMetrics) => apply appends_spawn, refreshMetrics_allowed
  | |- appends _ (spawn refreshTasks) => apply appends_spawn, refreshTasks_allowed
  | |- appends _ (spawn refreshViz) => apply appends_spawn, refreshViz_allowed
  | |- appends _ (spawn refreshHopfionField) =>
      apply appends_spawn, refreshHopfionField_allowed
  | |- appends _ (api _ (POST _)) => apply appends_api, post_allowed; reflexivity
  | |- appends _ (api ("/tasks/" +:+ _) no_options) => apply appends_api, task_status_allowed
  | |- _ => appends_step
  end.

Lemma handler_allowed l : appends allowed_request (handler l).
Proof.
  destruct l; unfold handler;
    unfold handle_submitTaskBtn_click, handle_startResearchBtn_click,
      handle_refreshMetricsBtn_click, handle_llmQueryBtn_click,
      handle_eqgftVizTypeEl_change, handle_eqgftRunBtn_click,
      handle_eqgftSendLlmBtn_click, run_campaign;
    cbv zeta; repeat allowed_step.
Qed.

Lemma run_callback_allowed poll f : appends allowed_request (run_callback poll f).
Proof. destruct f. unfold run_callback. repeat allowed_step. Qed.

Lemma script_allowed : appends allowed_request script.
Proof. unfold script. repeat allowed_step. Qed.

Lemma run_allowed (m : M unit) st :
  appends allowed_request m ->
  exists new, requests (run m st) = requests st ++ new /\ Forall allowed_request new.
Proof. intros H. unfold run. apply (appends_spawn _ _ H st). Qed.

Lemma step_allowed ev st :
  exists new, requests (step ev st) = requests st ++ new /\ Forall allowed_request new.
Proof.
  destruct ev as [l | handle]; simpl.
  - case_bool_decide; [apply run_allowed, handler_allowed |].
    exists []. now rewrite app_nil_r.
  - destruct (timers st !! handle) as [t |];
      [apply run_allowed, run_callback_allowed |].
    exists []. now rewrite app_nil_r.
Qed.

Lemma steps_allowed evs st :
  exists new, requests (steps evs st) = requests st ++ new /\ Forall allowed_request new.
Proof.
  revert st. induction evs as [| ev evs IH]; intros st; simpl.
  - exists []. now rewrite app_nil_r.
  - destruct (step_allowed ev st) as (new1 & H1 & HS1).
    destruct (IH (step ev st)) as (new2 & H2 & HS2).
    exists (new1 ++ new2). unfold steps in *. rewrite H2, H1, app_assoc.
    split; [done | now apply Forall_app].
Qed.

Lemma allowed_endpoint r :
  allowed r = true ->
  exists path,
    url r = "/api" +:+ path
    /\ ((http_method r, path) ∈ endpoints
        \/ (http_method r = "GET" /\ exists id, path = "/tasks/" +:+ id)).
Proof.
  unfold allowed. destruct (strip_prefix "/api" (url r)) as [path |] eqn:Hp; [| discriminate].
  intros H. exists path. split; [now apply strip_prefix_app |].
  unfold is_endpoint in H. apply orb_true_iff in H as [H | H].
  - right. apply andb_true_iff in H as [Hm Hid].
    apply String.eqb_eq in Hm. apply bool_decide_eq_true in Hid as [id Hid].
    split; [done |]. exists id. now apply strip_prefix_app.
  - left. apply existsb_exists in H as ([m q] & Hin & H).
    apply andb_true_iff in H as [Hm Hq]. apply String.eqb_eq in Hm, Hq. simpl in *.
    subst. now apply list_elem_of_In.
Qed.

(** C4: whatever the page, the server and the events, every request the
    client has sent has the URL [/api] followed by a path, and method and
    path are among [GET /metrics], [GET /tasks], [POST /tasks],
    [GET /visualization/packet], [GET /visualization/hopfion-field],
    [POST /llm/query], [POST /llm/research-campaign],
    [POST /llm/plan-eqgft-task] and [GET /tasks/{id}]. *)
Theorem every_request_hits_one_of_nine_endpoints page srv evs :
  Forall
    (fun r =>
       exists path,
         url r = "/api" +:+ path
         /\ ((http_method r, path)
               ∈ [ ("GET", "/metrics"); ("GET", "/tasks"); ("POST", "/tasks");
                   ("GET", "/visualization/packet");
                   ("GET", "/visualization/hopfion-field");
                   ("POST", "/llm/query"); ("POST", "/llm/research-campaign");
                   ("POST", "/llm/plan-eqgft-task") ]
             \/ (http_method r = "GET" /\ exists id, path = "/tasks/" +:+ id)))
    (requests (steps evs (load page srv))).
Proof.
  destruct (steps_allowed evs (load page srv)) as (new2 & H2 & HS2).
  destruct (run_allowed script (initial page srv) script_allowed) as (new1 & H1 & HS1).
  rewrite H2. unfold load. rewrite H1. simpl.
  eapply Forall_impl; [apply Forall_app; split; eassumption |].
  intros r Hr. apply allowed_endpoint, Hr.
Qed.

(** ** refreshHopfionField *)

Lemma array_map_tuples i ts :
  1 <= i <= 3 ->
  array_map (fun v => get_index v i) (map tuple ts) = Normal (map (component i) ts).
Proof.
  intros Hi. induction ts as [| [[[a b] c] d] ts IH]; simpl; [done |].
  rewrite IH. simpl. do 2 f_equal.
  destruct i as [| [| [| [| i]]]]; simpl; try lia; reflexivity.
Qed.

Lemma q_x_map_tuples props i ts :
  1 <= i <= 3 ->
  assoc "q_x" props = Some (VArr (map tuple ts)) ->
  q_x_map (VObj props) i = Normal (map (component i) ts).
Proof.
  intros Hi Hq. unfold q_x_map. simpl. rewrite Hq. simpl. now apply array_map_tuples.
Qed.

(** The calls of [Plotly.newPlot] are changed by [Plotly_newPlot] only. *)
Lemma update_plots sel what f st : plots (snd (update sel what f st)) = plots st.
Proof. unfold update. now destruct (dom st !! sel). Qed.

Lemma api_plots path options st : plots (snd (api path options st)) = plots st.
Proof.
  destruct (server st (length (requests st))) as [e | res] eqn:H.
  - now rewrite (api_rejected _ _ _ _ H).
  - destruct (ok res) eqn:Hok;
      [now rewrite (api_ok _ _ _ _ H Hok) | now rewrite (api_not_ok _ _ _ _ H Hok)].
Qed.

(** Whatever comes back, [refreshHopfionField] plots at most one cone trace,
    and in it the directions are the positions. *)
Lemma refreshHopfionField_plots st :
  plots (snd (refreshHopfionField st)) = plots st
  \/ exists tr,
      plots (snd (refreshHopfionField st)) = plots st ++ [("eqgft-response", [tr])]
      /\ type tr = "cone" /\ u tr = x tr /\ v tr = y tr /\ w tr = z tr.
Proof.
  unfold refreshHopfionField, try_catch, bind, lift.
  pose proof (api_plots "/visualization/hopfion-field" no_options st) as Hp.
  destruct (api "/visualization/hopfion-field" no_options st) as [[data | e] st1];
    simpl in Hp.
  - destruct (truthy data); [| left; simpl; congruence].
    destruct (q_x_map data 1) as [xs | e];
      [| left; cbv beta iota; unfold set_textContent; rewrite update_plots; congruence].
    destruct (q_x_map data 2) as [ys | e];
      [| left; cbv beta iota; unfold set_textContent; rewrite update_plots; congruence].
    destruct (q_x_map data 3) as [zs | e];
      [| left; cbv beta iota; unfold set_textContent; rewrite update_plots; congruence].
    right. eexists. simpl. rewrite Hp. repeat split.
  - left. unfold set_textContent. rewrite update_plots. congruence.
Qed.

(** C6: from a payload whose [q_x] is a list of 4-tuples,
    [refreshHopfionField] plots one cone trace whose positions [x], [y], [z]
    are the components 1, 2 and 3 of the tuples, whose directions [u], [v],
    [w] are the same three lists, and in which component 0 does not occur;
    and for every payload, whenever it plots, the directions equal the
    positions. *)
Theorem refreshHopfionField_plots_positions_as_directions :
  (forall st res props ts,
      server st (length (requests st)) = inr res ->
      ok res = true ->
      JSON_parse (text res) = inr (VObj props) ->
      assoc "q_x" props = Some (VArr (map tuple ts)) ->
      plots (snd (refreshHopfionField st))
      = plots st
        ++ [("eqgft-response",
             [ {| type := "cone";
                  x := map (component 1) ts;
                  y := map (component 2) ts;
                  z := map (component 3) ts;
                  u := map (component 1) ts;
                  v := map (component 2) ts;
                  w := map (component 3) ts;
                  sizemode := "absolute"; sizeref := 1 |} ])])
  /\ (forall st,
      plots (snd (refreshHopfionField st)) = plots st
      \/ exists tr,
          plots (snd (refreshHopfionField st)) = plots st ++ [("eqgft-response", [tr])]
          /\ type tr = "cone" /\ u tr = x tr /\ v tr = y tr /\ w tr = z tr).
Proof.
  split; [| exact refreshHopfionField_plots].
  intros st res props ts Hres Hok Hjson Hq.
  unfold refreshHopfionField.
  erewrite try_normal.
  2:{ erewrite bind_normal by (rewrite (api_ok _ _ _ _ Hres Hok), Hjson; reflexivity).
      cbn [truthy].
      repeat
        (first [ rewrite (lift_normal (q_x_map (VObj props) 1) _ _ _
                            (q_x_map_tuples _ 1 _ ltac:(lia) Hq))
               | rewrite (lift_normal (q_x_map (VObj props) 2) _ _ _
                            (q_x_map_tuples _ 2 _ ltac:(lia) Hq))
               | rewrite (lift_normal (q_x_map (VObj props) 3) _ _ _
                            (q_x_map_tuples _ 3 _ ltac:(lia) Hq)) ]).
      reflexivity. }
  reflexivity.
Qed.

(** ** refreshTasks *)

Lemma with_content_content el : with_content el (content el) = el.
Proof. now destruct el. Qed.

Lemma with_dom_same st : with_dom st (dom st) = st.
Proof. now destruct st. Qed.

Lemma task_row_object task st :
  task <> VNull -> task <> VUndefined ->
  task_row task st = (Normal (expected_row task), st).
Proof. intros Hn Hu. destruct task; try done. Qed.

(** The loop of lines 59-63 appends one row per task, in order. *)
Lemma forEach_appends_rows items : forall st el,
  dom st !! taskListEl = Some el ->
  Forall (fun task => task <> VNull /\ task <> VUndefined) items ->
  forEach (fun task => let! tr := task_row task in appendChild taskListEl tr) items st
  = (Normal tt,
     with_dom st (<[taskListEl := with_content el (content el ++ map expected_row items)]>
                    (dom st))).
Proof.
  induction items as [| item rest IH]; intros st el Hel Hitems; simpl.
  - rewrite app_nil_r, with_content_content, insert_id by done.
    now rewrite with_dom_same.
  - apply Forall_cons in Hitems as [[Hn Hu] Hrest].
    erewrite bind_normal.
    2:{ erewrite bind_normal by (now apply task_row_object).
        unfold appendChild. eapply update_present. exact Hel. }
    erewrite IH; [| cbn [dom with_dom]; apply lookup_insert_eq | done].
    cbn [dom with_dom content with_content].
    rewrite insert_insert_eq. unfold with_content, with_dom; simpl.
    now rewrite <- app_assoc.
Qed.

(** The page after [refreshTasks] failed in [api]. *)
Lemma refreshTasks_api_failure st e el :
  fst (api "/tasks" no_options st) = Throw e ->
  dom st !! taskListEl = Some el ->
  refreshTasks st
  = (Normal tt,
     with_dom (snd (api "/tasks" no_options st))
       (<[taskListEl := with_content el [Markup (error_row (message e))]]> (dom st))).
Proof.
  intros He Hel. unfold refreshTasks.
  assert (Hapi : api "/tasks" no_options st = (Throw e, snd (api "/tasks" no_options st))).
  { destruct (api "/tasks" no_options st) as [c st1]. simpl in *. now subst c. }
  erewrite try_caught by (erewrite bind_throw by exact Hapi; reflexivity).
  unfold set_innerHTML.
  erewrite update_present by (rewrite api_dom; exact Hel).
  now rewrite api_dom.
Qed.

(** The loop either appends every row, or throws with some rows appended. *)
Lemma forEach_rows_or_throw items : forall st el,
  dom st !! taskListEl = Some el ->
  exists c cs,
    forEach (fun task => let! tr := task_row task in appendChild taskListEl tr) items st
    = (c, with_dom st (<[taskListEl := with_content el cs]> (dom st)))
    /\ (c = Normal tt -> cs = content el ++ map expected_row items).
Proof.
  induction items as [| item rest IH]; intros st el Hel; simpl.
  - exists (Normal tt), (content el). split; [| now rewrite app_nil_r].
    rewrite with_content_content, insert_id by done. now rewrite with_dom_same.
  - assert (Hsame : with_dom st (<[taskListEl := with_content el (content el)]> (dom st)) = st).
    { rewrite with_content_content, insert_id by done. apply with_dom_same. }
    assert (Hitem : item = VNull \/ item = VUndefined
                    \/ (item <> VNull /\ item <> VUndefined))
      by (destruct item; auto; right; right; split; discriminate).
    destruct Hitem as [-> | [-> | [Hn Hu]]];
      [ exists (type_error ("reading " +:+ "task_id")), (content el);
        rewrite Hsame; split; [reflexivity | discriminate] ..
      | ].
    erewrite bind_normal.
    2:{ erewrite bind_normal by (now apply task_row_object).
        unfold appendChild. eapply update_present. exact Hel. }
    edestruct (IH (with_dom st (<[taskListEl :=
                                   with_content el (content el ++ [expected_row item])]>
                                  (dom st))))
      as (c & cs & Hrun & Hcs); [cbn [dom with_dom]; apply lookup_insert_eq |].
    exists c, cs. rewrite Hrun. cbn [dom with_dom]. rewrite insert_insert_eq.
    split; [reflexivity |].
    intros Hc. rewrite (Hcs Hc). cbn [content with_content]. now rewrite <- app_assoc.
Qed.

(** Whatever happens, [refreshTasks] leaves in the table either one row per
    task or the single row of an error. *)
Lemma refreshTasks_table st el :
  dom st !! taskListEl = Some el ->
  exists cs,
    dom (snd (refreshTasks st)) = <[taskListEl := with_content el cs]> (dom st)
    /\ ((exists items, cs = map expected_row items)
        \/ (exists msg, cs = [Markup (error_row msg)])).
Proof.
  intros Hel. unfold refreshTasks, try_catch. unfold bind at 1.
  pose proof (api_dom "/tasks" no_options st) as Hdom.
  destruct (api "/tasks" no_options st) as [[tasks | e] st1]; simpl in Hdom.
  2:{ unfold set_innerHTML. erewrite update_present by (rewrite Hdom; exact Hel).
      eexists. cbn [snd dom with_dom]. rewrite Hdom. split; [reflexivity |].
      right. now eexists. }
  unfold bind at 1. unfold set_innerHTML at 1.
  erewrite update_present by (rewrite Hdom; exact Hel).
  unfold bind at 1, lift at 1.
  destruct (as_array tasks "forEach") as [items | e].
  2:{ unfold set_innerHTML.
      erewrite update_present by (cbn [dom with_dom]; apply lookup_insert_eq).
      eexists. cbn [snd dom with_dom]. rewrite insert_insert_eq, Hdom.
      split; [reflexivity |]. right. now eexists. }
  cbn [markup_nodes].
  destruct (forEach_rows_or_throw items
              (with_dom st1 (<[taskListEl := with_content el []]> (dom st1)))
              (with_content el []))
    as (c & cs & Hrun & Hcs); [cbn [dom with_dom]; apply lookup_insert_eq |].
  rewrite Hrun. cbn [dom with_dom]. rewrite insert_insert_eq, Hdom.
  destruct c as [[] | e].
  - eexists. split; [reflexivity |]. left. exists items. now rewrite Hcs.
  - unfold set_innerHTML.
    erewrite update_present by (cbn [dom with_dom]; apply lookup_insert_eq).
    eexists. cbn [snd dom with_dom]. rewrite insert_insert_eq.
    split; [reflexivity |]. right. now eexists.
Qed.

(** C7: when GET /api/tasks answers with a list of tasks, [refreshTasks]
    leaves in the table exactly one row per task, in the order received,
    each holding the [task_id] and the JSON of the [status] of its task,
    and nothing of what the table held before; when the call fails, the
    table holds a single row spanning both columns with the message of the
    error; and whatever happens, the table ends with one row per task or
    with the single row of an error. *)
Theorem refreshTasks_renders_one_row_per_task :
  (forall st res items el,
      server st (length (requests st)) = inr res ->
      ok res = true ->
      JSON_parse (text res) = inr (VArr items) ->
      Forall (fun task => task <> VNull /\ task <> VUndefined) items ->
      dom st !! taskListEl = Some el ->
      refreshTasks st
      = (Normal tt,
         with_dom (read_body (logged st (init_of "/tasks" no_options)) read_json)
           (<[taskListEl := with_content el (map expected_row items)]> (dom st))))
  /\ (forall st e el,
      fst (api "/tasks" no_options st) = Throw e ->
      dom st !! taskListEl = Some el ->
      refreshTasks st
      = (Normal tt,
         with_dom (snd (api "/tasks" no_options st))
           (<[taskListEl :=
                with_content el
                  [Markup ("<tr><td colspan=" +:+ dquote +:+ "2" +:+ dquote +:+ ">"
                           +:+ message e +:+ "</td></tr>")]]> (dom st))))
  /\ (forall props task_id status,
      assoc "task_id" props = Some task_id ->
      assoc "status" props = Some status ->
      status <> VUndefined ->
      expected_row (VObj props)
      = Created "tr"
          [Markup ("<td>" +:+ ToString task_id +:+ "</td><td>"
                   +:+ JSON_stringify status None +:+ "</td>")])
  /\ (forall st el,
      dom st !! taskListEl = Some el ->
      exists rows,
        dom (snd (refreshTasks st)) = <[taskListEl := with_content el rows]> (dom st)
        /\ ((exists items, rows = map expected_row items)
            \/ (exists msg,
                  rows = [Markup ("<tr><td colspan=" +:+ dquote +:+ "2" +:+ dquote +:+ ">"
                                  +:+ msg +:+ "</td></tr>")]))).
Proof.
  split; [| split; [exact refreshTasks_api_failure | split; [| exact refreshTasks_table]]].
  2:{ intros props task_id status Hid Hstatus Hdef. unfold expected_row, property.
      rewrite Hid, Hstatus. simpl. now destruct status. }
  intros st res items el Hres Hok Hjson Hitems Hel.
  unfold refreshTasks.
  erewrite try_normal; [reflexivity |].
  erewrite bind_normal by (rewrite (api_ok _ _ _ _ Hres Hok), Hjson; reflexivity).
  erewrite bind_normal
    by (unfold set_innerHTML; apply update_present; exact Hel).
  erewrite lift_normal by reflexivity.
  erewrite forEach_appends_rows; [| cbn [dom with_dom]; apply lookup_insert_eq | done].
  cbn [dom with_dom content with_content markup_nodes app].
  now rewrite insert_insert_eq.
Qed.

(** ** Requests of a handler that starts with a call of api *)

Lemma starts_with_api_bind {B} S path options (k : Js.value -> M B) :
  (forall a, appends S (k a)) ->
  starts_with (init_of path options) S (bind (api path options) k).
Proof.
  intros Hk st. unfold bind.
  pose proof (api_requests path options st) as Hr.
  destruct (api path options st) as [[a | e] st1]; simpl in Hr.
  - destruct (Hk a st1) as (new & Hnew & HS).
    exists new. rewrite Hnew, Hr, <- app_assoc. now split.
  - exists []. simpl. now split.
Qed.

Lemma starts_with_try_catch {A} r S (m : M A) (h : exn -> M A) :
  starts_with r S m -> (forall e, appends S (h e)) -> starts_with r S (try_catch m h).
Proof.
  intros Hm Hh st. unfold try_catch. destruct (Hm st) as (rest & Hrest & HS).
  destruct (m st) as [[a | e] st1]; simpl in *.
  - now exists rest.
  - destruct (Hh e st1) as (new & Hnew & HS').
    exists (rest ++ new). rewrite Hnew, Hrest, <- app_assoc. split; [done |].
    now apply Forall_app.
Qed.

Lemma is_get_GET path r : is_get path r -> is_GET r.
Proof. now intros ->. Qed.

Ltac gets_step :=
  lazymatch goal with
  | |- appends _ (spawn refreshMetrics) =>
      apply appends_spawn;
      eapply appends_weaken; [apply is_get_GET | apply refreshMetrics_requests]
  | |- appends _ (spawn refreshTasks) =>
      apply appends_spawn;
      eapply appends_weaken; [apply is_get_GET | apply refreshTasks_requests]
  | |- appends _ (spawn refreshViz) =>
      apply appends_spawn;
      eapply appends_weaken; [apply is_get_GET | apply refreshViz_requests]
  | |- appends _ (spawn refreshHopfionField) =>
      apply appends_spawn;
      eapply appends_weaken; [apply is_get_GET | apply refreshHopfionField_requests]
  | |- _ => appends_step
  end.

(** ** The research campaign *)

Lemma optional_value_bind {B} sel (k : option string -> M B) st :
  (let! input := optional_value sel in k input) st = k (value <$> dom st !! sel) st.
Proof. reflexivity. Qed.

Lemma run_campaign_requests payload :
  forall st,
    requests (snd (run_campaign payload st)) = requests st
    \/ exists rest,
        requests (snd (run_campaign payload st))
        = requests st
          ++ init_of "/llm/research-campaign" (POST (JSON_stringify payload None)) :: rest
        /\ Forall is_GET rest.
Proof.
  intros st. unfold run_campaign.
  set (body := try_catch _ _).
  assert (Hbody : starts_with
            (init_of "/llm/research-campaign" (POST (JSON_stringify payload None)))
            is_GET body).
  { apply starts_with_try_catch.
    - apply starts_with_api_bind. intros response. repeat gets_step.
    - intros e. repeat gets_step. }
  clearbody body. unfold bind.
  pose proof (silent_update researchResultEl "textContent"
                (fun el => with_content el (text_nodes "Running research campaign…")) st)
    as Hs.
  unfold set_textContent.
  destruct (update researchResultEl _ _ st) as [[[] | e] st1]; simpl in Hs;
    [| left; simpl; congruence].
  right. rewrite <- Hs. apply Hbody.
Qed.

(** The handler when the context is not empty and is not JSON. *)
Lemma invalid_context st source :
  value <$> dom st !! researchContextEl = Some source ->
  string_truthy (trim source) = true ->
  forall e, JSON_parse source = inl e ->
  handle_startResearchBtn_click st
  = set_textContent researchResultEl ("Invalid context JSON: " +:+ message e) st.
Proof.
  intros Hctx Htrim e He. unfold handle_startResearchBtn_click.
  rewrite !optional_value_bind, Hctx, Htrim, He. reflexivity.
Qed.

(** C8: when the context is not empty after trimming and is not valid
    JSON, the handler writes [Invalid context JSON: ] and the message of
    the parser into the result element, and changes nothing else: no
    request is sent.  So a request is sent only when the context is absent
    or blank, or parses. *)
Theorem invalid_context_stops_before_any_request :
  (forall st source e el,
      value <$> dom st !! researchContextEl = Some source ->
      string_truthy (trim source) = true ->
      JSON_parse source = inl e ->
      dom st !! researchResultEl = Some el ->
      handle_startResearchBtn_click st
      = (Normal tt,
         with_dom st
           (<[researchResultEl :=
                with_content el [TextNode ("Invalid context JSON: " +:+ message e)]]>
              (dom st))))
  /\ (forall st,
      requests (snd (handle_startResearchBtn_click st)) <> requests st ->
      match value <$> dom st !! researchContextEl with
      | Some source =>
          string_truthy (trim source) = false \/ exists v, JSON_parse source = inr v
      | None => True
      end).
Proof.
  split.
  - intros st source e el Hctx Htrim He Hel.
    rewrite (invalid_context _ _ Hctx Htrim _ He).
    now rewrite (set_textContent_present _ _ _ _ Hel).
  - intros st Hsent.
    destruct (value <$> dom st !! researchContextEl) as [source |] eqn:Hctx; [| done].
    destruct (string_truthy (trim source)) eqn:Htrim; [| now left].
    destruct (JSON_parse source) as [e | v] eqn:He; [| right; eauto].
    exfalso. apply Hsent. rewrite (invalid_context _ _ Hctx Htrim _ He).
    apply silent_update.
Qed.

Lemma string_or_nonempty a b : b <> EmptyString -> string_or a b <> EmptyString.
Proof. intros Hb. unfold string_or. now destruct a. Qed.

Lemma number_or_falsy a b : number_truthy a = false -> number_or a b = b.
Proof. intros H. unfold number_or. now rewrite H. Qed.

(** C9: the body of every POST /api/llm/research-campaign the handler
    sends is the JSON of an object with the five fields [goal],
    [optimization_target], [target_value], [max_steps] and [context], in
    which [goal] and [optimization_target] are never empty and fall back to
    their literals when the input is absent or blank, [target_value] is 0
    when [parseFloat] yields NaN or the input is absent or empty,
    [max_steps] is 5 when [parseInt] yields NaN or the input is absent or
    empty, and [context] is the empty object when the context is absent or
    blank. *)
Theorem campaign_request_is_fully_populated :
  (forall st,
      requests (snd (handle_startResearchBtn_click st)) = requests st
      \/ exists contextPayload rest,
          requests (snd (handle_startResearchBtn_click st))
          = requests st
            ++ init_of "/llm/research-campaign"
                 (POST (JSON_stringify
                          (VObj [("goal",
                                  VStr (campaign_goal (value <$> dom st !! researchGoalEl)));
                                 ("optimization_target",
                                  VStr (campaign_target
                                          (value <$> dom st !! researchTargetEl)));
                                 ("target_value",
                                  VNum (campaign_target_value
                                          (value <$> dom st !! researchTargetValueEl)));
                                 ("max_steps",
                                  VNum (campaign_max_steps
                                          (value <$> dom st !! researchStepsEl)));
                                 ("context", contextPayload)])
                          None))
               :: rest
          /\ Forall is_GET rest
          /\ match value <$> dom st !! researchContextEl with
             | Some source =>
                 if string_truthy (trim source)
                 then JSON_parse source = inr contextPayload
                 else contextPayload = VObj []
             | None => contextPayload = VObj []
             end)
  /\ (forall input, campaign_goal input <> EmptyString)
  /\ (forall input,
      input = None \/ (exists s, input = Some s /\ trim s = EmptyString) ->
      campaign_goal input = "Достичь topological_winding = 9.0000")
  /\ (forall input, campaign_target input <> EmptyString)
  /\ (forall input,
      input = None \/ (exists s, input = Some s /\ trim s = EmptyString) ->
      campaign_target input = "topological_winding")
  /\ (forall input,
      is_NaN (parseFloat (match input with Some s => string_or s "0" | None => "0" end))
      = true ->
      campaign_target_value input = S754_zero false)
  /\ (parseFloat "0" = S754_zero false ->
      forall input, input = None \/ input = Some EmptyString ->
      campaign_target_value input = S754_zero false)
  /\ (forall input,
      is_NaN (parseInt (match input with Some s => string_or s "5" | None => "5" end)
                       (Some 10))
      = true ->
      campaign_max_steps input = number_of_Z 5)
  /\ (parseInt "5" (Some 10) = number_of_Z 5 ->
      forall input, input = None \/ input = Some EmptyString ->
      campaign_max_steps input = number_of_Z 5).
Proof.
  split; [| repeat split].
  - intros st. unfold handle_startResearchBtn_click.
    rewrite !optional_value_bind. cbv zeta. unfold campaign_request.
    destruct (value <$> dom st !! researchContextEl) as [source |].
    + destruct (string_truthy (trim source)).
      * destruct (JSON_parse source) as [e | contextPayload].
        -- left. apply silent_update.
        -- match goal with
           | |- context [run_campaign ?payload st] =>
               destruct (run_campaign_requests payload st) as [H | (rest & H & HS)]
           end; [now left | right].
           now exists contextPayload, rest.
      * match goal with
        | |- context [run_campaign ?payload st] =>
            destruct (run_campaign_requests payload st) as [H | (rest & H & HS)]
        end; [now left | right].
        now exists (VObj []), rest.
    + match goal with
      | |- context [run_campaign ?payload st] =>
          destruct (run_campaign_requests payload st) as [H | (rest & H & HS)]
      end; [now left | right].
      now exists (VObj []), rest.
  - intros [s |]; simpl; [now apply string_or_nonempty | done].
  - intros input [-> | (s & -> & Hs)]; simpl; [done | now rewrite Hs].
  - intros [s |]; simpl; [now apply string_or_nonempty | done].
  - intros input [-> | (s & -> & Hs)]; simpl; [done | now rewrite Hs].
  - intros input Hnan. unfold campaign_target_value. apply number_or_falsy.
    now destruct (parseFloat _).
  - intros Hzero input [-> | ->]; unfold campaign_target_value, string_or;
      cbn [string_truthy]; now rewrite Hzero.
  - intros input Hnan. unfold campaign_max_steps. apply number_or_falsy.
    now destruct (parseInt _ _).
  - intros Hfive input [-> | ->]; unfold campaign_max_steps, string_or;
      cbn [string_truthy]; now rewrite Hfive.
Qed.

(** ** The EQGFT task form *)

Lemma eqgft_task_custom nEvents kappa systematicError pythonScript :
  eqgft_task "custom-python-script" nEvents kappa systematicError pythonScript
  = VObj [("task_name", VStr "Custom Python Script");
          ("geometric_operator", VStr "CustomPythonScript");
          ("parameters", VObj [("script", VStr pythonScript)])].
Proof. reflexivity. Qed.

Lemma eqgft_task_line_plot nEvents kappa systematicError pythonScript :
  eqgft_task "line-plot" nEvents kappa systematicError pythonScript
  = VObj [("task_name", VStr "Simulate EQGFT Asymmetry");
          ("geometric_operator", VStr "SimulateEqgftAsymmetry");
          ("parameters",
           VObj [("kappa", VNum (parseFloat kappa));
                 ("n_events", VNum (parseInt nEvents None));
                 ("systematic_error", VNum (parseFloat systematicError))])].
Proof. reflexivity. Qed.

Lemma eqgft_task_other vizType nEvents kappa systematicError pythonScript :
  vizType <> "custom-python-script" -> vizType <> "line-plot" ->
  eqgft_task vizType nEvents kappa systematicError pythonScript
  = VObj [("task_name", VStr "Generate Hopfion Field");
          ("geometric_operator", VStr "GenerateHopfionField");
          ("parameters", VObj [])].
Proof.
  intros H1 H2. unfold eqgft_task.
  apply String.eqb_neq in H1, H2. now rewrite H1, H2.
Qed.

(** C3: with the form on the page, the handler of [#eqgft-run] first sends
    POST /api/tasks with the JSON of [{ task, execute: true }], where [task]
    has one of three shapes chosen by the visualization type:
    [CustomPythonScript] with the script as its only parameter for
    [custom-python-script]; [SimulateEqgftAsymmetry] with [kappa],
    [n_events] and [systematic_error] parsed from the inputs for
    [line-plot]; [GenerateHopfionField] with no parameters for any other
    type.  Every request after it is a GET. *)
Theorem eqgft_run_posts_one_of_three_task_shapes st vizEl nEl kEl sEl pEl :
  dom st !! eqgftVizTypeEl = Some vizEl ->
  dom st !! "#eqgft-n-events" = Some nEl ->
  dom st !! "#eqgft-kappa" = Some kEl ->
  dom st !! "#eqgft-systematic-error" = Some sEl ->
  dom st !! "#eqgft-python-script" = Some pEl ->
  exists task rest,
    requests (snd (handle_eqgftRunBtn_click st))
    = requests st
      ++ init_of "/tasks"
           (POST (JSON_stringify (VObj [("task", task); ("execute", VBool true)]) None))
         :: rest
    /\ Forall is_GET rest
    /\ (value vizEl = "custom-python-script" ->
        task = VObj [("task_name", VStr "Custom Python Script");
                     ("geometric_operator", VStr "CustomPythonScript");
                     ("parameters", VObj [("script", VStr (value pEl))])])
    /\ (value vizEl = "line-plot" ->
        task = VObj [("task_name", VStr "Simulate EQGFT Asymmetry");
                     ("geometric_operator", VStr "SimulateEqgftAsymmetry");
                     ("parameters",
                      VObj [("kappa", VNum (parseFloat (value kEl)));
                            ("n_events", VNum (parseInt (value nEl) None));
                            ("systematic_error", VNum (parseFloat (value sEl)))])])
    /\ (value vizEl <> "custom-python-script" -> value vizEl <> "line-plot" ->
        task = VObj [("task_name", VStr "Generate Hopfion Field");
                     ("geometric_operator", VStr "GenerateHopfionField");
                     ("parameters", VObj [])]).
Proof.
  intros Hviz Hn Hk Hs Hp. unfold handle_eqgftRunBtn_click.
  erewrite bind_normal by (apply read_present; exact Hviz).
  erewrite bind_normal by (apply read_present; exact Hn).
  erewrite bind_normal by (apply read_present; exact Hk).
  erewrite bind_normal by (apply read_present; exact Hs).
  erewrite bind_normal by (apply read_present; exact Hp).
  cbv zeta. unfold task_submission.
  set (task := eqgft_task _ _ _ _ _).
  match goal with
  | |- context [try_catch ?m ?h st] =>
      assert (Hsend : starts_with
                (init_of "/tasks"
                   (POST (JSON_stringify (VObj [("task", task); ("execute", VBool true)])
                            None)))
                is_GET (try_catch m h))
  end.
  { apply starts_with_try_catch.
    - apply starts_with_api_bind. intros _. repeat gets_step.
    - intros e. repeat gets_step. }
  destruct (Hsend st) as (rest & Hrest & HS). exists task, rest.
  split; [exact Hrest | split; [exact HS |]]. subst task. repeat split.
  - intros ->. apply eqgft_task_custom.
  - intros ->. apply eqgft_task_line_plot.
  - apply eqgft_task_other.
Qed.

(** ** What a computation leaves alone *)

Section Frame.
Context {X : Type} (proj : World -> X).
Hypothesis proj_dom : forall st d, proj (with_dom st d) = proj st.
Hypothesis proj_requests : forall st r, proj (with_requests st r) = proj st.
Hypothesis proj_body_reads : forall st b, proj (with_body_reads st b) = proj st.
Hypothesis proj_plots : forall st p, proj (with_plots st p) = proj st.
Hypothesis proj_uncaught : forall st e, proj (with_uncaught st e) = proj st.

Lemma preserves_ret {A} (a : A) : preserves proj (ret a).
Proof. now intros st. Qed.

Lemma preserves_throw {A} (e : exn) : preserves proj (throw (A := A) e).
Proof. now intros st. Qed.

Lemma preserves_lift {A} (c : completion A) : preserves proj (lift c).
Proof. now intros st. Qed.

Lemma preserves_bind {A B} (m : M A) (k : A -> M B) :
  preserves proj m -> (forall a, preserves proj (k a)) -> preserves proj (bind m k).
Proof.
  intros Hm Hk st. unfold bind. specialize (Hm st).
  destruct (m st) as [[a | e] st1]; simpl in *; [now rewrite Hk | done].
Qed.

Lemma preserves_try_catch {A} (m : M A) (h : exn -> M A) :
  preserves proj m -> (forall e, preserves proj (h e)) -> preserves proj (try_catch m h).
Proof.
  intros Hm Hh st. unfold try_catch. specialize (Hm st).
  destruct (m st) as [[a | e] st1]; simpl in *; [done | now rewrite Hh].
Qed.

Lemma preserves_spawn (m : M unit) : preserves proj m -> preserves proj (spawn m).
Proof.
  intros Hm st. unfold spawn. specialize (Hm st).
  destruct (m st) as [[a | e] st1]; simpl in *; [done | now rewrite proj_uncaught].
Qed.

Lemma preserves_querySelector sel : preserves proj (querySelector sel).
Proof. now intros st. Qed.

Lemma preserves_optional_value sel : preserves proj (optional_value sel).
Proof. now intros st. Qed.

Lemma preserves_update sel what f : preserves proj (update sel what f).
Proof. intros st. unfold update. destruct (dom st !! sel); simpl; [apply proj_dom | done]. Qed.

Lemma preserves_read {A} sel what (f : Element -> A) : preserves proj (read sel what f).
Proof. intros st. unfold read. now destruct (dom st !! sel). Qed.

Lemma preserves_api path options : preserves proj (api path options).
Proof.
  intros st. destruct (api_frame path options st) as [reads ->].
  rewrite proj_body_reads. apply proj_requests.
Qed.

Lemma preserves_Plotly_newPlot target traces : preserves proj (Plotly_newPlot target traces).
Proof. intros st. apply proj_plots. Qed.

Lemma preserves_forEach (f : Js.value -> M unit) items :
  (forall item, preserves proj (f item)) -> preserves proj (forEach f items).
Proof.
  intros Hf. induction items as [| item rest IH]; simpl.
  - apply preserves_ret.
  - apply preserves_bind; [apply Hf | intros _; exact IH].
Qed.

(** One step through the structure of a computation. *)
Ltac preserves_step :=
  lazymatch goal with
  | |- preserves _ (bind _ _) => apply preserves_bind; [| intros ?]
  | |- preserves _ (try_catch _ _) => apply preserves_try_catch; [| intros ?]
  | |- preserves _ (spawn _) => apply preserves_spawn
  | |- preserves _ (forEach _ _) => apply preserves_forEach; intros ?
  | |- preserves _ (api _ _) => apply preserves_api
  | |- preserves _ (ret _) => apply preserves_ret
  | |- preserves _ (throw _) => apply preserves_throw
  | |- preserves _ (lift _) => apply preserves_lift
  | |- preserves _ (querySelector _) => apply preserves_querySelector
  | |- preserves _ (optional_value _) => apply preserves_optional_value
  | |- preserves _ (update _ _ _) => apply preserves_update
  | |- preserves _ (read _ _ _) => apply preserves_read
  | |- preserves _ (Plotly_newPlot _ _) => apply preserves_Plotly_newPlot
  | |- preserves _ (if ?b then _ else _) => destruct b
  | |- preserves _ (match ?x with _ => _ end) => destruct x
  | |- preserves _ _ =>
      unfold set_textContent, set_innerHTML, set_value, set_display, appendChild
  end.

Lemma preserves_refreshMetrics : preserves proj refreshMetrics.
Proof. unfold refreshMetrics, updatePhysicsConstants. repeat preserves_step. Qed.

Lemma preserves_refreshTasks : preserves proj refreshTasks.
Proof. unfold refreshTasks, task_row. repeat preserves_step. Qed.

Lemma preserves_refreshViz : preserves proj refreshViz.
Proof. unfold refreshViz. repeat preserves_step. Qed.

Lemma preserves_refreshHopfionField : preserves proj refreshHopfionField.
Proof. unfold refreshHopfionField. repeat preserves_step. Qed.

End Frame.

(** ** Intervals *)

Lemma clock_refreshMetrics : preserves clock refreshMetrics.
Proof. now apply preserves_refreshMetrics. Qed.

Lemma clock_refreshTasks : preserves clock refreshTasks.
Proof. now apply preserves_refreshTasks. Qed.

Lemma clock_refreshViz : preserves clock refreshViz.
Proof. now apply preserves_refreshViz. Qed.

Lemma clock_refreshHopfionField : preserves clock refreshHopfionField.
Proof. now apply preserves_refreshHopfionField. Qed.

Lemma clock_update sel what f : preserves clock (update sel what f).
Proof. now apply preserves_update. Qed.

Lemma clock_api path options : preserves clock (api path options).
Proof. now apply preserves_api. Qed.

Lemma clock_registers_only {A} (m : M A) : preserves clock m -> registers_only m.
Proof.
  intros Hm st. specialize (Hm st). unfold clock in Hm.
  injection Hm as Ht Hn. rewrite Ht, Hn. repeat split; [lia | auto].
Qed.

Lemma registers_only_bind {A B} (m : M A) (k : A -> M B) :
  registers_only m -> (forall a, registers_only (k a)) -> registers_only (bind m k).
Proof.
  intros Hm Hk st. unfold bind. destruct (Hm st) as (Hn1 & Hold1 & Hnew1).
  destruct (m st) as [[a | e] st1]; simpl in *; [| done].
  destruct (Hk a st1) as (Hn2 & Hold2 & Hnew2).
  split; [lia | split].
  - intros handle Hh. rewrite Hold2 by lia. now apply Hold1.
  - intros handle t Ht. destruct (Hnew2 _ _ Ht) as [Ht1 | [Hr Hp]].
    + destruct (Hnew1 _ _ Ht1) as [Ht0 | [Hr Hp]]; [now left | right; split; [lia | done]].
    + right. split; [lia | done].
Qed.

Lemma registers_only_try_catch {A} (m : M A) (h : exn -> M A) :
  registers_only m -> (forall e, registers_only (h e)) -> registers_only (try_catch m h).
Proof.
  intros Hm Hh st. unfold try_catch. destruct (Hm st) as (Hn1 & Hold1 & Hnew1).
  destruct (m st) as [[a | e] st1]; simpl in *; [done |].
  destruct (Hh e st1) as (Hn2 & Hold2 & Hnew2).
  split; [lia | split].
  - intros handle Hh'. rewrite Hold2 by lia. now apply Hold1.
  - intros handle t Ht. destruct (Hnew2 _ _ Ht) as [Ht1 | [Hr Hp]].
    + destruct (Hnew1 _ _ Ht1) as [Ht0 | [Hr Hp]]; [now left | right; split; [lia | done]].
    + right. split; [lia | done].
Qed.

Lemma registers_only_spawn (m : M unit) : registers_only m -> registers_only (spawn m).
Proof.
  intros Hm st. unfold spawn. specialize (Hm st).
  destruct (m st) as [[a | e] st1]; simpl in *; exact Hm.
Qed.

Lemma registers_only_setInterval f : registers_only (setInterval f 1000).
Proof.
  intros st. simpl. split; [lia | split].
  - intros handle Hh. apply lookup_insert_ne. lia.
  - intros handle t Ht. destruct (decide (next_timer st = handle)) as [<- | Hne].
    + rewrite lookup_insert_eq in Ht. injection Ht as <-. right. split; [lia | done].
    + rewrite lookup_insert_ne in Ht by done. now left.
Qed.

Ltac clock_leaf :=
  apply clock_registers_only;
  unfold set_textContent, set_innerHTML, set_value, set_display, appendChild;
  first [ apply clock_update
        | apply clock_api
        | apply preserves_ret
        | apply preserves_throw
        | apply preserves_lift
        | apply preserves_querySelector
        | apply preserves_optional_value
        | apply preserves_read ].

Ltac registers_step :=
  lazymatch goal with
  | |- registers_only (bind _ _) => apply registers_only_bind; [| intros ?]
  | |- registers_only (try_catch _ _) => apply registers_only_try_catch; [| intros ?]
  | |- registers_only (spawn refreshMetrics) =>
      apply clock_registers_only, preserves_spawn; [done | apply clock_refreshMetrics]
  | |- registers_only (spawn refreshTasks) =>
      apply clock_registers_only, preserves_spawn; [done | apply clock_refreshTasks]
  | |- registers_only (spawn refreshViz) =>
      apply clock_registers_only, preserves_spawn; [done | apply clock_refreshViz]
  | |- registers_only (spawn refreshHopfionField) =>
      apply clock_registers_only, preserves_spawn; [done | apply clock_refreshHopfionField]
  | |- registers_only (setInterval _ 1000) => apply registers_only_setInterval
  | |- registers_only (if ?b then _ else _) => destruct b
  | |- registers_only (match ?x with _ => _ end) => destruct x
  | |- registers_only _ => clock_leaf
  end.

Lemma handler_registers_only l : registers_only (handler l).
Proof.
  destruct l; unfold handler;
    unfold handle_submitTaskBtn_click, handle_startResearchBtn_click,
      handle_refreshMetricsBtn_click, handle_llmQueryBtn_click,
      handle_eqgftVizTypeEl_change, handle_eqgftRunBtn_click,
      handle_eqgftSendLlmBtn_click, run_campaign;
    cbv zeta; repeat registers_step.
Qed.

(** ** The polling interval *)

Lemma strict_eq_Completed s :
  strict_eq_string s "Completed" = true <-> s = VStr "Completed".
Proof.
  destruct s; simpl; try (split; [discriminate | discriminate]).
  rewrite String.eqb_eq. split; [now intros -> | now intros [= ->]].
Qed.

(** A poll that is not answered with a completed task does what its call of
    [api] does, and nothing more. *)
Lemma run_callback_idle st poll task_id :
  ~ completed (server st (length (requests st))) ->
  exists c,
    run_callback poll (poll_callback task_id) st
    = (c, snd (api ("/tasks/" +:+ ToString task_id) no_options st)).
Proof.
  intros Hnot. unfold run_callback. unfold bind at 1.
  destruct (server st (length (requests st))) as [e | res] eqn:Hres.
  - rewrite (api_rejected _ _ _ _ Hres). eauto.
  - destruct (ok res) eqn:Hok.
    2:{ rewrite (api_not_ok _ _ _ _ Hres Hok). eauto. }
    rewrite (api_ok _ _ _ _ Hres Hok).
    destruct (JSON_parse (text res)) as [e | body] eqn:Hjson; [simpl; eauto |].
    cbn [of_sum snd].
    destruct (get_field body "status") as [state | e] eqn:Hstate.
    2:{ erewrite lift_throw by reflexivity. eauto. }
    erewrite lift_normal by reflexivity.
    destruct (strict_eq_string state "Completed") eqn:Heq.
    + exfalso. apply Hnot. exists res, body. apply strict_eq_Completed in Heq.
      subst state. now repeat split.
    + eauto.
Qed.

(** A poll answered with a completed task cancels the interval, and goes on
    to line 261. *)
Lemma run_callback_done st poll task_id :
  completed (server st (length (requests st))) ->
  run_callback poll (poll_callback task_id) st
  = (set_textContent statusEl "EQGFT task completed." ;;
     spawn refreshMetrics ;;
     spawn refreshViz)
      (with_timers (read_body (logged st (poll_request task_id)) read_json)
                   (delete poll (timers st)) (next_timer st)).
Proof.
  intros (res & body & Hres & Hok & Hjson & Hstate). unfold run_callback.
  erewrite bind_normal by (rewrite (api_ok _ _ _ _ Hres Hok), Hjson; reflexivity).
  erewrite lift_normal by exact Hstate.
  cbn [strict_eq_string]. rewrite String.eqb_refl.
  reflexivity.
Qed.

Lemma after_completion_clock :
  preserves clock (set_textContent statusEl "EQGFT task completed." ;;
                   spawn refreshMetrics ;;
                   spawn refreshViz).
Proof.
  apply preserves_bind; [apply clock_update | intros _].
  apply preserves_bind; [| intros _].
  - apply preserves_spawn; [done | apply clock_refreshMetrics].
  - apply preserves_spawn; [done | apply clock_refreshViz].
Qed.

(** What a tick of a running interval does to the intervals. *)
Lemma tick_idle st poll t :
  timers st !! poll = Some t ->
  ~ completed (server st (length (requests st))) ->
  clock (step (Tick poll) st) = clock st
  /\ dom (step (Tick poll) st) = dom st
  /\ exists rest,
      requests (step (Tick poll) st)
      = requests st ++ init_of ("/tasks/" +:+
          match action t with poll_callback task_id => ToString task_id end) no_options
          :: rest.
Proof.
  intros Ht Hnot. unfold step. rewrite Ht. destruct t as [p [task_id]]. cbn [action].
  destruct (run_callback_idle st poll task_id Hnot) as (c & Hc).
  destruct (api_frame ("/tasks/" +:+ ToString task_id) no_options st) as [reads Hst].
  unfold run, spawn. rewrite Hc, Hst. destruct c; simpl; eauto.
Qed.

Lemma tick_done st poll t :
  timers st !! poll = Some t ->
  completed (server st (length (requests st))) ->
  clock (step (Tick poll) st) = (delete poll (timers st), next_timer st).
Proof.
  intros Ht Hdone. unfold step. rewrite Ht. destruct t as [p [task_id]]. cbn [action].
  unfold run, spawn. rewrite (run_callback_done _ _ _ Hdone).
  pose proof (after_completion_clock
                (with_timers (read_body (logged st (poll_request task_id)) read_json)
                   (delete poll (timers st)) (next_timer st))) as Hc.
  destruct ((set_textContent statusEl "EQGFT task completed." ;;
             spawn refreshMetrics ;; spawn refreshViz) _) as [[[] | e] st1];
    simpl in *; exact Hc.
Qed.

Lemma completed_dec answer : completed answer \/ ~ completed answer.
Proof.
  destruct answer as [e | res]; [right; now intros (? & ? & ? & _) |].
  destruct (ok res) eqn:Hok.
  2:{ right. intros (res' & ? & [= <-] & Hok' & _). congruence. }
  destruct (JSON_parse (text res)) as [e | body] eqn:Hjson.
  { right. intros (res' & ? & [= <-] & _ & Hjson' & _). congruence. }
  destruct (get_field body "status") as [state | e] eqn:Hstate.
  2:{ right. intros (res' & body' & [= <-] & _ & Hjson' & Hstate'). congruence. }
  destruct (strict_eq_string state "Completed") eqn:Heq.
  - left. apply strict_eq_Completed in Heq. subst state. now exists res, body.
  - right. intros (res' & body' & [= <-] & _ & Hjson' & Hstate').
    assert (state = VStr "Completed") as Hs by congruence.
    apply strict_eq_Completed in Hs. congruence.
Qed.

Lemma fresh_registers_only {A} (m : M A) st :
  registers_only m -> fresh st -> fresh (snd (m st)).
Proof.
  intros Hm Hf handle t Ht. destruct (Hm st) as (Hn & _ & Hnew).
  destruct (Hnew _ _ Ht) as [Ht0 | [Hr _]]; [| lia].
  specialize (Hf _ _ Ht0). lia.
Qed.

(** An event other than a completed poll of [poll] leaves the interval [poll]
    running, and keeps the handles fresh. *)
Lemma step_keeps_interval ev st poll t :
  fresh st ->
  timers st !! poll = Some t ->
  (ev = Tick poll -> ~ completed (server st (length (requests st)))) ->
  fresh (step ev st) /\ timers (step ev st) !! poll = Some t.
Proof.
  intros Hf Ht Hnot. destruct ev as [l | other].
  - unfold step. case_bool_decide; [| done].
    pose proof (registers_only_spawn _ (handler_registers_only l)) as Hr.
    split; [now apply fresh_registers_only |].
    destruct (Hr st) as (_ & Hold & _). unfold run. rewrite Hold; [done |].
    now apply (Hf _ t).
  - destruct (timers st !! other) as [t' |] eqn:Ht'.
    2:{ unfold step. now rewrite Ht'. }
    destruct (completed_dec (server st (length (requests st)))) as [Hdone | Hidle].
    + pose proof (tick_done _ _ _ Ht' Hdone) as Hc. unfold clock in Hc.
      apply pair_equal_spec in Hc as [Htimers Hnext].
      assert (other <> poll) as Hne by (intros ->; now apply Hnot).
      split.
      * intros handle t'' H. rewrite Htimers in H. rewrite Hnext.
        apply lookup_delete_Some in H as [_ H]. now apply (Hf _ t'').
      * rewrite Htimers. now rewrite lookup_delete_ne.
    + destruct (tick_idle _ _ _ Ht' Hidle) as (Hc & _). unfold clock in Hc.
      apply pair_equal_spec in Hc as [Htimers Hnext].
      split; [| now rewrite Htimers].
      intros handle t'' H. rewrite Htimers in H. rewrite Hnext. now apply (Hf _ t'').
Qed.

Lemma interval_survives evs : forall st poll t,
  fresh st ->
  timers st !! poll = Some t ->
  never_completed poll evs st ->
  timers (steps evs st) !! poll = Some t.
Proof.
  induction evs as [| ev evs IH]; intros st poll t Hf Ht Hnever; [done |].
  destruct Hnever as [Hnot Hrest].
  destruct (step_keeps_interval ev st poll t Hf Ht Hnot) as [Hf' Ht'].
  now apply (IH (step ev st)).
Qed.

(** The requests of a refresh, exactly. *)
Lemma starts_with_only {A} r (m : M A) :
  starts_with r (fun _ => False) m ->
  forall st, requests (snd (m st)) = requests st ++ [r].
Proof.
  intros Hm st. destruct (Hm st) as (rest & Hrest & HS).
  destruct rest as [| r' rest]; [done |]. now apply Forall_cons in HS as [[] _].
Qed.

Lemma refreshMetrics_one_request st :
  requests (snd (refreshMetrics st)) = requests st ++ [init_of "/metrics" no_options].
Proof.
  apply starts_with_only. unfold refreshMetrics, updatePhysicsConstants.
  apply starts_with_try_catch; [apply starts_with_api_bind; intros data | intros e];
    repeat appends_step.
Qed.

Lemma refreshViz_one_request st :
  requests (snd (refreshViz st))
  = requests st ++ [init_of "/visualization/packet" no_options].
Proof.
  apply starts_with_only. unfold refreshViz.
  apply starts_with_try_catch; [apply starts_with_api_bind; intros data | intros e];
    repeat appends_step.
Qed.

Lemma spawn_requests (m : M unit) st : requests (snd (spawn m st)) = requests (snd (m st)).
Proof. unfold spawn. now destruct (m st) as [[[] | e] st1]. Qed.

Lemma refresh_both_requests st :
  requests (snd ((spawn refreshMetrics ;; spawn refreshViz) st))
  = requests st ++ [init_of "/metrics" no_options;
                    init_of "/visualization/packet" no_options].
Proof.
  unfold bind. pose proof (spawn_requests refreshMetrics st) as Hm.
  rewrite refreshMetrics_one_request in Hm.
  destruct (spawn refreshMetrics st) as [[[] | e] st1] eqn:Hs; simpl in Hm.
  - now rewrite spawn_requests, refreshViz_one_request, Hm, <- app_assoc.
  - unfold spawn in Hs. now destruct (refreshMetrics st) as [[[] | ?] ?].
Qed.

(** The requests of a poll that finds the task completed. *)
Lemma tick_done_requests st poll p task_id el :
  timers st !! poll = Some {| period := p; action := poll_callback task_id |} ->
  completed (server st (length (requests st))) ->
  dom st !! statusEl = Some el ->
  requests (step (Tick poll) st)
  = requests st ++ [poll_request task_id;
                    init_of "/metrics" no_options;
                    init_of "/visualization/packet" no_options].
Proof.
  intros Ht Hdone Hel. unfold step. rewrite Ht. cbn [action].
  unfold run. rewrite spawn_requests, (run_callback_done _ _ _ Hdone).
  erewrite bind_normal by (apply set_textContent_present; exact Hel).
  rewrite refresh_both_requests. unfold read_body, logged.
  cbn [requests with_dom with_timers with_requests with_body_reads].
  now rewrite <- app_assoc.
Qed.

Lemma get_field_property body k :
  body <> VNull -> body <> VUndefined -> get_field body k = Normal (property body k).
Proof. intros Hn Hu. now destruct body. Qed.

(** When the plan and the submission both succeed, the handler of
    [#eqgft-send-llm] starts one interval of period 1000 that polls the task
    the server named. *)
Lemma send_llm_starts_interval st queryEl responseEl el res1 task res2 created :
  dom st !! eqgftLlmQueryEl = Some queryEl ->
  dom st !! eqgftResponseEl = Some responseEl ->
  dom st !! statusEl = Some el ->
  server st (length (requests st)) = inr res1 ->
  ok res1 = true -> JSON_parse (text res1) = inr task ->
  server st (S (length (requests st))) = inr res2 ->
  ok res2 = true -> JSON_parse (text res2) = inr created ->
  created <> VNull -> created <> VUndefined ->
  exists st',
    handle_eqgftSendLlmBtn_click st = (Normal tt, st')
    /\ timers st'
       = <[next_timer st :=
             {| period := 1000; action := poll_callback (property created "task_id") |}]>
           (timers st)
    /\ next_timer st' = S (next_timer st)
    /\ requests st'
       = requests st
         ++ [init_of "/llm/plan-eqgft-task"
               (POST (JSON_stringify (VObj [("query", VStr (value queryEl))]) None));
             init_of "/tasks"
               (POST (JSON_stringify (VObj [("task", task); ("execute", VBool true)])
                        None))].
Proof.
  intros Hq Hresp Hstatus Hres1 Hok1 Hjson1 Hres2 Hok2 Hjson2 Hn Hu.
  unfold handle_eqgftSendLlmBtn_click. eexists. split.
  - erewrite try_normal; [reflexivity |].
    erewrite bind_normal by (apply read_present; exact Hq).
    erewrite bind_normal by (rewrite (api_ok _ _ _ _ Hres1 Hok1), Hjson1; reflexivity).
    erewrite bind_normal by (apply set_textContent_present; exact Hresp).
    erewrite bind_normal
      by (apply set_textContent_present; cbn [dom with_dom];
          rewrite lookup_insert_ne by done; exact Hstatus).
    erewrite bind_normal.
    2:{ erewrite api_ok; [rewrite Hjson2; reflexivity | | exact Hok2].
        unfold read_body, logged.
        cbn [requests server with_dom with_requests with_body_reads].
        rewrite length_app, Nat.add_1_r. exact Hres2. }
    erewrite lift_normal by (now apply get_field_property).
    reflexivity.
  - cbn. rewrite <- app_assoc. now repeat split.
Qed.

(** C1: the handler of [#eqgft-send-llm] starts only intervals of period
    1000 whose callback polls a task, and starts one when the plan and the
    submission succeed; a tick of such an interval sends
    GET /api/tasks/{task_id}; the interval is gone after the tick exactly
    when the answer is an ok response whose JSON has the [status]
    [Completed], and then metrics and visualization packet are fetched
    again; after any other answer the intervals are as before, and so, along
    any events in which none of its polls is answered as completed, the
    interval keeps running. *)
Theorem poll_interval_stops_iff_completed :
  (forall st handle t,
      timers (snd (handle_eqgftSendLlmBtn_click st)) !! handle = Some t ->
      timers st !! handle = Some t \/ period t = 1000)
  /\ (forall st queryEl responseEl el res1 task res2 created,
      dom st !! eqgftLlmQueryEl = Some queryEl ->
      dom st !! eqgftResponseEl = Some responseEl ->
      dom st !! statusEl = Some el ->
      server st (length (requests st)) = inr res1 ->
      ok res1 = true -> JSON_parse (text res1) = inr task ->
      server st (S (length (requests st))) = inr res2 ->
      ok res2 = true -> JSON_parse (text res2) = inr created ->
      created <> VNull -> created <> VUndefined ->
      timers (snd (handle_eqgftSendLlmBtn_click st))
      = <[next_timer st :=
            {| period := 1000; action := poll_callback (property created "task_id") |}]>
          (timers st))
  /\ (forall st poll p task_id,
      timers st !! poll = Some {| period := p; action := poll_callback task_id |} ->
      exists rest,
        requests (step (Tick poll) st)
        = requests st ++ init_of ("/tasks/" +:+ ToString task_id) no_options :: rest)
  /\ (forall st poll t,
      timers st !! poll = Some t ->
      timers (step (Tick poll) st) !! poll = None
      <-> completed (server st (length (requests st))))
  /\ (forall st poll p task_id el,
      timers st !! poll = Some {| period := p; action := poll_callback task_id |} ->
      completed (server st (length (requests st))) ->
      dom st !! statusEl = Some el ->
      requests (step (Tick poll) st)
      = requests st ++ [init_of ("/tasks/" +:+ ToString task_id) no_options;
                        init_of "/metrics" no_options;
                        init_of "/visualization/packet" no_options])
  /\ (forall st poll t,
      timers st !! poll = Some t ->
      ~ completed (server st (length (requests st))) ->
      timers (step (Tick poll) st) = timers st)
  /\ (forall evs st poll t,
      fresh st ->
      timers st !! poll = Some t ->
      never_completed poll evs st ->
      timers (steps evs st) !! poll = Some t).
Proof.
  repeat apply conj.
  - intros st handle t Ht.
    destruct (handler_registers_only eqgftSendLlmBtn_click st) as (_ & _ & Hnew).
    destruct (Hnew _ _ Ht) as [H | [_ H]]; [now left | now right].
  - intros st queryEl responseEl el res1 task res2 created
      Hq Hresp Hstatus Hres1 Hok1 Hjson1 Hres2 Hok2 Hjson2 Hn Hu.
    destruct (send_llm_starts_interval st _ _ _ _ _ _ _
                Hq Hresp Hstatus Hres1 Hok1 Hjson1 Hres2 Hok2 Hjson2 Hn Hu)
      as (st' & Hrun & Htimers & _).
    now rewrite Hrun.
  - intros st poll p task_id Ht.
    destruct (completed_dec (server st (length (requests st)))) as [Hdone | Hidle].
    + unfold step. rewrite Ht. cbn [action]. unfold run.
      rewrite spawn_requests, (run_callback_done _ _ _ Hdone).
      pose proof (starts_with_api_bind (fun _ => True) ("/tasks/" +:+ ToString task_id)
                    no_options (fun _ => ret tt)) as Hfirst.
      match goal with
      | |- context [bind ?m ?k ?s] =>
          assert (Hafter : appends (fun _ => True) (bind m k))
      end.
      { repeat appends_step; eapply appends_weaken;
          [intros ? _; exact I | apply refreshMetrics_requests
          | intros ? _; exact I | apply refreshViz_requests]. }
      match goal with
      | |- context [bind ?m ?k ?s] => destruct (Hafter s) as (new & Hnew & _)
      end.
      exists new. rewrite Hnew. unfold read_body, logged.
      cbn [requests with_timers with_requests with_body_reads].
      now rewrite <- app_assoc.
    + destruct (tick_idle _ _ _ Ht Hidle) as (_ & _ & rest & Hrest). now exists rest.
  - intros st poll t Ht. split.
    + intros Hgone.
      destruct (completed_dec (server st (length (requests st)))) as [Hdone | Hidle];
        [done |].
      destruct (tick_idle _ _ _ Ht Hidle) as (Hc & _).
      apply pair_equal_spec in Hc as [Htimers _]. rewrite Htimers in Hgone. congruence.
    + intros Hdone. pose proof (tick_done _ _ _ Ht Hdone) as Hc.
      apply pair_equal_spec in Hc as [Htimers _]. rewrite Htimers.
      apply lookup_delete_eq.
  - intros st poll p task_id el Ht Hdone Hel. now apply (tick_done_requests _ _ p _ el).
  - intros st poll t Ht Hidle. destruct (tick_idle _ _ _ Ht Hidle) as (Hc & _).
    now apply pair_equal_spec in Hc as [Htimers _].
  - intros evs st poll t. apply interval_survives.
Qed.

(** ** The call sites that do catch *)

Lemma keeps_elements_same_dom {A} (m : M A) :
  (forall st, dom (snd (m st)) = dom st) -> keeps_elements m.
Proof. intros H st sel. unfold present. now rewrite H. Qed.

Lemma keeps_elements_bind {A B} (m : M A) (k : A -> M B) :
  keeps_elements m -> (forall a, keeps_elements (k a)) -> keeps_elements (bind m k).
Proof.
  intros Hm Hk st sel Hsel. unfold bind. specialize (Hm st sel Hsel).
  destruct (m st) as [[a | e] st1]; simpl in *; [now apply Hk | done].
Qed.

Lemma keeps_elements_try_catch {A} (m : M A) (h : exn -> M A) :
  keeps_elements m -> (forall e, keeps_elements (h e)) -> keeps_elements (try_catch m h).
Proof.
  intros Hm Hh st sel Hsel. unfold try_catch. specialize (Hm st sel Hsel).
  destruct (m st) as [[a | e] st1]; simpl in *; [done | now apply Hh].
Qed.

Lemma keeps_elements_spawn (m : M unit) : keeps_elements m -> keeps_elements (spawn m).
Proof.
  intros Hm st sel Hsel. unfold spawn. specialize (Hm st sel Hsel).
  now destruct (m st) as [[a | e] st1].
Qed.

Lemma keeps_elements_update sel what f : keeps_elements (update sel what f).
Proof.
  intros st sel' Hsel'. unfold update, present in *.
  destruct (dom st !! sel) as [el |] eqn:Hel; simpl; [| done].
  destruct (decide (sel = sel')) as [-> | Hne];
    [rewrite lookup_insert_eq; eauto | now rewrite lookup_insert_ne].
Qed.

Lemma keeps_elements_forEach (f : Js.value -> M unit) items :
  (forall item, keeps_elements (f item)) -> keeps_elements (forEach f items).
Proof.
  intros Hf. induction items as [| item rest IH]; simpl.
  - now apply keeps_elements_same_dom.
  - apply keeps_elements_bind; [apply Hf | intros _; exact IH].
Qed.

Ltac keeps_step :=
  lazymatch goal with
  | |- keeps_elements (bind _ _) => apply keeps_elements_bind; [| intros ?]
  | |- keeps_elements (try_catch _ _) => apply keeps_elements_try_catch; [| intros ?]
  | |- keeps_elements (spawn _) => apply keeps_elements_spawn
  | |- keeps_elements (forEach _ _) => apply keeps_elements_forEach; intros ?
  | |- keeps_elements (update _ _ _) => apply keeps_elements_update
  | |- keeps_elements (api _ _) => apply keeps_elements_same_dom, api_dom
  | |- keeps_elements (read _ _ _) =>
      apply keeps_elements_same_dom; intros ?; unfold read;
      now destruct (dom _ !! _)
  | |- keeps_elements (if ?b then _ else _) => destruct b
  | |- keeps_elements (match ?x with _ => _ end) => destruct x
  | |- keeps_elements _ =>
      first [ progress unfold set_textContent, set_innerHTML, set_value, set_display,
                appendChild
            | apply keeps_elements_same_dom; intros ?; reflexivity ]
  end.

Lemma keeps_elements_refreshMetrics : keeps_elements refreshMetrics.
Proof. unfold refreshMetrics, updatePhysicsConstants. repeat keeps_step. Qed.

Lemma keeps_elements_refreshTasks : keeps_elements refreshTasks.
Proof. unfold refreshTasks, task_row. repeat keeps_step. Qed.

Lemma keeps_elements_refreshViz : keeps_elements refreshViz.
Proof. unfold refreshViz. repeat keeps_step. Qed.

Lemma keeps_elements_refreshHopfionField : keeps_elements refreshHopfionField.
Proof. unfold refreshHopfionField. repeat keeps_step. Qed.

Lemma update_returns sel what f st :
  present sel st -> fst (update sel what f st) = Normal tt.
Proof. intros [el Hel]. unfold update. now rewrite Hel. Qed.

(** A [try] whose [catch] writes the message into an element of the page
    never throws. *)
Lemma try_catch_returns (m : M unit) (h : exn -> M unit) sel st :
  keeps_elements m ->
  (forall e st', present sel st' -> fst (h e st') = Normal tt) ->
  present sel st ->
  fst (try_catch m h st) = Normal tt.
Proof.
  intros Hm Hh Hsel. unfold try_catch. specialize (Hm st sel Hsel).
  destruct (m st) as [[[] | e] st1]; simpl in *; [done | now apply Hh].
Qed.

(** Each of the four refresh functions and of the handlers of
    [#submit-task], [#send-llm] and [#eqgft-send-llm] is one [try] with such
    a [catch]: whatever the server answers, it returns normally when the
    element its [catch] writes to is on the page. *)
Lemma call_sites_with_try_return :
  (forall st, present metricsEl st -> fst (refreshMetrics st) = Normal tt)
  /\ (forall st, present taskListEl st -> fst (refreshTasks st) = Normal tt)
  /\ (forall st, present vizPacketEl st -> fst (refreshViz st) = Normal tt)
  /\ (forall st, present eqgftResponseEl st -> fst (refreshHopfionField st) = Normal tt)
  /\ (forall st, present statusEl st -> fst (handle_submitTaskBtn_click st) = Normal tt)
  /\ (forall st, present llmResponseEl st -> fst (handle_llmQueryBtn_click st) = Normal tt)
  /\ (forall st, present eqgftResponseEl st ->
                 fst (handle_eqgftSendLlmBtn_click st) = Normal tt).
Proof.
  repeat apply conj; intros st Hsel;
    (eapply try_catch_returns;
     [ | intros e st' Hst'; unfold set_textContent, set_innerHTML;
         apply update_returns; exact Hst' | exact Hsel ]).
  - unfold updatePhysicsConstants. repeat keeps_step.
  - unfold task_row. repeat keeps_step.
  - repeat keeps_step.
  - repeat keeps_step.
  - repeat first [ apply keeps_elements_spawn, keeps_elements_refreshTasks
                 | apply keeps_elements_spawn, keeps_elements_refreshMetrics
                 | keeps_step ].
  - repeat keeps_step.
  - repeat keeps_step.
Qed.

(** So do the two remaining ones, once the statements before their [try]
    have run: the campaign, and the handler of [#eqgft-run]. *)
Lemma remaining_call_sites_with_try_return :
  (forall payload st,
      present researchResultEl st -> fst (run_campaign payload st) = Normal tt)
  /\ (forall st,
      present eqgftVizTypeEl st -> present "#eqgft-n-events" st ->
      present "#eqgft-kappa" st -> present "#eqgft-systematic-error" st ->
      present "#eqgft-python-script" st -> present statusEl st ->
      fst (handle_eqgftRunBtn_click st) = Normal tt).
Proof.
  split.
  - intros payload st [el Hel]. unfold run_campaign.
    erewrite bind_normal by (apply set_textContent_present; exact Hel).
    eapply try_catch_returns.
    + repeat first [ apply keeps_elements_spawn, keeps_elements_refreshMetrics
                   | keeps_step ].
    + intros e st' Hst'. unfold set_textContent. apply update_returns. exact Hst'.
    + unfold present. cbn [dom with_dom]. rewrite lookup_insert_eq. eauto.
  - intros st [vizEl Hviz] [nEl Hn] [kEl Hk] [sEl Hs] [pEl Hp] Hstatus.
    unfold handle_eqgftRunBtn_click.
    erewrite bind_normal by (apply read_present; exact Hviz).
    erewrite bind_normal by (apply read_present; exact Hn).
    erewrite bind_normal by (apply read_present; exact Hk).
    erewrite bind_normal by (apply read_present; exact Hs).
    erewrite bind_normal by (apply read_present; exact Hp).
    cbv zeta. eapply try_catch_returns.
    + repeat first [ apply keeps_elements_spawn, keeps_elements_refreshTasks
                   | apply keeps_elements_spawn, keeps_elements_refreshMetrics
                   | apply keeps_elements_spawn, keeps_elements_refreshHopfionField
                   | keeps_step ].
    + intros e st' Hst'. unfold set_textContent. apply update_returns. exact Hst'.
    + exact Hstatus.
Qed.

(** ** A failure inside the polling callback *)

(** Whatever makes [api] throw in the callback of the interval ends up
    uncaught, and nothing of the page changes. *)
Lemma poll_failure_escapes st poll p task_id e :
  timers st !! poll = Some {| period := p; action := poll_callback task_id |} ->
  fst (api ("/tasks/" +:+ ToString task_id) no_options st) = Throw e ->
  step (Tick poll) st
  = with_uncaught (snd (api ("/tasks/" +:+ ToString task_id) no_options st))
                  (uncaught st ++ [e]).
Proof.
  intros Ht He. unfold step. rewrite Ht. cbn [action]. unfold run, spawn, run_callback.
  destruct (api_frame ("/tasks/" +:+ ToString task_id) no_options st) as [reads Hst].
  unfold bind at 1.
  destruct (api ("/tasks/" +:+ ToString task_id) no_options st) as [c st1].
  simpl in He, Hst. subst c st1. reflexivity.
Qed.

(** * Further properties of the script *)

(** ** The shape of every request *)

Ltac general_step HG HP :=
  lazymatch goal with
  | |- appends _ (spawn refreshMetrics) =>
      apply appends_spawn; eapply appends_weaken;
      [| apply refreshMetrics_requests];
      intros ? Hr; unfold is_get in Hr; rewrite Hr; apply HG
  | |- appends _ (spawn refreshTasks) =>
      apply appends_spawn; eapply appends_weaken;
      [| apply refreshTasks_requests];
      intros ? Hr; unfold is_get in Hr; rewrite Hr; apply HG
  | |- appends _ (spawn refreshViz) =>
      apply appends_spawn; eapply appends_weaken;
      [| apply refreshViz_requests];
      intros ? Hr; unfold is_get in Hr; rewrite Hr; apply HG
  | |- appends _ (spawn refreshHopfionField) =>
      apply appends_spawn; eapply appends_weaken;
      [| apply refreshHopfionField_requests];
      intros ? Hr; unfold is_get in Hr; rewrite Hr; apply HG
  | |- appends _ (api _ (POST _)) => apply appends_api, HP
  | |- appends _ (api _ no_options) => apply appends_api, HG
  | |- _ => appends_step
  end.

Section Shape.
Variable S : Request -> Prop.
Hypothesis S_get : forall path, S (init_of path no_options).
Hypothesis S_post : forall path payload, S (init_of path (POST payload)).

Lemma handler_appends l : appends S (handler l).
Proof.
  destruct l; unfold handler;
    unfold handle_submitTaskBtn_click, handle_startResearchBtn_click,
      handle_refreshMetricsBtn_click, handle_llmQueryBtn_click,
      handle_eqgftVizTypeEl_change, handle_eqgftRunBtn_click,
      handle_eqgftSendLlmBtn_click, run_campaign;
    cbv zeta; repeat general_step S_get S_post.
Qed.

Lemma run_callback_appends poll f : appends S (run_callback poll f).
Proof. destruct f. unfold run_callback. repeat general_step S_get S_post. Qed.

Lemma script_appends : appends S script.
Proof. unfold script. repeat general_step S_get S_post. Qed.

Lemma step_appends ev st :
  exists new, requests (step ev st) = requests st ++ new /\ Forall S new.
Proof.
  destruct ev as [l | handle]; simpl.
  - case_bool_decide; [apply (appends_spawn _ _ (handler_appends l) st) |].
    exists []. now rewrite app_nil_r.
  - destruct (timers st !! handle) as [t |];
      [apply (appends_spawn _ _ (run_callback_appends handle (action t)) st) |].
    exists []. now rewrite app_nil_r.
Qed.

Lemma steps_appends evs st :
  exists new, requests (steps evs st) = requests st ++ new /\ Forall S new.
Proof.
  revert st. induction evs as [| ev evs IH]; intros st; simpl.
  - exists []. now rewrite app_nil_r.
  - destruct (step_appends ev st) as (new1 & H1 & HS1).
    destruct (IH (step ev st)) as (new2 & H2 & HS2).
    exists (new1 ++ new2). unfold steps in *. rewrite H2, H1, app_assoc.
    split; [done | now apply Forall_app].
Qed.

Lemma session_requests page srv evs : Forall S (requests (steps evs (load page srv))).
Proof.
  destruct (steps_appends evs (load page srv)) as (new2 & H2 & HS2).
  destruct (appends_spawn _ _ script_appends (initial page srv)) as (new1 & H1 & HS1).
  rewrite H2. unfold load, run. rewrite H1. simpl. now apply Forall_app.
Qed.

End Shape.

(** X1: whatever the page, the server and the events, every request the
    client sends carries exactly one header, [Content-Type:
    application/json]: no call site passes headers of its own to [api]. *)
Theorem every_request_is_sent_as_json page srv evs :
  Forall (fun r => init_headers r = [("Content-Type", "application/json")])
         (requests (steps evs (load page srv))).
Proof. now apply session_requests. Qed.

(** X2: every request the client sends either names no method and has no
    body (a GET), or is a POST with a body; the client uses no other
    method, never sends a GET with a body and never a POST without one. *)
Theorem every_request_is_a_bare_get_or_a_post_with_body page srv evs :
  Forall (fun r =>
            (init_method r = None /\ init_body r = None)
            \/ (init_method r = Some "POST" /\ is_Some (init_body r)))
         (requests (steps evs (load page srv))).
Proof.
  apply (session_requests shaped).
  - intros path. now left.
  - intros path payload. right. simpl. eauto.
Qed.

(** ** The top level of the script *)

Lemma false_appends_silent {A} (m : M A) : appends (fun _ => False) m -> silent m.
Proof.
  intros Hm st. destruct (Hm st) as (new & Hnew & HS).
  destruct new as [| r new]; [now rewrite Hnew, app_nil_r |].
  now apply Forall_cons in HS as [[] _].
Qed.

Lemma bind_spawn {B} (m : M unit) (k : unit -> M B) st :
  bind (spawn m) k st = k tt (snd (spawn m st)).
Proof. unfold bind, spawn. now destruct (m st) as [[[] | e] st1]. Qed.

Lemma addEventListener_run sel l st :
  addEventListener sel l st
  = (Normal tt, with_listeners st (listeners st ++ attached (dom st) sel l)).
Proof.
  unfold addEventListener, attached. destruct (dom st !! sel) as [el |] eqn:Hel.
  - rewrite bool_decide_eq_true_2 by eauto. reflexivity.
  - rewrite bool_decide_eq_false_2 by (intros [? ?]; discriminate).
    rewrite app_nil_r. now destruct st.
Qed.

Lemma refreshTasks_one_request st :
  requests (snd (refreshTasks st)) = requests st ++ [init_of "/tasks" no_options].
Proof.
  apply starts_with_only. unfold refreshTasks, task_row.
  apply starts_with_try_catch; [apply starts_with_api_bind; intros data | intros e];
    repeat appends_step.
Qed.

Lemma refreshHopfionField_one_request st :
  requests (snd (refreshHopfionField st))
  = requests st ++ [init_of "/visualization/hopfion-field" no_options].
Proof.
  apply starts_with_only. unfold refreshHopfionField.
  apply starts_with_try_catch; [apply starts_with_api_bind; intros data | intros e];
    repeat appends_step.
Qed.

(** X3: whatever the page and whatever the server answers, loading the
    script sends exactly three requests, in this order: GET /api/metrics,
    GET /api/tasks and GET /api/visualization/packet. *)
Theorem load_sends_exactly_three_refreshes page srv :
  requests (load page srv)
  = [ init_of "/metrics" no_options;
      init_of "/tasks" no_options;
      init_of "/visualization/packet" no_options ].
Proof.
  unfold load, run. rewrite spawn_requests. unfold script.
  rewrite !(bind_normal _ _ _ _ _ (addEventListener_run _ _ _)).
  rewrite !bind_spawn.
  match goal with
  | |- requests (snd (?tail ?s)) = _ =>
      assert (Htail : silent tail)
        by (apply false_appends_silent; repeat appends_step);
      rewrite (Htail s)
  end.
  rewrite spawn_requests, refreshViz_one_request.
  rewrite spawn_requests, refreshTasks_one_request.
  rewrite spawn_requests, refreshMetrics_one_request.
  reflexivity.
Qed.

(** ** Elements are neither added nor removed *)

Lemma same_elements_same_dom {A} (m : M A) :
  (forall st, dom (snd (m st)) = dom st) -> same_elements m.
Proof. intros H st sel. unfold present. now rewrite H. Qed.

Lemma same_elements_bind {A B} (m : M A) (k : A -> M B) :
  same_elements m -> (forall a, same_elements (k a)) -> same_elements (bind m k).
Proof.
  intros Hm Hk st sel. unfold bind. specialize (Hm st sel).
  destruct (m st) as [[a | e] st1]; simpl in *; [| done].
  etransitivity; [apply Hk | exact Hm].
Qed.

Lemma same_elements_try_catch {A} (m : M A) (h : exn -> M A) :
  same_elements m -> (forall e, same_elements (h e)) -> same_elements (try_catch m h).
Proof.
  intros Hm Hh st sel. unfold try_catch. specialize (Hm st sel).
  destruct (m st) as [[a | e] st1]; simpl in *; [done |].
  etransitivity; [apply Hh | exact Hm].
Qed.

Lemma same_elements_spawn (m : M unit) : same_elements m -> same_elements (spawn m).
Proof.
  intros Hm st sel. unfold spawn. specialize (Hm st sel).
  now destruct (m st) as [[a | e] st1].
Qed.

Lemma same_elements_update sel what f : same_elements (update sel what f).
Proof.
  intros st sel'. unfold update, present.
  destruct (dom st !! sel) as [el |] eqn:Hel; simpl; [| done].
  destruct (decide (sel = sel')) as [<- | Hne].
  - rewrite lookup_insert_eq, Hel. split; eauto.
  - now rewrite lookup_insert_ne.
Qed.

Lemma same_elements_forEach (f : Js.value -> M unit) items :
  (forall item, same_elements (f item)) -> same_elements (forEach f items).
Proof.
  intros Hf. induction items as [| item rest IH]; simpl.
  - now apply same_elements_same_dom.
  - apply same_elements_bind; [apply Hf | intros _; exact IH].
Qed.

Ltac same_step :=
  lazymatch goal with
  | |- same_elements (bind _ _) => apply same_elements_bind; [| intros ?]
  | |- same_elements (try_catch _ _) => apply same_elements_try_catch; [| intros ?]
  | |- same_elements (spawn _) => apply same_elements_spawn
  | |- same_elements (forEach _ _) => apply same_elements_forEach; intros ?
  | |- same_elements (update _ _ _) => apply same_elements_update
  | |- same_elements (api _ _) => apply same_elements_same_dom, api_dom
  | |- same_elements (read _ _ _) =>
      apply same_elements_same_dom; intros ?; unfold read;
      now destruct (dom _ !! _)
  | |- same_elements (if ?b then _ else _) => destruct b
  | |- same_elements (match ?x with _ => _ end) => destruct x
  | |- same_elements _ =>
      first [ progress unfold set_textContent, set_innerHTML, set_value, set_display,
                appendChild
            | apply same_elements_same_dom; intros ?; reflexivity ]
  end.

Lemma same_elements_refreshMetrics : same_elements refreshMetrics.
Proof. unfold refreshMetrics, updatePhysicsConstants. repeat same_step. Qed.

Lemma same_elements_refreshTasks : same_elements refreshTasks.
Proof. unfold refreshTasks, task_row. repeat same_step. Qed.

Lemma same_elements_refreshViz : same_elements refreshViz.
Proof. unfold refreshViz. repeat same_step. Qed.

(** ** Listeners *)

(** One step through a computation, for a part of the state that no
    setter of the page, the logs, the plots or the uncaught errors touches. *)
Ltac frame_step :=
  lazymatch goal with
  | |- preserves _ (bind _ _) => apply preserves_bind; [| intros ?]
  | |- preserves _ (try_catch _ _) => apply preserves_try_catch; [| intros ?]
  | |- preserves _ (spawn _) => apply preserves_spawn; [done |]
  | |- preserves _ (forEach _ _) => apply preserves_forEach; intros ?
  | |- preserves _ (api _ _) => apply preserves_api; done
  | |- preserves _ (update _ _ _) => apply preserves_update; done
  | |- preserves _ (read _ _ _) => apply preserves_read
  | |- preserves _ (ret _) => apply preserves_ret
  | |- preserves _ (throw _) => apply preserves_throw
  | |- preserves _ (lift _) => apply preserves_lift
  | |- preserves _ (querySelector _) => apply preserves_querySelector
  | |- preserves _ (optional_value _) => apply preserves_optional_value
  | |- preserves _ (Plotly_newPlot _ _) => apply preserves_Plotly_newPlot; done
  | |- preserves _ (setInterval _ _) => intros ?; reflexivity
  | |- preserves _ (clearInterval _) => intros ?; reflexivity
  | |- preserves _ (if ?b then _ else _) => destruct b
  | |- preserves _ (match ?x with _ => _ end) => destruct x
  | |- preserves _ _ =>
      progress unfold set_textContent, set_innerHTML, set_value, set_display,
        appendChild, refreshMetrics, refreshTasks, refreshViz, refreshHopfionField,
        updatePhysicsConstants, task_row
  end.

Lemma handler_listeners l : preserves listeners (handler l).
Proof.
  destruct l; unfold handler;
    unfold handle_submitTaskBtn_click, handle_startResearchBtn_click,
      handle_refreshMetricsBtn_click, handle_llmQueryBtn_click,
      handle_eqgftVizTypeEl_change, handle_eqgftRunBtn_click,
      handle_eqgftSendLlmBtn_click, run_campaign;
    cbv zeta; repeat frame_step.
Qed.

Lemma run_callback_listeners poll f : preserves listeners (run_callback poll f).
Proof. destruct f. unfold run_callback. repeat frame_step. Qed.

Lemma step_listeners ev st : listeners (step ev st) = listeners st.
Proof.
  destruct ev as [l | handle]; simpl.
  - case_bool_decide; [| done].
    apply (preserves_spawn listeners); [done | apply handler_listeners].
  - destruct (timers st !! handle) as [t |]; [| done].
    apply (preserves_spawn listeners); [done | apply run_callback_listeners].
Qed.

Lemma steps_listeners evs st : listeners (steps evs st) = listeners st.
Proof.
  revert st. induction evs as [| ev evs IH]; intros st; [done |].
  change (steps (ev :: evs) st) with (steps evs (step ev st)).
  now rewrite IH, step_listeners.
Qed.

Lemma attached_same page page' sel l :
  (is_Some (page !! sel) <-> is_Some (page' !! sel)) ->
  attached page sel l = attached page' sel l.
Proof. intros H. unfold attached. now rewrite (bool_decide_ext _ _ H). Qed.

Lemma load_listeners page srv : listeners (load page srv) = listeners_on page.
Proof.
  unfold load, run, script, listeners_on.
  assert (Hspawn : forall m st, listeners (snd (spawn m st)) = listeners (snd (m st))).
  { intros m st. unfold spawn. now destruct (m st) as [[[] | e] st1]. }
  rewrite Hspawn.
  rewrite !(bind_normal _ _ _ _ _ (addEventListener_run _ _ _)).
  rewrite !bind_spawn.
  set (st4 := with_listeners _ _).
  set (st7 := snd (spawn refreshViz _)).
  assert (Hl : listeners st7
               = attached page submitTaskBtn submitTaskBtn_click
                 ++ attached page startResearchBtn startResearchBtn_click
                 ++ attached page refreshMetricsBtn refreshMetricsBtn_click
                 ++ attached page llmQueryBtn llmQueryBtn_click).
  { subst st7.
    rewrite (preserves_spawn listeners); [| done | repeat frame_step].
    rewrite (preserves_spawn listeners); [| done | repeat frame_step].
    rewrite (preserves_spawn listeners); [| done | repeat frame_step].
    subst st4. cbn. now rewrite <- !app_assoc. }
  assert (Hp : forall sel, present sel st7 <-> is_Some (page !! sel)).
  { intros sel. subst st7.
    etransitivity; [apply (same_elements_spawn _ same_elements_refreshViz) |].
    etransitivity; [apply (same_elements_spawn _ same_elements_refreshTasks) |].
    etransitivity; [apply (same_elements_spawn _ same_elements_refreshMetrics) |].
    reflexivity. }
  clearbody st7. clear st4.
  destruct (dom st7 !! statusEl) as [el |] eqn:Hel.
  - assert (Hs : is_Some (page !! statusEl)) by (apply Hp; unfold present; eauto).
    rewrite (bool_decide_eq_true_2 _ Hs).
    erewrite bind_normal by (apply set_textContent_present; exact Hel).
    rewrite !(bind_normal _ _ _ _ _ (addEventListener_run _ _ _)).
    rewrite addEventListener_run. cbn [snd listeners with_listeners dom with_dom].
    rewrite Hl, <- !app_assoc.
    assert (Ha : forall sel l,
               attached (<[statusEl := with_content el (text_nodes "Ready")]> (dom st7))
                        sel l
               = attached page sel l).
    { intros sel l. apply attached_same. rewrite <- Hp. unfold present.
      destruct (decide (statusEl = sel)) as [<- | Hne].
      - rewrite lookup_insert_eq, Hel. split; eauto.
      - now rewrite lookup_insert_ne. }
    now rewrite !Ha.
  - assert (Hs : ~ is_Some (page !! statusEl)).
    { intros H. apply Hp in H. unfold present in H. rewrite Hel in H.
      now destruct H. }
    rewrite (bool_decide_eq_false_2 _ Hs).
    erewrite bind_throw by (unfold set_textContent, update; rewrite Hel; reflexivity).
    cbn [snd]. rewrite Hl. now rewrite app_nil_r.
Qed.

(** X4: at any time the listeners attached are those the top level of the
    script attached: one for each of [#submit-task], [#start-research],
    [#refresh-metrics] and [#send-llm] that is on the page, and, only when
    [#status] is on the page too (line 176 throws without it), one for each
    of [#eqgft-viz-type], [#eqgft-run] and [#eqgft-send-llm] that is on the
    page.  No event attaches or detaches a listener. *)
Theorem listeners_are_those_of_the_page page srv evs :
  listeners (steps evs (load page srv))
  = attached page submitTaskBtn submitTaskBtn_click
    ++ attached page startResearchBtn startResearchBtn_click
    ++ attached page refreshMetricsBtn refreshMetricsBtn_click
    ++ attached page llmQueryBtn llmQueryBtn_click
    ++ (if bool_decide (is_Some (page !! statusEl))
        then attached page eqgftVizTypeEl eqgftVizTypeEl_change
             ++ attached page eqgftRunBtn eqgftRunBtn_click
             ++ attached page eqgftSendLlmBtn eqgftSendLlmBtn_click
        else []).
Proof. rewrite steps_listeners. apply load_listeners. Qed.

(** ** Which elements a computation writes *)

Lemma untouched_same_dom {A} sel (m : M A) :
  (forall st, dom (snd (m st)) = dom st) -> untouched sel m.
Proof. intros H st. now rewrite H. Qed.

Lemma untouched_bind {A B} sel (m : M A) (k : A -> M B) :
  untouched sel m -> (forall a, untouched sel (k a)) -> untouched sel (bind m k).
Proof.
  intros Hm Hk st. unfold bind. specialize (Hm st).
  destruct (m st) as [[a | e] st1]; simpl in *; [now rewrite Hk | done].
Qed.

Lemma untouched_try_catch {A} sel (m : M A) (h : exn -> M A) :
  untouched sel m -> (forall e, untouched sel (h e)) -> untouched sel (try_catch m h).
Proof.
  intros Hm Hh st. unfold try_catch. specialize (Hm st).
  destruct (m st) as [[a | e] st1]; simpl in *; [done | now rewrite Hh].
Qed.

Lemma untouched_spawn sel (m : M unit) : untouched sel m -> untouched sel (spawn m).
Proof.
  intros Hm st. unfold spawn. specialize (Hm st).
  now destruct (m st) as [[a | e] st1].
Qed.

Lemma untouched_update sel sel' what f : sel' <> sel -> untouched sel (update sel' what f).
Proof.
  intros Hne st. unfold update. destruct (dom st !! sel') as [el |]; simpl; [| done].
  now apply lookup_insert_ne.
Qed.

Lemma untouched_forEach sel (f : Js.value -> M unit) items :
  (forall item, untouched sel (f item)) -> untouched sel (forEach f items).
Proof.
  intros Hf. induction items as [| item rest IH]; simpl.
  - now apply untouched_same_dom.
  - apply untouched_bind; [apply Hf | intros _; exact IH].
Qed.

(** One step through a computation; a write to another element is settled
    by [side]. *)
Ltac untouched_step side :=
  lazymatch goal with
  | |- untouched _ (bind _ _) => apply untouched_bind; [| intros ?]
  | |- untouched _ (try_catch _ _) => apply untouched_try_catch; [| intros ?]
  | |- untouched _ (spawn _) => apply untouched_spawn
  | |- untouched _ (forEach _ _) => apply untouched_forEach; intros ?
  | |- untouched _ (update _ _ _) => apply untouched_update; side
  | |- untouched _ (api _ _) => apply untouched_same_dom, api_dom
  | |- untouched _ (read _ _ _) =>
      apply untouched_same_dom; intros ?; unfold read;
      now destruct (dom _ !! _)
  | |- untouched _ (if ?b then _ else _) => destruct b
  | |- untouched _ (match ?x with _ => _ end) => destruct x
  | |- untouched _ _ =>
      first [ progress unfold set_textContent, set_innerHTML, set_value, set_display,
                appendChild
            | apply untouched_same_dom; intros ?; reflexivity ]
  end.

Lemma untouched_refreshMetrics sel :
  sel ∉ [metricsEl; "#electron-mass"; "#fine-structure"; "#quaternion-coherence";
         "#topological-winding"] ->
  untouched sel refreshMetrics.
Proof.
  intros Hsel. unfold refreshMetrics, updatePhysicsConstants.
  repeat untouched_step
    ltac:(intros Heq; apply Hsel; rewrite <- Heq, !elem_of_cons; auto 10).
Qed.

Lemma untouched_refreshTasks sel : sel <> taskListEl -> untouched sel refreshTasks.
Proof.
  intros Hsel. unfold refreshTasks, task_row.
  repeat untouched_step ltac:(now apply not_eq_sym).
Qed.

Lemma untouched_refreshViz sel : sel <> vizPacketEl -> untouched sel refreshViz.
Proof.
  intros Hsel. unfold refreshViz. repeat untouched_step ltac:(now apply not_eq_sym).
Qed.

Lemma untouched_refreshHopfionField sel :
  sel <> eqgftResponseEl -> untouched sel refreshHopfionField.
Proof.
  intros Hsel. unfold refreshHopfionField.
  repeat untouched_step ltac:(now apply not_eq_sym).
Qed.

(** X5: each refresh function writes to its own elements only:
    [refreshMetrics] to [#metrics] and the four elements of the constants,
    [refreshTasks] to [#task-list], [refreshViz] to [#viz-packet] and
    [refreshHopfionField] to [#eqgft-response]; every other element of the
    page is the same before and after, whatever the server answers. *)
Theorem refresh_functions_write_their_own_elements_only st sel :
  (sel ∉ [metricsEl; "#electron-mass"; "#fine-structure"; "#quaternion-coherence";
          "#topological-winding"] ->
   dom (snd (refreshMetrics st)) !! sel = dom st !! sel)
  /\ (sel <> taskListEl -> dom (snd (refreshTasks st)) !! sel = dom st !! sel)
  /\ (sel <> vizPacketEl -> dom (snd (refreshViz st)) !! sel = dom st !! sel)
  /\ (sel <> eqgftResponseEl ->
      dom (snd (refreshHopfionField st)) !! sel = dom st !! sel).
Proof.
  repeat apply conj; intros Hsel.
  - now apply untouched_refreshMetrics.
  - now apply untouched_refreshTasks.
  - now apply untouched_refreshViz.
  - now apply untouched_refreshHopfionField.
Qed.

(** ** The handler of [#submit-task] *)

Lemma api_pair path options st c :
  fst (api path options st) = c ->
  api path options st = (c, snd (api path options st)).
Proof. intros <-. now destruct (api path options st). Qed.

Lemma spawn_pair (m : M unit) st : spawn m st = (Normal tt, snd (spawn m st)).
Proof. unfold spawn. now destruct (m st) as [[[] | e] st1]. Qed.

Lemma status_is_not_refreshed :
  statusEl ∉ [metricsEl; "#electron-mass"; "#fine-structure"; "#quaternion-coherence";
              "#topological-winding"].
Proof.
  rewrite !elem_of_cons, elem_of_nil.
  intros [H | [H | [H | [H | [H | H]]]]]; first [discriminate | exact H].
Qed.

(** X6: when the text of [#task-json] is not valid JSON, a click on
    [#submit-task] sends nothing: it shows [Task error: ] and the message
    of the parser in [#status], and changes nothing else. *)
Theorem submit_of_invalid_json_sends_nothing st jsonEl e el :
  dom st !! taskJsonEl = Some jsonEl ->
  JSON_parse (value jsonEl) = inl e ->
  dom st !! statusEl = Some el ->
  handle_submitTaskBtn_click st
  = (Normal tt,
     with_dom st
       (<[statusEl := with_content el [TextNode ("Task error: " +:+ message e)]]>
          (dom st))).
Proof.
  intros Hjson He Hel. unfold handle_submitTaskBtn_click.
  erewrite try_caught.
  2:{ erewrite bind_normal by (apply read_present; exact Hjson).
      erewrite lift_throw by (rewrite He; reflexivity). reflexivity. }
  now rewrite (set_textContent_present _ _ _ _ Hel).
Qed.

Lemma submit_outcomes st jsonEl execEl el parsed :
  dom st !! taskJsonEl = Some jsonEl ->
  dom st !! taskExecuteEl = Some execEl ->
  dom st !! statusEl = Some el ->
  JSON_parse (value jsonEl) = inr parsed ->
  let options :=
    POST (JSON_stringify
            (VObj [("task", parsed); ("execute", VBool (checked execEl))]) None) in
  (forall v,
      fst (api "/tasks" options st) = Normal v ->
      requests (snd (handle_submitTaskBtn_click st))
      = requests st ++ [init_of "/tasks" options;
                        init_of "/tasks" no_options;
                        init_of "/metrics" no_options]
      /\ shown statusEl (snd (handle_submitTaskBtn_click st))
         = Some [TextNode "Task submitted."])
  /\ (forall e,
      fst (api "/tasks" options st) = Throw e ->
      requests (snd (handle_submitTaskBtn_click st))
      = requests st ++ [init_of "/tasks" options]
      /\ shown statusEl (snd (handle_submitTaskBtn_click st))
         = Some [TextNode ("Task error: " +:+ message e)]).
Proof.
  intros Hjson Hexec Hel Hparsed options. unfold handle_submitTaskBtn_click. split.
  - intros v Hv. erewrite try_normal.
    2:{ erewrite bind_normal by (apply read_present; exact Hjson).
        erewrite lift_normal by (rewrite Hparsed; reflexivity).
        erewrite bind_normal by (apply read_present; exact Hexec).
        erewrite bind_normal by (apply api_pair; exact Hv).
        erewrite bind_normal
          by (apply set_textContent_present; rewrite api_dom; exact Hel).
        rewrite bind_spawn. apply spawn_pair. }
    cbn [snd]. split.
    + rewrite spawn_requests, refreshMetrics_one_request.
      rewrite spawn_requests, refreshTasks_one_request.
      cbn [requests with_dom]. rewrite api_requests. now rewrite <- !app_assoc.
    + unfold shown.
      rewrite (untouched_spawn _ _ (untouched_refreshMetrics _ status_is_not_refreshed)).
      rewrite (untouched_spawn _ _ (untouched_refreshTasks statusEl ltac:(done))).
      cbn [dom with_dom]. now rewrite lookup_insert_eq.
  - intros e He. erewrite try_caught.
    2:{ erewrite bind_normal by (apply read_present; exact Hjson).
        erewrite lift_normal by (rewrite Hparsed; reflexivity).
        erewrite bind_normal by (apply read_present; exact Hexec).
        erewrite bind_throw by (apply api_pair; exact He). reflexivity. }
    erewrite set_textContent_present by (rewrite api_dom; exact Hel).
    cbn [snd]. split.
    + cbn [requests with_dom]. apply api_requests.
    + unfold shown. cbn [dom with_dom]. now rewrite lookup_insert_eq.
Qed.

(** X7: with valid JSON in [#task-json], a click on [#submit-task] posts
    [{ task, execute }] with the parsed task and the state of the checkbox
    to /api/tasks.  When [api] returns, [#status] shows [Task submitted.]
    and the task list and the metrics are fetched again, in this order;
    when [api] throws (a rejected fetch, a response that is not ok, or an
    ok response whose body is not JSON), nothing more is sent and [#status]
    shows [Task error: ] and the message. *)
Theorem submit_posts_then_refreshes_or_reports st jsonEl execEl el parsed :
  dom st !! taskJsonEl = Some jsonEl ->
  dom st !! taskExecuteEl = Some execEl ->
  dom st !! statusEl = Some el ->
  JSON_parse (value jsonEl) = inr parsed ->
  let options :=
    POST (JSON_stringify
            (VObj [("task", parsed); ("execute", VBool (checked execEl))]) None) in
  (forall v,
      fst (api "/tasks" options st) = Normal v ->
      requests (snd (handle_submitTaskBtn_click st))
      = requests st ++ [init_of "/tasks" options;
                        init_of "/tasks" no_options;
                        init_of "/metrics" no_options]
      /\ shown statusEl (snd (handle_submitTaskBtn_click st))
         = Some [TextNode "Task submitted."])
  /\ (forall e,
      fst (api "/tasks" options st) = Throw e ->
      requests (snd (handle_submitTaskBtn_click st))
      = requests st ++ [init_of "/tasks" options]
      /\ shown statusEl (snd (handle_submitTaskBtn_click st))
         = Some [TextNode ("Task error: " +:+ message e)]).
Proof. apply submit_outcomes. Qed.

(** ** The handler of [#send-llm] *)

Lemma llm_query_outcomes st queryEl responseEl jsonEl el :
  dom st !! llmQueryEl = Some queryEl ->
  dom st !! llmResponseEl = Some responseEl ->
  dom st !! taskJsonEl = Some jsonEl ->
  dom st !! statusEl = Some el ->
  let options := POST (JSON_stringify (VObj [("query", VStr (value queryEl))]) None) in
  (forall v,
      fst (api "/llm/query" options st) = Normal v ->
      handle_llmQueryBtn_click st
      = (Normal tt,
         with_dom (snd (api "/llm/query" options st))
           (<[statusEl := with_content el [TextNode "LLM responded with task blueprint."]]>
           (<[taskJsonEl := with_value jsonEl (JSON_stringify v (Some 2))]>
           (<[llmResponseEl :=
                with_content responseEl (text_nodes (JSON_stringify v (Some 2)))]>
              (dom st))))))
  /\ (forall e,
      fst (api "/llm/query" options st) = Throw e ->
      handle_llmQueryBtn_click st
      = (Normal tt,
         with_dom (snd (api "/llm/query" options st))
           (<[llmResponseEl := with_content responseEl (text_nodes (message e))]>
              (dom st)))).
Proof.
  intros Hq Hresp Hjson Hel options. unfold handle_llmQueryBtn_click. split.
  - intros v Hv. erewrite try_normal; [reflexivity |].
    erewrite bind_normal by (apply read_present; exact Hq).
    erewrite bind_normal by (apply api_pair; exact Hv).
    erewrite bind_normal
      by (apply set_textContent_present; rewrite api_dom; exact Hresp).
    erewrite bind_normal
      by (unfold set_value; apply update_present; cbn [dom with_dom];
          rewrite lookup_insert_ne by done; rewrite api_dom; exact Hjson).
    erewrite set_textContent_present
      by (cbn [dom with_dom]; rewrite !lookup_insert_ne by done;
          rewrite api_dom; exact Hel).
    cbn [dom with_dom]. now rewrite api_dom.
  - intros e He. erewrite try_caught.
    2:{ erewrite bind_normal by (apply read_present; exact Hq).
        erewrite bind_throw by (apply api_pair; exact He). reflexivity. }
    erewrite set_textContent_present by (rewrite api_dom; exact Hresp).
    now rewrite api_dom.
Qed.

(** X8: a click on [#send-llm] posts [{ query }] with the text of
    [#llm-query] to /api/llm/query.  When [api] returns a blueprint, its
    JSON with an indent of 2 is written both to [#llm-response] and into the
    text box [#task-json], and [#status] reports it; when [api] throws,
    [#llm-response] shows the bare message, and the text box and [#status]
    are left as they were. *)
Theorem llm_query_fills_the_task_editor st queryEl responseEl jsonEl el :
  dom st !! llmQueryEl = Some queryEl ->
  dom st !! llmResponseEl = Some responseEl ->
  dom st !! taskJsonEl = Some jsonEl ->
  dom st !! statusEl = Some el ->
  let options := POST (JSON_stringify (VObj [("query", VStr (value queryEl))]) None) in
  (forall v,
      fst (api "/llm/query" options st) = Normal v ->
      handle_llmQueryBtn_click st
      = (Normal tt,
         with_dom (snd (api "/llm/query" options st))
           (<[statusEl := with_content el [TextNode "LLM responded with task blueprint."]]>
           (<[taskJsonEl := with_value jsonEl (JSON_stringify v (Some 2))]>
           (<[llmResponseEl :=
                with_content responseEl (text_nodes (JSON_stringify v (Some 2)))]>
              (dom st))))))
  /\ (forall e,
      fst (api "/llm/query" options st) = Throw e ->
      handle_llmQueryBtn_click st
      = (Normal tt,
         with_dom (snd (api "/llm/query" options st))
           (<[llmResponseEl := with_content responseEl (text_nodes (message e))]>
              (dom st)))).
Proof. apply llm_query_outcomes. Qed.

(** X9: the blueprint the LLM returns is the task the next submission
    sends.  After a click on [#send-llm] that got the blueprint [v], and
    provided the engine parses what it printed back to [v], a click on
    [#submit-task] first posts [{ task: v, execute }] to /api/tasks, with
    the state of the checkbox. *)
Theorem llm_blueprint_is_what_submit_posts st queryEl responseEl jsonEl execEl el v :
  dom st !! llmQueryEl = Some queryEl ->
  dom st !! llmResponseEl = Some responseEl ->
  dom st !! taskJsonEl = Some jsonEl ->
  dom st !! taskExecuteEl = Some execEl ->
  dom st !! statusEl = Some el ->
  fst (api "/llm/query"
         (POST (JSON_stringify (VObj [("query", VStr (value queryEl))]) None)) st)
  = Normal v ->
  JSON_parse (JSON_stringify v (Some 2)) = inr v ->
  exists rest,
    requests (snd (handle_submitTaskBtn_click (snd (handle_llmQueryBtn_click st))))
    = requests (snd (handle_llmQueryBtn_click st))
      ++ init_of "/tasks"
           (POST (JSON_stringify
                    (VObj [("task", v); ("execute", VBool (checked execEl))]) None))
         :: rest.
Proof.
  intros Hq Hresp Hjson Hexec Hel Hv Hround.
  rewrite (proj1 (llm_query_outcomes st _ _ _ _ Hq Hresp Hjson Hel) v Hv). cbn [snd].
  set (st1 := with_dom _ _).
  assert (Hjson1 : dom st1 !! taskJsonEl
                   = Some (with_value jsonEl (JSON_stringify v (Some 2)))).
  { subst st1. cbn [dom with_dom].
    rewrite lookup_insert_ne by done. apply lookup_insert_eq. }
  assert (Hexec1 : dom st1 !! taskExecuteEl = Some execEl).
  { subst st1. cbn [dom with_dom]. now rewrite !lookup_insert_ne by done. }
  assert (Hel1 : is_Some (dom st1 !! statusEl)).
  { subst st1. cbn [dom with_dom]. rewrite lookup_insert_eq. eauto. }
  destruct Hel1 as [el1 Hel1]. clearbody st1.
  pose proof (submit_outcomes st1 _ _ _ v Hjson1 Hexec1 Hel1 Hround) as [Hok Hfail].
  cbv zeta in Hok, Hfail. cbn [value with_value] in *.
  destruct (fst (api "/tasks"
                   (POST (JSON_stringify
                            (VObj [("task", v); ("execute", VBool (checked execEl))])
                            None)) st1)) as [r | e] eqn:Hapi.
  - destruct (Hok r eq_refl) as [Hreq _]. rewrite Hreq. eauto.
  - destruct (Hfail e eq_refl) as [Hreq _]. rewrite Hreq. eauto.
Qed.

(** ** The hopfion field is fetched for one visualization type only *)

Lemma eqgft_run_reads st vizEl nEl kEl sEl pEl :
  dom st !! eqgftVizTypeEl = Some vizEl ->
  dom st !! "#eqgft-n-events" = Some nEl ->
  dom st !! "#eqgft-kappa" = Some kEl ->
  dom st !! "#eqgft-systematic-error" = Some sEl ->
  dom st !! "#eqgft-python-script" = Some pEl ->
  handle_eqgftRunBtn_click st
  = try_catch
      (api "/tasks"
         (POST (JSON_stringify
                  (task_submission
                     (eqgft_task (value vizEl) (value nEl) (value kEl) (value sEl)
                                 (value pEl)) true) None)) ;;
       set_textContent statusEl "EQGFT task submitted." ;;
       spawn refreshTasks ;;
       spawn refreshMetrics ;;
       if String.eqb (value vizEl) "3d-vector-field"
       then spawn refreshHopfionField else ret tt)
      (fun err => set_textContent statusEl ("EQGFT task error: " +:+ message err))
      st.
Proof.
  intros Hviz Hn Hk Hs Hp. unfold handle_eqgftRunBtn_click.
  erewrite bind_normal by (apply read_present; exact Hviz).
  erewrite bind_normal by (apply read_present; exact Hn).
  erewrite bind_normal by (apply read_present; exact Hk).
  erewrite bind_normal by (apply read_present; exact Hs).
  erewrite bind_normal by (apply read_present; exact Hp).
  reflexivity.
Qed.

(** X10: the handler of [#eqgft-run] fetches and plots the hopfion field
    only for the visualization type [3d-vector-field].  For any other type
    it plots nothing and sends no request to
    /api/visualization/hopfion-field; for [3d-vector-field], once the POST
    has returned, it sends GET /api/tasks, GET /api/metrics and
    GET /api/visualization/hopfion-field, in this order. *)
Theorem hopfion_field_is_fetched_for_3d_vector_field_only st vizEl nEl kEl sEl pEl el :
  dom st !! eqgftVizTypeEl = Some vizEl ->
  dom st !! "#eqgft-n-events" = Some nEl ->
  dom st !! "#eqgft-kappa" = Some kEl ->
  dom st !! "#eqgft-systematic-error" = Some sEl ->
  dom st !! "#eqgft-python-script" = Some pEl ->
  dom st !! statusEl = Some el ->
  (value vizEl <> "3d-vector-field" ->
   plots (snd (handle_eqgftRunBtn_click st)) = plots st
   /\ exists new,
       requests (snd (handle_eqgftRunBtn_click st)) = requests st ++ new
       /\ Forall (fun r => url r <> "/api/visualization/hopfion-field") new)
  /\ (value vizEl = "3d-vector-field" ->
      let options :=
        POST (JSON_stringify
                (VObj [("task",
                        VObj [("task_name", VStr "Generate Hopfion Field");
                              ("geometric_operator", VStr "GenerateHopfionField");
                              ("parameters", VObj [])]);
                       ("execute", VBool true)]) None) in
      forall v,
        fst (api "/tasks" options st) = Normal v ->
        requests (snd (handle_eqgftRunBtn_click st))
        = requests st ++ [init_of "/tasks" options;
                          init_of "/tasks" no_options;
                          init_of "/metrics" no_options;
                          init_of "/visualization/hopfion-field" no_options]).
Proof.
  intros Hviz Hn Hk Hs Hp Hel.
  rewrite (eqgft_run_reads _ _ _ _ _ _ Hviz Hn Hk Hs Hp). split.
  - intros Hother. apply String.eqb_neq in Hother. rewrite Hother. split.
    + apply (preserves_try_catch plots); [| intros e; repeat frame_step].
      repeat frame_step.
    + apply appends_try_catch; [| intros e; repeat appends_step].
      repeat first
        [ apply appends_api; discriminate
        | apply appends_spawn; eapply appends_weaken;
          [| first [apply refreshTasks_requests | apply refreshMetrics_requests]];
          intros ? Hr; unfold is_get in Hr; rewrite Hr; discriminate
        | appends_step ].
  - intros Hviz3 options v Hv. rewrite Hviz3 in *. cbn [String.eqb Ascii.eqb Bool.eqb].
    change (task_submission _ true)
      with (VObj [("task",
                   VObj [("task_name", VStr "Generate Hopfion Field");
                         ("geometric_operator", VStr "GenerateHopfionField");
                         ("parameters", VObj [])]);
                  ("execute", VBool true)]).
    fold options. erewrite try_normal.
    2:{ erewrite bind_normal by (apply api_pair; exact Hv).
        erewrite bind_normal
          by (apply set_textContent_present; rewrite api_dom; exact Hel).
        rewrite !bind_spawn. apply spawn_pair. }
    cbn [snd].
    rewrite spawn_requests, refreshHopfionField_one_request.
    rewrite spawn_requests, refreshMetrics_one_request.
    rewrite spawn_requests, refreshTasks_one_request.
    cbn [requests with_dom]. rewrite api_requests. now rewrite <- !app_assoc.
Qed.

(** ** refreshMetrics when a constant is missing *)

(** X11: when the metrics lack a constant, [refreshMetrics] leaves the page
    half updated.  With a numeric [emergent_electron_mass] and no
    [fine_structure_constant], the mass is written to [#electron-mass],
    [#fine-structure] keeps its content, and the JSON just written to
    [#metrics] is replaced by [Error: ] and the message of the TypeError. *)
Theorem refreshMetrics_stops_at_the_first_missing_constant
    st res data props mass el massEl :
  server st (length (requests st)) = inr res ->
  ok res = true ->
  JSON_parse (text res) = inr (VObj data) ->
  assoc "metrics" data = Some (VObj props) ->
  assoc "emergent_electron_mass" props = Some (VNum mass) ->
  assoc "fine_structure_constant" props = None ->
  dom st !! metricsEl = Some el ->
  dom st !! "#electron-mass" = Some massEl ->
  shown "#electron-mass" (snd (refreshMetrics st))
  = Some [TextNode (toExponential mass 10 +:+ " kg")]
  /\ dom (snd (refreshMetrics st)) !! "#fine-structure" = dom st !! "#fine-structure"
  /\ exists msg,
      shown metricsEl (snd (refreshMetrics st))
      = Some [TextNode ("Error: " +:+ msg)].
Proof.
  intros Hres Hok Hjson Hmetrics Hmass Halpha Hel HmassEl.
  unfold refreshMetrics. erewrite try_caught.
  2:{ erewrite bind_normal by (rewrite (api_ok _ _ _ _ Hres Hok), Hjson; reflexivity).
      erewrite bind_normal by (apply set_textContent_present; exact Hel).
      erewrite lift_normal by (simpl; rewrite Hmetrics; reflexivity).
      change (default VUndefined (Some (VObj props))) with (VObj props).
      unfold updatePhysicsConstants. unfold bind at 1. unfold querySelector.
      unfold read_body, logged. cbn [dom with_dom with_requests with_body_reads].
      rewrite lookup_insert_ne by done. rewrite HmassEl.
      cbn [truthy negb is_null orb].
      erewrite bind_normal.
      2:{ erewrite lift_normal by (simpl; rewrite Hmass; reflexivity).
          apply set_textContent_present. cbn [dom with_dom].
          rewrite lookup_insert_ne by done. exact HmassEl. }
      erewrite bind_throw; [reflexivity |].
      erewrite lift_throw by (simpl; rewrite Halpha; reflexivity). reflexivity. }
  erewrite set_textContent_present
    by (cbn [dom with_dom]; rewrite lookup_insert_ne by done; apply lookup_insert_eq).
  unfold shown. cbn [snd dom with_dom]. repeat split.
  - rewrite lookup_insert_ne by done. rewrite lookup_insert_eq.
    now destruct (toExponential mass 10).
  - now rewrite !lookup_insert_ne by done.
  - rewrite lookup_insert_eq. eexists. reflexivity.
Qed.

(** X12: each of the four refresh functions sends exactly one request, a GET
    to its own endpoint, whatever the server answers and whatever the page
    holds: no retry after a failure, and none left out when an element is
    missing. *)
Theorem each_refresh_sends_exactly_one_request st :
  requests (snd (refreshMetrics st)) = requests st ++ [init_of "/metrics" no_options]
  /\ requests (snd (refreshTasks st)) = requests st ++ [init_of "/tasks" no_options]
  /\ requests (snd (refreshViz st))
     = requests st ++ [init_of "/visualization/packet" no_options]
  /\ requests (snd (refreshHopfionField st))
     = requests st ++ [init_of "/visualization/hopfion-field" no_options].
Proof.
  repeat apply conj;
    [ apply refreshMetrics_one_request | apply refreshTasks_one_request
    | apply refreshViz_one_request | apply refreshHopfionField_one_request ].
Qed.

(** ** Intervals over a whole session *)

Lemma load_clock page srv : clock (load page srv) = (∅, 1).
Proof.
  unfold load, run. change (∅, 1) with (clock (initial page srv)).
  apply (preserves_spawn clock); [done |]. unfold script.
  repeat first
    [ frame_step
    | intros ?; unfold addEventListener; destruct (dom _ !! _); reflexivity ].
Qed.

Lemma step_intervals ev st :
  fresh st -> all_1000 st -> fresh (step ev st) /\ all_1000 (step ev st).
Proof.
  intros Hf Ha. destruct ev as [l | poll].
  - unfold step. case_bool_decide; [| done].
    pose proof (registers_only_spawn _ (handler_registers_only l)) as Hr.
    split; [now apply fresh_registers_only |].
    intros handle t Ht. destruct (Hr st) as (_ & _ & Hnew).
    destruct (Hnew _ _ Ht) as [Hold | [_ Hp]]; [now apply (Ha handle) | done].
  - destruct (timers st !! poll) as [t' |] eqn:Ht'.
    2:{ unfold step. now rewrite Ht'. }
    destruct (completed_dec (server st (length (requests st)))) as [Hdone | Hidle].
    + pose proof (tick_done _ _ _ Ht' Hdone) as Hc. unfold clock in Hc.
      apply pair_equal_spec in Hc as [Htimers Hnext]. split.
      * intros handle t H. rewrite Htimers in H. rewrite Hnext.
        apply lookup_delete_Some in H as [_ H]. now apply (Hf _ t).
      * intros handle t H. rewrite Htimers in H.
        apply lookup_delete_Some in H as [_ H]. now apply (Ha handle).
    + destruct (tick_idle _ _ _ Ht' Hidle) as (Hc & _). unfold clock in Hc.
      apply pair_equal_spec in Hc as [Htimers Hnext]. split.
      * intros handle t H. rewrite Htimers in H. rewrite Hnext. now apply (Hf _ t).
      * intros handle t H. rewrite Htimers in H. now apply (Ha handle).
Qed.

Lemma steps_intervals evs st :
  fresh st -> all_1000 st -> fresh (steps evs st) /\ all_1000 (steps evs st).
Proof.
  revert st. induction evs as [| ev evs IH]; intros st Hf Ha; [done |].
  change (steps (ev :: evs) st) with (steps evs (step ev st)).
  destruct (step_intervals ev st Hf Ha) as [Hf' Ha']. now apply IH.
Qed.

(** X13: at any time of a session, every running interval has the period
    1000 and a handle that [setInterval] will not give out again: no event
    changes the period of an interval, and a new interval never replaces a
    running one. *)
Theorem every_interval_has_period_1000_and_its_own_handle page srv evs handle t :
  timers (steps evs (load page srv)) !! handle = Some t ->
  period t = 1000 /\ handle < next_timer (steps evs (load page srv)).
Proof.
  intros Ht. pose proof (load_clock page srv) as Hc. unfold clock in Hc.
  apply pair_equal_spec in Hc as [Htimers Hnext].
  destruct (steps_intervals evs (load page srv)) as [Hf Ha].
  - intros h t'. rewrite Htimers. now rewrite lookup_empty.
  - intros h t'. rewrite Htimers. now rewrite lookup_empty.
  - split; [now apply (Ha handle) | now apply (Hf _ t)].
Qed.


(** ** refreshHopfionField on payloads it cannot plot *)

Lemma array_map_null i items :
  VNull ∈ items -> exists e, array_map (fun v => get_index v i) items = Throw e.
Proof.
  induction items as [| item rest IH]; intros Hin; [now apply elem_of_nil in Hin |].
  apply elem_of_cons in Hin as [<- | Hin]; simpl; [eauto |].
  destruct (get_index item i) as [b | e]; simpl; [| eauto].
  destruct (IH Hin) as [e ->]. simpl. eauto.
Qed.

(** X15: [refreshHopfionField] plots nothing it cannot read.  On a falsy
    payload ([null], [false], [0] or the empty string) it does nothing at
    all; on an object without [q_x], and on one whose [q_x] holds a [null],
    it plots nothing and shows [Error: ] and the message of the TypeError
    in [#eqgft-response]. *)
Theorem refreshHopfionField_rejects_what_it_cannot_read st res data :
  server st (length (requests st)) = inr res ->
  ok res = true ->
  JSON_parse (text res) = inr data ->
  (truthy data = false ->
   refreshHopfionField st
   = (Normal tt,
      read_body (logged st (init_of "/visualization/hopfion-field" no_options))
                read_json))
  /\ (forall props el,
      data = VObj props ->
      assoc "q_x" props = None
      \/ (exists items, assoc "q_x" props = Some (VArr items) /\ VNull ∈ items) ->
      dom st !! eqgftResponseEl = Some el ->
      plots (snd (refreshHopfionField st)) = plots st
      /\ exists msg,
          shown eqgftResponseEl (snd (refreshHopfionField st))
          = Some [TextNode ("Error: " +:+ msg)]).
Proof.
  intros Hres Hok Hjson. unfold refreshHopfionField. split.
  - intros Hfalsy. erewrite try_normal; [reflexivity |].
    erewrite bind_normal by (rewrite (api_ok _ _ _ _ Hres Hok), Hjson; reflexivity).
    now rewrite Hfalsy.
  - intros props el -> Hq Hel.
    assert (Hthrow : exists e, q_x_map (VObj props) 1 = Throw e).
    { unfold q_x_map. simpl. destruct Hq as [-> | (items & -> & Hnull)]; simpl;
        [eauto | now apply array_map_null]. }
    destruct Hthrow as [e He].
    erewrite try_caught.
    2:{ erewrite bind_normal
          by (rewrite (api_ok _ _ _ _ Hres Hok), Hjson; reflexivity).
        cbn [truthy]. erewrite lift_throw by exact He. reflexivity. }
    erewrite set_textContent_present by exact Hel.
    unfold shown. cbn [snd plots dom with_dom]. split; [reflexivity |].
    rewrite lookup_insert_eq. eexists. reflexivity.
Qed.

(** ** On a complete page only the interval leaves errors uncaught *)

Lemma safe_calm {A} (m : M A) : safe m -> calm m.
Proof. intros Hm st Hc. now destruct (Hm st Hc) as (_ & Hu & Hc'). Qed.

Lemma calm_same {A} (m : M A) :
  (forall st, dom (snd (m st)) = dom st /\ uncaught (snd (m st)) = uncaught st) ->
  calm m.
Proof.
  intros H st Hc. destruct (H st) as [Hd Hu]. split; [done |].
  intros sel Hsel. unfold present. rewrite Hd. now apply Hc.
Qed.

Lemma safe_same {A} (m : M A) :
  (forall st, exists a, fst (m st) = Normal a) ->
  (forall st, dom (snd (m st)) = dom st /\ uncaught (snd (m st)) = uncaught st) ->
  safe m.
Proof.
  intros Hn H st Hc. split; [apply Hn |]. now apply (calm_same m H).
Qed.

Lemma calm_bind {A B} (m : M A) (k : A -> M B) :
  calm m -> (forall a, calm (k a)) -> calm (bind m k).
Proof.
  intros Hm Hk st Hc. unfold bind. destruct (Hm st Hc) as [Hu Hc'].
  destruct (m st) as [[a | e] st1]; simpl in *; [| done].
  destruct (Hk a st1 Hc') as [Hu' Hc'']. split; [congruence | done].
Qed.

Lemma calm_try_catch {A} (m : M A) (h : exn -> M A) :
  calm m -> (forall e, calm (h e)) -> calm (try_catch m h).
Proof.
  intros Hm Hh st Hc. unfold try_catch. destruct (Hm st Hc) as [Hu Hc'].
  destruct (m st) as [[a | e] st1]; simpl in *; [done |].
  destruct (Hh e st1 Hc') as [Hu' Hc'']. split; [congruence | done].
Qed.

Lemma calm_forEach (f : Js.value -> M unit) items :
  (forall item, calm (f item)) -> calm (forEach f items).
Proof.
  intros Hf. induction items as [| item rest IH]; simpl.
  - now apply calm_same.
  - apply calm_bind; [apply Hf | intros _; exact IH].
Qed.

Lemma calm_api path options : calm (api path options).
Proof.
  apply calm_same. intros st. destruct (api_frame path options st) as [reads ->].
  now split.
Qed.

Lemma safe_bind {A B} (m : M A) (k : A -> M B) :
  safe m -> (forall a, safe (k a)) -> safe (bind m k).
Proof.
  intros Hm Hk st Hc. unfold bind. destruct (Hm st Hc) as ([a Ha] & Hu & Hc').
  destruct (m st) as [[a' | e] st1]; simpl in *; [| discriminate].
  destruct (Hk a' st1 Hc') as (Hn & Hu' & Hc''). split; [done | split; [congruence | done]].
Qed.

Lemma safe_try_catch {A} (m : M A) (h : exn -> M A) :
  calm m -> (forall e, safe (h e)) -> safe (try_catch m h).
Proof.
  intros Hm Hh st Hc. unfold try_catch. destruct (Hm st Hc) as [Hu Hc'].
  destruct (m st) as [[a | e] st1]; simpl in *; [eauto |].
  destruct (Hh e st1 Hc') as (Hn & Hu' & Hc''). split; [done | split; [congruence | done]].
Qed.

Lemma safe_spawn (m : M unit) : safe m -> safe (spawn m).
Proof.
  intros Hm st Hc. unfold spawn. destruct (Hm st Hc) as ([a Ha] & Hu & Hc').
  destruct (m st) as [[a' | e] st1]; simpl in *; [eauto | discriminate].
Qed.

Lemma safe_update sel what f : sel ∈ looked_up -> safe (update sel what f).
Proof.
  intros Hsel st Hc. destruct (Hc sel Hsel) as [el Hel].
  pose proof (keeps_elements_update sel what f st) as Hkeep.
  rewrite (update_present _ _ _ _ _ Hel) in *. split; [eauto | split; [done |]].
  intros sel' Hsel'. apply Hkeep, Hc, Hsel'.
Qed.

Lemma safe_read {A} sel what (f : Element -> A) : sel ∈ looked_up -> safe (read sel what f).
Proof.
  intros Hsel st Hc. destruct (Hc sel Hsel) as [el Hel].
  rewrite (read_present _ _ _ _ _ Hel). eauto.
Qed.

Lemma safe_addEventListener sel l : safe (addEventListener sel l).
Proof.
  apply safe_same; intros st; unfold addEventListener; destruct (dom st !! sel); eauto.
Qed.

Lemma looked_up_checked sel : bool_decide (sel ∈ looked_up) = true -> sel ∈ looked_up.
Proof. apply bool_decide_eq_true_1. Qed.

Ltac looked_up_side := apply looked_up_checked; vm_compute; reflexivity.

(** One step through a computation that may throw, and through one that
    may not. *)
Ltac calm_step :=
  lazymatch goal with
  | |- calm (bind _ _) => apply calm_bind; [| intros ?]
  | |- calm (try_catch _ _) => apply calm_try_catch; [| intros ?]
  | |- calm (forEach _ _) => apply calm_forEach; intros ?
  | |- calm (api _ _) => apply calm_api
  | |- calm (lift _) => apply calm_same; intros ?; split; reflexivity
  | |- calm (throw _) => apply calm_same; intros ?; split; reflexivity
  | |- calm (if ?b then _ else _) => destruct b
  | |- calm (match ?x with _ => _ end) => destruct x
  | |- calm _ => apply safe_calm
  | |- safe (bind _ _) => apply safe_bind; [| intros ?]
  | |- safe (try_catch _ _) => apply safe_try_catch; [| intros ?]
  | |- safe (spawn _) => apply safe_spawn
  | |- safe (update _ _ _) => apply safe_update; looked_up_side
  | |- safe (read _ _ _) => apply safe_read; looked_up_side
  | |- safe (addEventListener _ _) => apply safe_addEventListener
  | |- safe (if ?b then _ else _) => destruct b
  | |- safe (match ?x with _ => _ end) => destruct x
  | |- safe _ =>
      first [ progress unfold set_textContent, set_innerHTML, set_value, set_display,
                appendChild, refreshMetrics, refreshTasks, refreshViz,
                refreshHopfionField, updatePhysicsConstants, task_row
            | apply safe_same; intros ?; [eexists | split]; reflexivity ]
  end.

Lemma handler_safe l : safe (handler l).
Proof.
  destruct l; unfold handler;
    unfold handle_submitTaskBtn_click, handle_startResearchBtn_click,
      handle_refreshMetricsBtn_click, handle_llmQueryBtn_click,
      handle_eqgftVizTypeEl_change, handle_eqgftRunBtn_click,
      handle_eqgftSendLlmBtn_click, run_campaign;
    cbv zeta; repeat calm_step.
Qed.

Lemma script_safe : safe script.
Proof. unfold script. repeat calm_step. Qed.

Lemma fire_safe l st :
  complete st ->
  uncaught (step (Fire l) st) = uncaught st /\ complete (step (Fire l) st).
Proof.
  intros Hc. unfold step. case_bool_decide; [| done].
  now destruct (safe_spawn _ (handler_safe l) st Hc) as (_ & Hu & Hc').
Qed.

(** X16: on a page that has every element the script looks up, neither the
    top level of the script nor any listener leaves an error uncaught,
    whatever the server answers: every failure of [api] in them is caught.
    (Only the callback of the interval can leave one.) *)
Theorem listeners_leave_no_error_uncaught page srv ls :
  (forall sel, sel ∈ looked_up -> is_Some (page !! sel)) ->
  uncaught (steps (map Fire ls) (load page srv)) = [].
Proof.
  intros Hpage.
  destruct (safe_spawn _ script_safe (initial page srv) Hpage) as (_ & Hu & Hc).
  change (snd (spawn script (initial page srv))) with (load page srv) in Hu, Hc.
  simpl in Hu. revert Hu Hc. generalize (load page srv).
  induction ls as [| l ls IH]; intros st Hu Hc; [exact Hu |].
  change (steps (map Fire (l :: ls)) st) with (steps (map Fire ls) (step (Fire l) st)).
  destruct (fire_safe l st Hc) as [Hu' Hc']. apply IH; [congruence | done].
Qed.

(** ** The outcomes of a research campaign *)

(** X17: once the handler of [#start-research] has built its payload, the
    campaign shows [Running research campaign…], posts the payload, and
    then either shows the JSON of the answer in [#research-result], reports
    [Research campaign completed.] in [#status] and fetches the metrics
    again, or, when [api] throws, sends nothing more and shows
    [Campaign error: ] and the message in [#research-result]. *)
Theorem campaign_reports_its_outcome payload st resultEl el :
  dom st !! researchResultEl = Some resultEl ->
  dom st !! statusEl = Some el ->
  let options := POST (JSON_stringify payload None) in
  let running :=
    with_dom st
      (<[researchResultEl :=
           with_content resultEl [TextNode "Running research campaign…"]]> (dom st)) in
  (forall response,
      fst (api "/llm/research-campaign" options running) = Normal response ->
      requests (snd (run_campaign payload st))
      = requests st ++ [init_of "/llm/research-campaign" options;
                        init_of "/metrics" no_options]
      /\ shown researchResultEl (snd (run_campaign payload st))
         = Some (text_nodes (JSON_stringify response (Some 2)))
      /\ shown statusEl (snd (run_campaign payload st))
         = Some [TextNode "Research campaign completed."])
  /\ (forall e,
      fst (api "/llm/research-campaign" options running) = Throw e ->
      requests (snd (run_campaign payload st))
      = requests st ++ [init_of "/llm/research-campaign" options]
      /\ shown researchResultEl (snd (run_campaign payload st))
         = Some [TextNode ("Campaign error: " +:+ message e)]
      /\ dom (snd (run_campaign payload st)) !! statusEl = Some el).
Proof.
  intros Hresult Hel options running. unfold run_campaign.
  erewrite bind_normal by (apply set_textContent_present; exact Hresult).
  change (with_dom st
            (<[researchResultEl :=
                 with_content resultEl (text_nodes "Running research campaign…")]>
               (dom st)))
    with running.
  fold options.
  assert (Hresult1 : dom running !! researchResultEl
                     = Some (with_content resultEl
                               [TextNode "Running research campaign…"]))
    by (subst running; cbn [dom with_dom]; apply lookup_insert_eq).
  assert (Hel1 : dom running !! statusEl = Some el)
    by (subst running; cbn [dom with_dom]; now rewrite lookup_insert_ne by done).
  assert (Hreq1 : requests running = requests st) by reflexivity.
  clearbody running. split.
  - intros response Hresponse. erewrite try_normal.
    2:{ erewrite bind_normal by (apply api_pair; exact Hresponse).
        erewrite bind_normal
          by (apply set_textContent_present; rewrite api_dom; exact Hresult1).
        erewrite bind_normal
          by (apply set_textContent_present; cbn [dom with_dom];
              rewrite lookup_insert_ne by done; rewrite api_dom; exact Hel1).
        apply spawn_pair. }
    cbn [snd]. unfold shown. repeat split.
    + rewrite spawn_requests, refreshMetrics_one_request.
      cbn [requests with_dom]. rewrite api_requests, Hreq1. now rewrite <- app_assoc.
    + assert (Hother : researchResultEl
                       ∉ [metricsEl; "#electron-mass"; "#fine-structure";
                          "#quaternion-coherence"; "#topological-winding"]).
      { rewrite !elem_of_cons, elem_of_nil.
        intros [H | [H | [H | [H | [H | H]]]]]; first [discriminate | exact H]. }
      rewrite (untouched_spawn _ _ (untouched_refreshMetrics _ Hother)).
      cbn [dom with_dom]. rewrite lookup_insert_ne by done.
      rewrite lookup_insert_eq. reflexivity.
    + rewrite (untouched_spawn _ _ (untouched_refreshMetrics _ status_is_not_refreshed)).
      cbn [dom with_dom]. now rewrite lookup_insert_eq.
  - intros e He. erewrite try_caught.
    2:{ erewrite bind_throw by (apply api_pair; exact He). reflexivity. }
    erewrite set_textContent_present by (rewrite api_dom; exact Hresult1).
    cbn [snd]. unfold shown. cbn [requests dom with_dom]. repeat split.
    + now rewrite api_requests, Hreq1.
    + now rewrite lookup_insert_eq.
    + rewrite lookup_insert_ne by done. now rewrite api_dom.
Qed.

(** X18: whatever the inputs of the campaign form hold, the [target_value]
    the handler sends is never NaN, and the [max_steps] it sends is never
    NaN and never zero. *)
Theorem campaign_numbers_are_never_nan input :
  is_NaN (campaign_target_value input) = false
  /\ is_NaN (campaign_max_steps input) = false
  /\ (forall negative, campaign_max_steps input <> S754_zero negative).
Proof.
  unfold campaign_target_value, campaign_max_steps, number_or.
  repeat split.
  - now destruct (parseFloat _).
  - now destruct (parseInt _ _).
  - intros negative. now destruct (parseInt _ _).
Qed.

(** ** An answer without a task id *)

Lemma tick_first_request st poll p task_id :
  timers st !! poll = Some {| period := p; action := poll_callback task_id |} ->
  exists rest,
    requests (step (Tick poll) st) = requests st ++ poll_request task_id :: rest.
Proof.
  intros Ht. unfold step. rewrite Ht. cbn [action]. unfold run.
  rewrite spawn_requests. unfold run_callback.
  destruct (starts_with_api_bind (fun _ => True) ("/tasks/" +:+ ToString task_id)
              no_options
              (fun status =>
                 let! state := lift (get_field status "status") in
                 if strict_eq_string state "Completed"
                 then clearInterval poll ;;
                      set_textContent statusEl "EQGFT task completed." ;;
                      spawn refreshMetrics ;; spawn refreshViz
                 else ret tt)
              ltac:(intros status; cbv beta; repeat appends_step;
                    eapply appends_weaken;
                    [ intros ? _; exact I | apply refreshMetrics_requests
                    | intros ? _; exact I | apply refreshViz_requests ]) st)
    as (rest & Hrest & _).
  now exists rest.
Qed.

(** X19: when the answer to the submission is an object without [task_id],
    the handler of [#eqgft-send-llm] still starts its interval, and the
    first tick of it asks for GET /api/tasks/undefined. *)
Theorem a_submission_without_task_id_polls_undefined
    st queryEl responseEl el res1 task res2 props :
  dom st !! eqgftLlmQueryEl = Some queryEl ->
  dom st !! eqgftResponseEl = Some responseEl ->
  dom st !! statusEl = Some el ->
  server st (length (requests st)) = inr res1 ->
  ok res1 = true -> JSON_parse (text res1) = inr task ->
  server st (S (length (requests st))) = inr res2 ->
  ok res2 = true -> JSON_parse (text res2) = inr (VObj props) ->
  assoc "task_id" props = None ->
  let clicked := snd (handle_eqgftSendLlmBtn_click st) in
  timers clicked !! next_timer st
  = Some {| period := 1000; action := poll_callback VUndefined |}
  /\ exists rest,
      map url (requests (step (Tick (next_timer st)) clicked))
      = map url (requests clicked) ++ "/api/tasks/undefined" :: rest.
Proof.
  intros Hq Hresp Hstatus Hres1 Hok1 Hjson1 Hres2 Hok2 Hjson2 Hid clicked.
  destruct (send_llm_starts_interval st _ _ _ _ _ _ _
              Hq Hresp Hstatus Hres1 Hok1 Hjson1 Hres2 Hok2 Hjson2
              ltac:(discriminate) ltac:(discriminate))
    as (st' & Hrun & Htimers & _).
  subst clicked. rewrite Hrun. cbn [snd].
  assert (Ht : timers st' !! next_timer st
               = Some {| period := 1000; action := poll_callback VUndefined |}).
  { rewrite Htimers, lookup_insert_eq. unfold property. now rewrite Hid. }
  split; [exact Ht |].
  destruct (tick_first_request _ _ _ _ Ht) as (rest & Hrest).
  exists (map url rest). rewrite Hrest, map_app. reflexivity.
Qed.

End Client.

(** An ok response with an empty body, as for [204 No Content]: [api]
    throws although the response is ok, so "[api] throws if and only if the
    response is not ok" fails. *)
Lemma api_throws_on_ok_response :
  let res := Sample.ok_with EmptyString in
  let st := App.initial Sample.page (Sample.always res) in
  Browser.server st (length (Browser.requests st)) = inr res
  /\ fst (App.api (eng := Sample.engine) "/metrics" Browser.no_options st)
     = Js.Throw (Js.SyntaxError "Unexpected end of JSON input")
  /\ ~ ((exists e, fst (App.api (eng := Sample.engine) "/metrics" Browser.no_options st)
                   = Js.Throw e)
        <-> Browser.ok res = false).
Proof.
  cbv zeta. split; [reflexivity | split; [reflexivity |]].
  intros [Hthrows _]. discriminate Hthrows. now eexists.
Qed.

Lemma api_throws_iff_not_ok_or_invalid_json_witness :
  exists e,
    fst (App.api (eng := Sample.engine) "/metrics" Browser.no_options
           (App.initial Sample.page (Sample.always (Sample.failing "Not Found" EmptyString))))
    = Js.Throw e
    /\ Js.message e = "Not Found".
Proof.
  exact (proj1 (proj2 (api_throws_iff_not_ok_or_invalid_json
                         (eng := Sample.engine) "/metrics" Browser.no_options
                         (App.initial Sample.page
                            (Sample.always (Sample.failing "Not Found" EmptyString)))
                         (Sample.failing "Not Found" EmptyString) eq_refl)) eq_refl).
Defined.

(** C2 does not hold at the call of [api] inside the callback of the
    interval (lines 257-265), which has no [try]: when GET /api/tasks/t1 is
    answered [500 Internal Server Error] with the body [boom], the error is
    caught nowhere and is written nowhere: it is left uncaught, the page is
    as it was, and the interval keeps running. *)
Theorem poll_failure_is_not_caught :
  let st := Sample.polling
              (Sample.always (Sample.failing "Internal Server Error" "boom")) in
  let st' := App.step (eng := Sample.engine) (App.Tick 1) st in
  Browser.requests st' = [App.init_of "/tasks/t1" Browser.no_options]
  /\ Browser.uncaught st' = [Js.Error "boom"]
  /\ Browser.dom st' = Browser.dom st
  /\ Browser.timers st' = Browser.timers st.
Proof.
  cbv zeta.
  rewrite (poll_failure_escapes (eng := Sample.engine)
             (Sample.polling
                (Sample.always (Sample.failing "Internal Server Error" "boom")))
             1 1000 (Js.VStr "t1") (Js.Error "boom") eq_refl eq_refl).
  now repeat split.
Qed.

(** ** The theorems at the sample inputs *)

#[local] Existing Instance Sample.engine.

Lemma poll_interval_stops_iff_completed_witness :
  Browser.timers
    (App.step (eng := Sample.engine) (App.Tick 1)
       (Sample.polling
          (Sample.always (Sample.ok_with (Sample.member "status" "Completed")))))
    !! 1
  = None.
Proof.
  refine (proj2 (proj1 (proj2 (proj2 (proj2
            (poll_interval_stops_iff_completed (eng := Sample.engine)))))
            (Sample.polling
               (Sample.always (Sample.ok_with (Sample.member "status" "Completed"))))
            1 _ eq_refl) _).
  exists (Sample.ok_with (Sample.member "status" "Completed")),
    (Js.VObj [("status", Js.VStr "Completed")]).
  repeat split.
Defined.

Lemma eqgft_run_posts_one_of_three_task_shapes_witness :
  exists rest,
    Browser.requests
      (snd (App.handle_eqgftRunBtn_click (eng := Sample.engine)
              (App.initial Sample.page_with_line_plot
                 (Sample.always (Sample.ok_with "{}")))))
    = App.init_of "/tasks"
        (Browser.POST
           (Js.JSON_stringify
              (Js.VObj
                 [("task",
                   Js.VObj
                     [("task_name", Js.VStr "Simulate EQGFT Asymmetry");
                      ("geometric_operator", Js.VStr "SimulateEqgftAsymmetry");
                      ("parameters",
                       Js.VObj [("kappa", Js.VNum (Js.number_of_Z 2));
                                ("n_events", Js.VNum (Js.number_of_Z 100));
                                ("systematic_error", Js.VNum (Js.number_of_Z 0))])]);
                  ("execute", Js.VBool true)])
              None))
      :: rest.
Proof.
  destruct (eqgft_run_posts_one_of_three_task_shapes (eng := Sample.engine)
              (App.initial Sample.page_with_line_plot
                 (Sample.always (Sample.ok_with "{}")))
              _ _ _ _ _ eq_refl eq_refl eq_refl eq_refl eq_refl)
    as (task & rest & Hrequests & _ & _ & Hline & _).
  exists rest. rewrite Hrequests, (Hline eq_refl). reflexivity.
Defined.

Lemma updatePhysicsConstants_writes_four_fields_witness :
  Browser.dom
    (snd (App.updatePhysicsConstants (eng := Sample.engine) (Js.VObj Sample.metrics)
            (App.initial Sample.page (Sample.always (Sample.ok_with "{}")))))
    !! "#topological-winding"
  = Some (Browser.with_content Sample.blank
            [Browser.TextNode (Js.toFixed (Js.number_of_Z 9) 4)]).
Proof.
  rewrite (proj1 (proj2 (updatePhysicsConstants_writes_four_fields (eng := Sample.engine)))
             Sample.metrics
             (App.initial Sample.page (Sample.always (Sample.ok_with "{}")))
             _ _ _ _ _ _ _ _
             eq_refl eq_refl eq_refl eq_refl eq_refl eq_refl eq_refl eq_refl).
  reflexivity.
Defined.

Lemma refreshHopfionField_plots_positions_as_directions_witness :
  Browser.plots
    (snd (App.refreshHopfionField (eng := Sample.engine)
            (App.initial Sample.page
               (Sample.always (Sample.ok_with Sample.hopfion_text)))))
  = [("eqgft-response",
      [ {| Browser.type := "cone";
           Browser.x := [Js.VNum (Js.number_of_Z 1); Js.VNum (Js.number_of_Z 5)];
           Browser.y := [Js.VNum (Js.number_of_Z 2); Js.VNum (Js.number_of_Z 6)];
           Browser.z := [Js.VNum (Js.number_of_Z 3); Js.VNum (Js.number_of_Z 7)];
           Browser.u := [Js.VNum (Js.number_of_Z 1); Js.VNum (Js.number_of_Z 5)];
           Browser.v := [Js.VNum (Js.number_of_Z 2); Js.VNum (Js.number_of_Z 6)];
           Browser.w := [Js.VNum (Js.number_of_Z 3); Js.VNum (Js.number_of_Z 7)];
           Browser.sizemode := "absolute"; Browser.sizeref := 1 |} ])].
Proof.
  exact (proj1 (refreshHopfionField_plots_positions_as_directions (eng := Sample.engine))
           (App.initial Sample.page (Sample.always (Sample.ok_with Sample.hopfion_text)))
           (Sample.ok_with Sample.hopfion_text)
           [("q_x", Js.VArr (map Contract.tuple Sample.hopfion_tuples))]
           Sample.hopfion_tuples eq_refl eq_refl eq_refl eq_refl).
Defined.

Lemma refreshTasks_renders_one_row_per_task_witness :
  Browser.content <$>
    Browser.dom
      (snd (App.refreshTasks (eng := Sample.engine)
              (App.initial Sample.page
                 (Sample.always (Sample.ok_with Sample.task_list_text)))))
      !! App.taskListEl
  = Some [ Contract.expected_row (eng := Sample.engine)
             (Js.VObj [("task_id", Js.VStr "t1"); ("status", Js.VStr "Completed")]);
           Contract.expected_row (eng := Sample.engine)
             (Js.VObj [("task_id", Js.VStr "t2"); ("status", Js.VStr "Running")]) ].
Proof.
  rewrite (proj1 (refreshTasks_renders_one_row_per_task (eng := Sample.engine))
             (App.initial Sample.page
                (Sample.always (Sample.ok_with Sample.task_list_text)))
             (Sample.ok_with Sample.task_list_text)
             [ Js.VObj [("task_id", Js.VStr "t1"); ("status", Js.VStr "Completed")];
               Js.VObj [("task_id", Js.VStr "t2"); ("status", Js.VStr "Running")] ]
             Sample.blank eq_refl eq_refl eq_refl).
  - reflexivity.
  - repeat constructor; discriminate.
  - reflexivity.
Defined.

Lemma invalid_context_stops_before_any_request_witness :
  Browser.requests
    (snd (App.handle_startResearchBtn_click (eng := Sample.engine)
            (App.initial Sample.page_with_bad_context
               (Sample.always (Sample.ok_with "{}")))))
  = []
  /\ Browser.content <$>
       Browser.dom
         (snd (App.handle_startResearchBtn_click (eng := Sample.engine)
                 (App.initial Sample.page_with_bad_context
                    (Sample.always (Sample.ok_with "{}")))))
         !! App.researchResultEl
     = Some [Browser.TextNode "Invalid context JSON: Unexpected token in JSON"].
Proof.
  rewrite (proj1 (invalid_context_stops_before_any_request (eng := Sample.engine))
             (App.initial Sample.page_with_bad_context
                (Sample.always (Sample.ok_with "{}")))
             "{" (Js.SyntaxError "Unexpected token in JSON") Sample.blank
             eq_refl eq_refl eq_refl eq_refl).
  split; reflexivity.
Defined.

Lemma campaign_request_is_fully_populated_witness :
  App.campaign_target_value (eng := Sample.engine) (Some "abc") = S754_zero false.
Proof.
  exact (proj1 (proj2 (proj2 (proj2 (proj2 (proj2
           (campaign_request_is_fully_populated (eng := Sample.engine)))))))
           (Some "abc") eq_refl).
Defined.

(** ** The script on the sample page *)

Example load_sends_three_requests :
  map Browser.url (Browser.requests (App.load Sample.page Sample.session))
  = ["/api/metrics"; "/api/tasks"; "/api/visualization/packet"].
Proof. vm_compute. reflexivity. Qed.

Example load_attaches_seven_listeners :
  Browser.listeners (App.load Sample.page Sample.session)
  = [ Browser.submitTaskBtn_click; Browser.startResearchBtn_click;
      Browser.refreshMetricsBtn_click; Browser.llmQueryBtn_click;
      Browser.eqgftVizTypeEl_change; Browser.eqgftRunBtn_click;
      Browser.eqgftSendLlmBtn_click ].
Proof. vm_compute. reflexivity. Qed.

(** Without [#status] line 176 throws, and the listeners of lines 185-269
    are never attached. *)
Example load_without_status_stops_at_line_176 :
  Browser.listeners (App.load (delete App.statusEl Sample.page) Sample.session)
  = [ Browser.submitTaskBtn_click; Browser.startResearchBtn_click;
      Browser.refreshMetricsBtn_click; Browser.llmQueryBtn_click ]
  /\ length (Browser.uncaught
               (App.load (delete App.statusEl Sample.page) Sample.session)) = 1.
Proof. split; vm_compute; reflexivity. Qed.

(** A whole session: the click starts interval 1, the first poll leaves it
    running, the second one ends it. *)
Example session_polls_until_completed :
  let clicked := App.step (App.Fire Browser.eqgftSendLlmBtn_click)
                   (App.load Sample.page Sample.session) in
  let polled := App.step (App.Tick 1) clicked in
  let done := App.step (App.Tick 1) polled in
  Browser.timers clicked
  = {[ 1 := {| Browser.period := 1000;
               Browser.action := Browser.poll_callback (Js.VStr "t1") |} ]}
  /\ Browser.timers polled = Browser.timers clicked
  /\ Browser.timers done = ∅
  /\ map (fun r => (Browser.http_method r, Browser.url r)) (Browser.requests done)
     = [ ("GET", "/api/metrics"); ("GET", "/api/tasks");
         ("GET", "/api/visualization/packet");
         ("POST", "/api/llm/plan-eqgft-task"); ("POST", "/api/tasks");
         ("GET", "/api/tasks/t1"); ("GET", "/api/tasks/t1");
         ("GET", "/api/metrics"); ("GET", "/api/visualization/packet") ]
  /\ Browser.uncaught done = [].
Proof.
  cbv zeta. refine (conj _ (conj _ (conj _ (conj _ _)))); vm_compute; reflexivity.
Qed.

(** ** The further properties at the sample inputs *)

Lemma refresh_functions_write_their_own_elements_only_witness :
  Browser.dom
    (snd (App.refreshMetrics (App.initial Sample.page Sample.session)))
    !! App.statusEl
  = Some Sample.blank.
Proof.
  rewrite (proj1 (refresh_functions_write_their_own_elements_only (eng := Sample.engine)
                    (App.initial Sample.page Sample.session) App.statusEl)).
  - vm_compute. reflexivity.
  - rewrite !elem_of_cons, elem_of_nil.
    intros [H | [H | [H | [H | [H | H]]]]]; first [discriminate | exact H].
Defined.

Lemma submit_of_invalid_json_sends_nothing_witness :
  Browser.requests
    (snd (App.handle_submitTaskBtn_click
            (App.initial Trial.page_with_bad_task Sample.session)))
  = [].
Proof.
  rewrite (submit_of_invalid_json_sends_nothing (eng := Sample.engine)
             (App.initial Trial.page_with_bad_task Sample.session)
             (Sample.input "{") (Js.SyntaxError "Unexpected token in JSON")
             Sample.blank);
    [reflexivity | vm_compute; reflexivity ..].
Defined.

Lemma submit_posts_then_refreshes_or_reports_witness :
  map Browser.url
    (Browser.requests
       (snd (App.handle_submitTaskBtn_click
               (App.initial Trial.page_with_task Sample.session))))
  = ["/api/tasks"; "/api/tasks"; "/api/metrics"].
Proof.
  destruct (proj1 (submit_posts_then_refreshes_or_reports (eng := Sample.engine)
                     (App.initial Trial.page_with_task Sample.session)
                     (Sample.input "{}") Sample.blank Sample.blank (Js.VObj [])
                     ltac:(vm_compute; reflexivity) ltac:(vm_compute; reflexivity)
                     ltac:(vm_compute; reflexivity) ltac:(vm_compute; reflexivity))
              (Js.VObj []) ltac:(vm_compute; reflexivity)) as [Hrequests _].
  rewrite Hrequests. reflexivity.
Defined.

Lemma llm_query_fills_the_task_editor_witness :
  Browser.value <$>
    Browser.dom
      (snd (App.handle_llmQueryBtn_click (App.initial Sample.page Sample.session)))
      !! App.taskJsonEl
  = Some "{}".
Proof.
  rewrite (proj1 (llm_query_fills_the_task_editor (eng := Sample.engine)
                    (App.initial Sample.page Sample.session)
                    Sample.blank Sample.blank Sample.blank Sample.blank
                    ltac:(vm_compute; reflexivity) ltac:(vm_compute; reflexivity)
                    ltac:(vm_compute; reflexivity) ltac:(vm_compute; reflexivity))
             (Js.VObj []) ltac:(vm_compute; reflexivity)).
  vm_compute. reflexivity.
Defined.

Lemma llm_blueprint_is_what_submit_posts_witness :
  exists rest,
    Browser.requests
      (snd (App.handle_submitTaskBtn_click
              (snd (App.handle_llmQueryBtn_click
                      (App.initial Sample.page Sample.session)))))
    = Browser.requests
        (snd (App.handle_llmQueryBtn_click (App.initial Sample.page Sample.session)))
      ++ App.init_of "/tasks"
           (Browser.POST
              (Js.JSON_stringify
                 (Js.VObj [("task", Js.VObj []); ("execute", Js.VBool false)]) None))
         :: rest.
Proof.
  exact (llm_blueprint_is_what_submit_posts (eng := Sample.engine)
           (App.initial Sample.page Sample.session)
           Sample.blank Sample.blank Sample.blank Sample.blank Sample.blank (Js.VObj [])
           ltac:(vm_compute; reflexivity) ltac:(vm_compute; reflexivity)
           ltac:(vm_compute; reflexivity) ltac:(vm_compute; reflexivity)
           ltac:(vm_compute; reflexivity) ltac:(vm_compute; reflexivity)
           ltac:(vm_compute; reflexivity)).
Defined.

Lemma hopfion_field_is_fetched_for_3d_vector_field_only_witness :
  Browser.plots
    (snd (App.handle_eqgftRunBtn_click
            (App.initial Sample.page_with_line_plot Sample.session)))
  = [].
Proof.
  destruct (proj1 (hopfion_field_is_fetched_for_3d_vector_field_only (eng := Sample.engine)
                     (App.initial Sample.page_with_line_plot Sample.session)
                     (Sample.input "line-plot") (Sample.input "100") (Sample.input "2")
                     (Sample.input "0") Sample.blank Sample.blank
                     ltac:(vm_compute; reflexivity) ltac:(vm_compute; reflexivity)
                     ltac:(vm_compute; reflexivity) ltac:(vm_compute; reflexivity)
                     ltac:(vm_compute; reflexivity) ltac:(vm_compute; reflexivity))
              ltac:(discriminate)) as [Hplots _].
  exact Hplots.
Defined.

Lemma refreshMetrics_stops_at_the_first_missing_constant_witness :
  Conduct.shown "#electron-mass"
    (snd (App.refreshMetrics (eng := Trial.engine)
            (App.initial Sample.page
               (Sample.always (Sample.ok_with Trial.partial_metrics_text)))))
  = Some [Browser.TextNode "0e+0 kg"].
Proof.
  exact (proj1 (refreshMetrics_stops_at_the_first_missing_constant
                  (eng := Trial.engine)
                  (App.initial Sample.page
                     (Sample.always (Sample.ok_with Trial.partial_metrics_text)))
                  (Sample.ok_with Trial.partial_metrics_text)
                  [("metrics", Js.VObj Trial.partial_metrics)] Trial.partial_metrics
                  (Js.number_of_Z 1) Sample.blank Sample.blank
                  ltac:(vm_compute; reflexivity) ltac:(vm_compute; reflexivity)
                  ltac:(vm_compute; reflexivity) ltac:(vm_compute; reflexivity)
                  ltac:(vm_compute; reflexivity) ltac:(vm_compute; reflexivity)
                  ltac:(vm_compute; reflexivity) ltac:(vm_compute; reflexivity))).
Defined.

Lemma every_interval_has_period_1000_and_its_own_handle_witness :
  Browser.period
    {| Browser.period := 1000;
       Browser.action := Browser.poll_callback (Js.VStr "t1") |}
  = 1000
  /\ 1 < Browser.next_timer
           (App.steps [App.Fire Browser.eqgftSendLlmBtn_click]
              (App.load Sample.page Sample.session)).
Proof.
  exact (every_interval_has_period_1000_and_its_own_handle (eng := Sample.engine)
           Sample.page Sample.session [App.Fire Browser.eqgftSendLlmBtn_click] 1
           {| Browser.period := 1000;
              Browser.action := Browser.poll_callback (Js.VStr "t1") |}
           ltac:(vm_compute; reflexivity)).
Defined.


Lemma refreshHopfionField_rejects_what_it_cannot_read_witness :
  Browser.plots
    (snd (App.refreshHopfionField
            (App.initial Sample.page (Sample.always (Sample.ok_with "{}")))))
  = [].
Proof.
  destruct (proj2 (refreshHopfionField_rejects_what_it_cannot_read (eng := Sample.engine)
                     (App.initial Sample.page (Sample.always (Sample.ok_with "{}")))
                     (Sample.ok_with "{}") (Js.VObj [])
                     ltac:(vm_compute; reflexivity) ltac:(vm_compute; reflexivity)
                     ltac:(vm_compute; reflexivity))
              [] Sample.blank eq_refl (or_introl eq_refl)
              ltac:(vm_compute; reflexivity)) as [Hplots _].
  exact Hplots.
Defined.

Lemma listeners_leave_no_error_uncaught_witness :
  Browser.uncaught
    (App.steps
       (map App.Fire [Browser.eqgftSendLlmBtn_click; Browser.submitTaskBtn_click])
       (App.load Sample.page Sample.session))
  = [].
Proof.
  apply (listeners_leave_no_error_uncaught (eng := Sample.engine)).
  intros sel Hsel. unfold Conduct.looked_up in Hsel.
  repeat (apply elem_of_cons in Hsel as [-> | Hsel];
          [eexists; vm_compute; reflexivity |]).
  now apply elem_of_nil in Hsel.
Defined.

Lemma campaign_reports_its_outcome_witness :
  map Browser.url
    (Browser.requests
       (snd (App.run_campaign (Js.VObj [])
               (App.initial Sample.page Sample.session))))
  = ["/api/llm/research-campaign"; "/api/metrics"].
Proof.
  destruct (proj1 (campaign_reports_its_outcome (eng := Sample.engine) (Js.VObj [])
                     (App.initial Sample.page Sample.session)
                     Sample.blank Sample.blank
                     ltac:(vm_compute; reflexivity) ltac:(vm_compute; reflexivity))
              (Js.VObj []) ltac:(vm_compute; reflexivity)) as [Hrequests _].
  rewrite Hrequests. reflexivity.
Defined.

Lemma a_submission_without_task_id_polls_undefined_witness :
  Browser.timers
    (snd (App.handle_eqgftSendLlmBtn_click
            (App.initial Sample.page (Sample.always (Sample.ok_with "{}")))))
    !! 1
  = Some {| Browser.period := 1000;
            Browser.action := Browser.poll_callback Js.VUndefined |}.
Proof.
  exact (proj1 (a_submission_without_task_id_polls_undefined (eng := Sample.engine)
                  (App.initial Sample.page (Sample.always (Sample.ok_with "{}")))
                  Sample.blank Sample.blank Sample.blank
                  (Sample.ok_with "{}") (Js.VObj []) (Sample.ok_with "{}") []
                  ltac:(vm_compute; reflexivity) ltac:(vm_compute; reflexivity)
                  ltac:(vm_compute; reflexivity) ltac:(vm_compute; reflexivity)
                  ltac:(vm_compute; reflexivity) ltac:(vm_compute; reflexivity)
                  ltac:(vm_compute; reflexivity) ltac:(vm_compute; reflexivity)
                  ltac:(vm_compute; reflexivity) ltac:(vm_compute; reflexivity))).
Defined.
